(** * Pret inventory monitor: the alerting core

    A shallow embedding of [src/monitor/src/utils.ts] (the severity
    classifier) and [src/monitor/src/alerts.ts] (the [SmartAlertFilter]
    suppression engine and the [AlertManager] alert store), with the
    properties the specification states about them.  After them come
    the code around this core: the other helpers of utils.ts, the
    notifications, the settings, camera.ts, map.ts and the part of
    main.ts that polls a store and raises alerts, with further
    properties of all of it.

    Conventions of the embedding.
    - A JavaScript [number] that carries a sensor value (fill percentage,
      temperature, confidence) is a rational [Q]: the code only compares
      such numbers with constants, takes absolute values and tests them
      for truthiness, and all of these are exact on finite doubles.  The
      non-finite doubles (NaN, the infinities) are outside the model.
    - Millisecond clock readings ([Date.now()]), suppression windows and
      the [limit] of a query are integers, [Z].
    - An optional field [x?: T] is an [option T]; [None] is [undefined].
      A property that holds [undefined] is not told apart from a property
      that is absent.
    - The type of an alert is a string, as it is at run time; the three
      declared names are the ones the code matches on, every other name
      takes the [default] branches.  The tables of the code (the windows,
      the minimum confidences, the counts of the statistics) are object
      literals, read here by their own entries.  The code reads them so
      for every name but the ones an object inherits from
      [Object.prototype] ([constructor], [toString], [__proto__] and the
      like), where it finds a function or an object and no entry: a
      statement that depends on what is read for a name is made for
      the declared names.
    - A method of a class takes the object's state and returns the
      result together with the new state.  One call is synchronous: every
      clock read inside it observes the same instant [now].
    - The store's collaborators behave: [localStorage.setItem] stores
      what it is given and a subscribed listener returns normally.
    - An asynchronous method runs as if it were alone: nothing else
      touches the objects it works on while it is suspended. *)

From Stdlib Require Import QArith Qabs Qround Ascii.
From stdpp Require Import gmap strings list fin_maps pretty countable.

Local Open Scope string_scope.
Local Open Scope Z_scope.

(** ** JavaScript primitives used by the code *)

(** [ToBoolean] on an optional boolean and on an optional number:
    [undefined], [false] and [0] are falsy. *)
Definition truthy_bool (b : option bool) : bool :=
  match b with Some true => true | _ => false end.

Definition truthy_num (x : option Q) : bool :=
  match x with Some q => negb (Qeq_bool q 0) | None => false end.

(** [a < b] on numbers. *)
Definition Qltb (a b : Q) : bool := negb (Qle_bool b a).

(** [x < c] and [x > c] where [x] may be [undefined]: a comparison with
    [undefined] is false. *)
Definition num_lt (x : option Q) (c : Q) : bool :=
  match x with Some q => Qltb q c | None => false end.

Definition num_gt (x : option Q) (c : Q) : bool :=
  match x with Some q => Qltb c q | None => false end.

(** [Math.abs(x)]. *)
Definition Math_abs (x : option Q) : option Q := Qabs <$> x.

(** ** utils.ts: the severity classifier *)

Inductive Severity := low | medium | high | critical.

Definition Severity_name (s : Severity) : string :=
  match s with
  | low => "low" | medium => "medium" | high => "high" | critical => "critical"
  end.

(** The [context] argument of [calculateAlertSeverity]. *)
Record SeverityContext := mkSeverityContext {
  sc_temperature : option Q;
  sc_fillPercent : option Q;
  sc_confidence : option Q
}.

(** [calculateAlertSeverity(type, context)].  [type] is a string at run
    time; the [default] branch of the [switch] serves every other name. *)
Definition calculateAlertSeverity (type : string) (context : SeverityContext) : Severity :=
  if String.eqb type "temperature" then
    if negb (truthy_num (sc_temperature context)) then medium
    else
      let tempAbs := Math_abs (sc_temperature context) in
      if num_gt tempAbs 10 then critical
      else if num_gt tempAbs 5 then high
      else if num_gt tempAbs 2 then medium
      else low
  else if String.eqb type "empty_shelf" then
    if negb (truthy_num (sc_fillPercent context)) then medium
    else if num_lt (sc_fillPercent context) 5 then high
    else if num_lt (sc_fillPercent context) 15 then medium
    else if num_lt (sc_fillPercent context) 25 then low
    else low
  else if String.eqb type "equipment_failure" then critical
  else medium.

(** The rule table of the specification, section 4.1, word for word:
    absence is the only case that yields the fallback [medium]. *)
Definition severity_table (type : string) (context : SeverityContext) : Severity :=
  if String.eqb type "temperature" then
    match sc_temperature context with
    | None => medium
    | Some t =>
        if Qltb 10 (Qabs t) then critical
        else if Qltb 5 (Qabs t) then high
        else if Qltb 2 (Qabs t) then medium
        else low
    end
  else if String.eqb type "empty_shelf" then
    match sc_fillPercent context with
    | None => medium
    | Some f =>
        if Qltb f 5 then high
        else if Qltb f 15 then medium
        else if Qltb f 25 then low
        else low
    end
  else if String.eqb type "equipment_failure" then critical
  else medium.

(** A present number that is not zero, or an absent one: the inputs on
    which a truthiness test and a presence test agree. *)
Definition absent_or_nonzero (x : option Q) : Prop :=
  match x with Some q => Qeq_bool q 0 = false | None => True end.

(** [generateId()]: the clock reading in decimal, a dash, and the nine
    base-36 digits cut from [Math.random()], here the input [rnd]. *)
Definition generateId (now : Z) (rnd : string) : string :=
  pretty now +:+ "-" +:+ rnd.

(** ** alerts.ts: SmartAlertFilter *)

Module SmartAlertFilter.

(** The [context] argument of [shouldSuppressAlert]. *)
Record Context := mkContext {
  personDetected : option bool;
  isBusinessHours : option bool;
  fillPercent : option Q;
  temperature : option Q;
  confidence : option Q
}.

(** The two private maps of the class. *)
Record t := mk {
  recentAlerts : gmap string Z;
  suppressionRules : gmap string Z
}.

(** [new SmartAlertFilter()]. *)
Definition new : t := {| recentAlerts := ∅; suppressionRules := ∅ |}.

Definition oneHour : Z := 60 * 60 * 1000.

(** [x || 0] on a map read of millisecond values, and [ToBoolean] of
    such a read. *)
Definition or_zero (x : option Z) : Z :=
  match x with Some v => v | None => 0 end.

Definition truthy_ms (x : option Z) : bool :=
  match x with Some v => negb (Z.eqb v 0) | None => false end.

Definition shouldSuppressBasedOnContext (type : string) (context : Context) : bool :=
  if String.eqb type "empty_shelf" then
    if truthy_bool (personDetected context) then true
    else if truthy_num (fillPercent context) && num_gt (fillPercent context) 20 then true
    else if negb (truthy_bool (isBusinessHours context))
            && truthy_num (fillPercent context) && num_gt (fillPercent context) 10 then true
    else false
  else if String.eqb type "temperature" then
    if truthy_bool (isBusinessHours context)
       && truthy_num (temperature context) && num_lt (Math_abs (temperature context)) 3 then true
    else if truthy_num (temperature context) && num_lt (Math_abs (temperature context)) 1 then true
    else false
  else false.

(** [baseTimes[type] || 5 * 60 * 1000], by the own entries of the
    table. *)
Definition baseTimes (type : string) : Z :=
  if String.eqb type "empty_shelf" then 5 * 60 * 1000
  else if String.eqb type "temperature" then 10 * 60 * 1000
  else if String.eqb type "equipment_failure" then 2 * 60 * 1000
  else 5 * 60 * 1000.

Definition getSuppressionTime (this : t) (type : string) (context : Context) : Z :=
  let customRule := suppressionRules this !! type in
  if truthy_ms customRule then or_zero customRule
  else
    let suppressionTime := baseTimes type in
    if truthy_bool (isBusinessHours context)
       && (String.eqb type "equipment_failure" || String.eqb type "temperature")
    then suppressionTime / 2
    else suppressionTime.

(** [minConfidences[type] || 75], by the own entries of the table. *)
Definition getMinConfidence (type : string) : Q :=
  if String.eqb type "empty_shelf" then 70
  else if String.eqb type "temperature" then 80
  else if String.eqb type "equipment_failure" then 90
  else 75.

(** [cleanupOldEntries()]: every entry with [now - time > oneHour] is
    deleted. *)
Definition cleanupOldEntries (now : Z) (this : t) : t :=
  {| recentAlerts := filter (λ kt, ¬ (now - kt.2 > oneHour)) (recentAlerts this);
     suppressionRules := suppressionRules this |}.

(** [setSuppressionRule(type, timeMs)] and [clearSuppressionHistory()]. *)
Definition setSuppressionRule (type : string) (timeMs : Z) (this : t) : t :=
  {| recentAlerts := recentAlerts this;
     suppressionRules := <[type := timeMs]> (suppressionRules this) |}.

Definition clearSuppressionHistory (this : t) : t :=
  {| recentAlerts := ∅; suppressionRules := suppressionRules this |}.

(** The key [`${storeId}-${type}`]. *)
Definition alertKey (storeId type : string) : string := storeId +:+ "-" +:+ type.

(** The confidence test of [shouldSuppressAlert]:
    [context.confidence && context.confidence < this.getMinConfidence(type)]. *)
Definition belowMinConfidence (type : string) (context : Context) : bool :=
  truthy_num (confidence context) && num_lt (confidence context) (getMinConfidence type).

(** [shouldSuppressAlert(storeId, type, context)] called at the instant
    [now]: the decision and the filter afterwards. *)
Definition shouldSuppressAlert (storeId type : string) (context : Context)
    (now : Z) (this : t) : bool * t :=
  let alertKey := alertKey storeId type in
  let lastAlert := or_zero (recentAlerts this !! alertKey) in
  let suppressionTime := getSuppressionTime this type context in
  if now - lastAlert <? suppressionTime then (true, this)
  else if shouldSuppressBasedOnContext type context then (true, this)
  else if belowMinConfidence type context then (true, this)
  else
    (false,
     cleanupOldEntries now
       {| recentAlerts := <[alertKey := now]> (recentAlerts this);
          suppressionRules := suppressionRules this |}).

End SmartAlertFilter.

(** ** JavaScript values held by alert objects *)

(** The data an alert object holds, which is the data JSON carries:
    [null], booleans, finite numbers, strings, arrays and objects.  An
    object is the list of its own properties in insertion order, no
    name twice; a property that is absent reads as [undefined], here
    [None]. *)
Local Unset Elimination Schemes.
Inductive value :=
| VNull
| VBool (b : bool)
| VNum (n : Q)
| VStr (s : string)
| VArr (items : list value)
| VObj (props : list (string * value)).
Local Set Elimination Schemes.

Abbreviation object := (list (string * value)).

(** [o[k]]. *)
Fixpoint obj_get (o : object) (k : string) : option value :=
  match o with
  | [] => None
  | (k', v) :: o' => if String.eqb k' k then Some v else obj_get o' k
  end.

(** [o[k] = v]: an existing property keeps its place, a new one goes
    last. *)
Fixpoint obj_set (k : string) (v : value) (o : object) : object :=
  match o with
  | [] => [(k, v)]
  | (k', v') :: o' =>
      if String.eqb k' k then (k', v) :: o' else (k', v') :: obj_set k v o'
  end.

(** The object literal [{ ...base, ...more }]: the properties of [more],
    in order, are written over [base]. *)
Definition obj_spread (base more : object) : object :=
  foldl (λ acc kv, obj_set kv.1 kv.2 acc) base more.

(** [ToBoolean] of a property read. *)
Definition truthy (m : option value) : bool :=
  match m with
  | None | Some VNull => false
  | Some (VBool b) => b
  | Some (VNum n) => negb (Qeq_bool n 0)
  | Some (VStr s) => negb (String.eqb s "")
  | Some (VArr _) | Some (VObj _) => true
  end.

(** [m === s] for a string [s]. *)
Definition strict_eq_string (m : option value) (s : string) : bool :=
  match m with Some (VStr s') => String.eqb s' s | _ => false end.

(** [Array.isArray(m)], and the elements of [m] when it is an array. *)
Definition isArray (m : option value) : bool :=
  match m with Some (VArr _) => true | _ => false end.

Definition array_items (m : option value) : list value :=
  match m with Some (VArr items) => items | _ => [] end.

(** A property read at the type TypeScript declares for it: a numeric
    field ([temperature?: number]) and the alert type (a string).  A
    type name that is not a string selects the [default] branch of every
    [switch], as the empty name does. *)
Definition as_number (m : option value) : option Q :=
  match m with Some (VNum n) => Some n | _ => None end.

Definition as_type_name (m : option value) : string :=
  match m with Some (VStr s) => s | _ => "" end.

(** [data.k] on an arbitrary parsed value: [None] is the TypeError that
    reading a property of [null] raises; a string, number, boolean or
    array has no own property of the names read here. *)
Definition member (data : value) (k : string) : option (option value) :=
  match data with
  | VNull => None
  | VObj props => Some (obj_get props k)
  | _ => Some None
  end.

(** The elements of a parsed array seen as alert objects.  The code
    stores the array as it is; an array with an element that is not an
    object is not an [Alert[]] and has no image in this model. *)
Definition as_object (v : value) : option object :=
  match v with VObj props => Some props | _ => None end.

Definition as_objects (items : list value) : option (list object) :=
  mapM as_object items.

(** [array.slice(0, end)]. *)
Definition slice_to {A} (l : list A) (end_ : Z) : list A :=
  let len := Z.of_nat (length l) in
  let k := if end_ <? 0 then Z.max (len + end_) 0 else Z.min end_ len in
  take (Z.to_nat k) l.

(** [x || 0] on a count read from an accumulator object. *)
Definition count_or_zero (x : option Z) : Z :=
  match x with Some v => v | None => 0 end.

(** ** The JavaScript host *)

(** What the host provides to the store: [JSON.stringify(v, null, space)]
    ([space] is 0 when the call gives none), [JSON.parse] ([None] when
    it throws a SyntaxError), [new Date(ms).toISOString()], the time
    value of [new Date(x)] for a property read [x] ([None] for an
    invalid date), and the property key a non-string value turns into. *)
Class Host := {
  JSON_stringify : value → nat → string;
  JSON_parse : string → option value;
  toISOString : Z → string;
  Date_getTime : option value → option Z;
  ToPropertyKey : option value → string
}.

(** [JSON.parse] reads back what [JSON.stringify] wrote. *)
Definition JSON_roundtrip (host : Host) : Prop :=
  ∀ (v : value) (space : nat), JSON_parse (JSON_stringify v space) = Some v.

(** ** alerts.ts: AlertManager *)

Module AlertManager.

(** The object and the part of the browser it writes to: the alert
    array (newest first), the subscribed listeners (by identity), the
    queue of alerts awaiting a push notification, the [localStorage]
    area, and the calls made to listeners so far, each with the snapshot
    it was handed (oldest call first).

    Alert objects are values here.  In the program the collection, the
    queue and the snapshots handed out share the alert objects, so
    setting [read] on an alert shows through all of them; the queue and
    the log below keep each alert as it was when it went in.  No
    statement of this development reads an alert through them. *)
Record t := mk {
  alerts : list object;
  listeners : list nat;
  notificationQueue : list object;
  localStorage : gmap string string;
  delivered : list (nat * list object)
}.

Definition with_alerts (l : list object) (this : t) : t :=
  mk l (listeners this) (notificationQueue this) (localStorage this) (delivered this).

(** The [filter] argument of [getAlerts]. *)
Record Filter := mkFilter {
  f_storeId : option string;
  f_type : option string;
  f_severity : option Severity;
  f_unreadOnly : option bool;
  f_limit : option Z
}.

(** The result of [getStatistics]. *)
Record Statistics := mkStatistics {
  total : Z;
  unread : Z;
  byType : gmap string Z;
  bySeverity : gmap string Z;
  last24Hours : Z
}.

Section WithHost.
Context {host : Host}.

(** [acc[x]] reads and writes go through the property key of [x]. *)
Definition property_key (m : option value) : string :=
  match m with Some (VStr s) => s | _ => ToPropertyKey m end.

Definition notifyListeners (this : t) : t :=
  mk (alerts this) (listeners this) (notificationQueue this) (localStorage this)
     (delivered this ++ ((λ listener, (listener, alerts this)) <$> listeners this)).

(** Keep only the newest 1000 alerts in storage.  [setItem] is taken to
    succeed: its [catch] branch only logs. *)
Definition saveToStorage (this : t) : t :=
  let alertsToSave := slice_to (alerts this) 1000 in
  mk (alerts this) (listeners this) (notificationQueue this)
     (<["pret-alerts" := JSON_stringify (VArr (VObj <$> alertsToSave)) 0]> (localStorage this))
     (delivered this).

Definition queueNotification (alert : object) (this : t) : t :=
  mk (alerts this) (listeners this) (notificationQueue this ++ [alert])
     (localStorage this) (delivered this).

(** The object literal of [addAlert]: the four synthesized fields, then
    the spread of [alertData]. *)
Definition newAlert (now : Z) (rnd : string) (alertData : object) : object :=
  obj_spread
    [ ("id", VStr (generateId now rnd));
      ("timestamp", VStr (toISOString now));
      ("read", VBool false);
      ("severity",
        VStr (Severity_name
          (calculateAlertSeverity (as_type_name (obj_get alertData "type"))
             {| sc_temperature := as_number (obj_get alertData "temperature");
                sc_fillPercent := as_number (obj_get alertData "fillPercent");
                sc_confidence := as_number (obj_get alertData "confidence") |}))) ]
    alertData.

(** [addAlert(alertData)] at the instant [now], with [rnd] the random
    part of the generated id. *)
Definition addAlert (now : Z) (rnd : string) (alertData : object) (this : t) : object * t :=
  let alert := newAlert now rnd alertData in
  let this := with_alerts (alert :: alerts this) this in
  let this := saveToStorage this in
  let this := notifyListeners this in
  let this := queueNotification alert this in
  (alert, this).

(** [alert.read = true] on the first alert with the given id, when it is
    unread.  [None]: no such alert, or it is read already. *)
Fixpoint markFirst (alertId : string) (l : list object) : option (list object) :=
  match l with
  | [] => None
  | a :: l' =>
      if strict_eq_string (obj_get a "id") alertId then
        if negb (truthy (obj_get a "read"))
        then Some (obj_set "read" (VBool true) a :: l') else None
      else (λ r, a :: r) <$> markFirst alertId l'
  end.

Definition markAsRead (alertId : string) (this : t) : t :=
  match markFirst alertId (alerts this) with
  | Some l => notifyListeners (saveToStorage (with_alerts l this))
  | None => this
  end.

Definition markAllAsRead (this : t) : t :=
  let hasChanges := existsb (λ alert, negb (truthy (obj_get alert "read"))) (alerts this) in
  let marked :=
    (λ alert, if negb (truthy (obj_get alert "read"))
              then obj_set "read" (VBool true) alert else alert) <$> alerts this in
  if hasChanges then notifyListeners (saveToStorage (with_alerts marked this)) else this.

(** [findIndex] and [splice(index, 1)]. *)
Fixpoint removeFirst (alertId : string) (l : list object) : option (list object) :=
  match l with
  | [] => None
  | a :: l' =>
      if strict_eq_string (obj_get a "id") alertId then Some l'
      else (λ r, a :: r) <$> removeFirst alertId l'
  end.

Definition deleteAlert (alertId : string) (this : t) : t :=
  match removeFirst alertId (alerts this) with
  | Some l => notifyListeners (saveToStorage (with_alerts l this))
  | None => this
  end.

Definition clearAll (this : t) : t :=
  notifyListeners (saveToStorage (with_alerts [] this)).

(** [ToBoolean] of the optional criteria of a filter. *)
Definition truthy_string (s : option string) : bool :=
  match s with Some s => negb (String.eqb s "") | None => false end.

Definition truthy_limit (n : option Z) : bool :=
  match n with Some n => negb (Z.eqb n 0) | None => false end.

(** [getAlerts(filter)].  The method assigns to no field. *)
Definition getAlerts (filter : option Filter) (this : t) : list object * t :=
  let filtered := alerts this in
  let filtered :=
    if truthy_string (filter ≫= f_storeId)
    then List.filter (λ a, strict_eq_string (obj_get a "storeId")
                             (default "" (filter ≫= f_storeId))) filtered
    else filtered in
  let filtered :=
    if truthy_string (filter ≫= f_type)
    then List.filter (λ a, strict_eq_string (obj_get a "type")
                             (default "" (filter ≫= f_type))) filtered
    else filtered in
  let filtered :=
    match filter ≫= f_severity with
    | Some severity =>
        List.filter (λ a, strict_eq_string (obj_get a "severity") (Severity_name severity))
          filtered
    | None => filtered
    end in
  let filtered :=
    if truthy_bool (filter ≫= f_unreadOnly)
    then List.filter (λ a, negb (truthy (obj_get a "read"))) filtered
    else filtered in
  let filtered :=
    if truthy_limit (filter ≫= f_limit)
    then slice_to filtered (default 0 (filter ≫= f_limit))
    else filtered in
  (filtered, this).

Definition getUnreadCount (storeId : option string) (this : t) : Z * t :=
  let r := getAlerts (Some (mkFilter storeId None None (Some true) None)) this in
  (Z.of_nat (length r.1), r.2).

(** The two [reduce] calls of [getStatistics]: one count per property
    key, by the own entries of the accumulator. *)
Definition countBy (k : string) (l : list object) : gmap string Z :=
  foldl (λ acc alert,
           <[property_key (obj_get alert k) :=
               count_or_zero (acc !! property_key (obj_get alert k)) + 1]> acc)
        ∅ l.

Definition getStatistics (now : Z) (this : t) : Statistics * t :=
  let yesterday := now - 24 * 60 * 60 * 1000 in
  let byType := countBy "type" (alerts this) in
  let bySeverity := countBy "severity" (alerts this) in
  let unread := getUnreadCount None this in
  ({| total := Z.of_nat (length (alerts this));
      unread := unread.1;
      byType := byType;
      bySeverity := bySeverity;
      last24Hours :=
        Z.of_nat (length (List.filter
          (λ a, match Date_getTime (obj_get a "timestamp") with
                | Some time => yesterday <? time
                | None => false
                end) (alerts unread.2))) |},
   unread.2).

(** [subscribe(listener)] and the function it returns. *)
Definition subscribe (listener : nat) (this : t) : t :=
  mk (alerts this) (listeners this ++ [listener]) (notificationQueue this)
     (localStorage this) (delivered this).

Definition unsubscribe (listener : nat) (this : t) : t :=
  mk (alerts this) (List.filter (λ l, negb (Nat.eqb l listener)) (listeners this))
     (notificationQueue this) (localStorage this) (delivered this).

(** [exportAlerts()] at the instant [now]. *)
Definition exportAlerts (now : Z) (this : t) : string * t :=
  (JSON_stringify
     (VObj [ ("alerts", VArr (VObj <$> alerts this));
             ("exportedAt", VStr (toISOString now));
             ("version", VStr "1.0.0") ]) 2,
   this).

(** [importAlerts(jsonData)].  A SyntaxError of [JSON.parse] and the
    TypeError of reading [alerts] off [null] are caught and give
    [false].  The outer [None] is the one case without an image in the
    model: an accepted array that holds something other than objects. *)
Definition importAlerts (jsonData : string) (this : t) : option (bool * t) :=
  match JSON_parse jsonData with
  | None => Some (false, this)
  | Some data =>
      match member data "alerts" with
      | None => Some (false, this)
      | Some data_alerts =>
          if truthy data_alerts && isArray data_alerts then
            (λ l, (true, notifyListeners (saveToStorage (with_alerts l this))))
              <$> as_objects (array_items data_alerts)
          else Some (false, this)
      end
  end.

(** The test [alert && alert.id && alert.type && alert.title &&
    alert.message] of [loadFromStorage] on one parsed element, with the
    element as an alert object when it passes.  Only an object can have
    the four properties. *)
Definition validAlert (v : value) : option object :=
  match v with
  | VObj alert =>
      if truthy (obj_get alert "id") && truthy (obj_get alert "type")
         && truthy (obj_get alert "title") && truthy (obj_get alert "message")
      then Some alert else None
  | _ => None
  end.

(** [loadFromStorage()]: a stored text that does not parse, or parses to
    something that has no [filter] method, ends in the [catch] branch. *)
Definition loadFromStorage (this : t) : t :=
  match localStorage this !! "pret-alerts" with
  | Some stored =>
      if negb (String.eqb stored "") then
        match JSON_parse stored with
        | Some (VArr items) => with_alerts (omap validAlert items) this
        | _ => with_alerts [] this
        end
      else this
  | None => this
  end.

(** [new AlertManager()] in a browser whose storage is [storage]. *)
Definition new (storage : gmap string string) : t :=
  loadFromStorage (mk [] [] [] storage []).

(** A run of [addAlert] calls, each with its instant, its random id part
    and its data, oldest call first. *)
Definition addAlerts (calls : list (Z * string * object)) (this : t) : t :=
  foldl (λ st call, (addAlert call.1.1 call.1.2 call.2 st).2) this calls.

(** The calls that change the store. *)
Inductive Mutation :=
| AddAlert (now : Z) (rnd : string) (alertData : object)
| MarkAsRead (alertId : string)
| MarkAllAsRead
| DeleteAlert (alertId : string)
| ClearAll
| ImportAlerts (jsonData : string).

Definition mutate (m : Mutation) (this : t) : option t :=
  match m with
  | AddAlert now rnd alertData => Some (addAlert now rnd alertData this).2
  | MarkAsRead alertId => Some (markAsRead alertId this)
  | MarkAllAsRead => Some (markAllAsRead this)
  | DeleteAlert alertId => Some (deleteAlert alertId this)
  | ClearAll => Some (clearAll this)
  | ImportAlerts jsonData => snd <$> importAlerts jsonData this
  end.

End WithHost.

End AlertManager.

(** ** The store as the specification words it *)

Module AlertManagerSpec.
Import AlertManager.

(** What the specification's [query] selects: the stored alerts that
    satisfy every given criterion ([unreadOnly] asks for something when
    it is [true]), cut to the first [limit] when a limit is given. *)
Definition meets (filter : Filter) (a : object) : bool :=
  match f_storeId filter with
  | Some storeId => strict_eq_string (obj_get a "storeId") storeId
  | None => true
  end
  && match f_type filter with
     | Some type => strict_eq_string (obj_get a "type") type
     | None => true
     end
  && match f_severity filter with
     | Some severity => strict_eq_string (obj_get a "severity") (Severity_name severity)
     | None => true
     end
  && match f_unreadOnly filter with
     | Some true => negb (truthy (obj_get a "read"))
     | _ => true
     end.

Definition selected (filter : Filter) (stored : list object) : list object :=
  let matching := List.filter (meets filter) stored in
  match f_limit filter with
  | Some limit => take (Z.to_nat limit) matching
  | None => matching
  end.

(** What a parsed document carries under the key [alerts], when that is
    an array. *)
Definition alerts_array (data : value) : option (list value) :=
  match data with
  | VObj props =>
      match obj_get props "alerts" with
      | Some (VArr items) => Some items
      | _ => None
      end
  | _ => None
  end.

Section WithHost.
Context {host : Host}.

(** The store is persisted: storage holds the newest 1000 alerts. *)
Definition persisted (this : t) : Prop :=
  localStorage this !! "pret-alerts"
  = Some (JSON_stringify (VArr (VObj <$> take 1000 (alerts this))) 0).

(** The alert that the call [(now, rnd, alertData)] creates. *)
Definition newAlertOf (call : Z * string * object) : object :=
  newAlert call.1.1 call.1.2 call.2.

End WithHost.

End AlertManagerSpec.

(** ** A host to run the store on

    A concrete host, so that the store can be evaluated and the
    statements below can be applied to concrete inputs.  Its text format
    is not JSON's (a value is written as the bits of its code as a
    tree); what it shares with a JavaScript host is the round trip of
    [JSON.parse] after [JSON.stringify]. *)

Module ReferenceHost.

Definition leaf : Type := bool + (Z * positive) + string.

Fixpoint to_tree (v : value) : gen_tree leaf :=
  match v with
  | VNull => GenNode 0 []
  | VBool b => GenLeaf (inl (inl b))
  | VNum n => GenLeaf (inl (inr (Qnum n, Qden n)))
  | VStr s => GenLeaf (inr s)
  | VArr items => GenNode 1 (to_tree <$> items)
  | VObj props =>
      GenNode 2 ((λ kv, GenNode 3 [GenLeaf (inr kv.1); to_tree kv.2]) <$> props)
  end.

Fixpoint of_tree (t : gen_tree leaf) : option value :=
  match t with
  | GenLeaf (inl (inl b)) => Some (VBool b)
  | GenLeaf (inl (inr (num, den))) => Some (VNum (Qmake num den))
  | GenLeaf (inr s) => Some (VStr s)
  | GenNode 0 [] => Some VNull
  | GenNode 1 ts => VArr <$> mapM of_tree ts
  | GenNode 2 ts =>
      VObj <$> mapM (λ t, match t with
                          | GenNode 3 [GenLeaf (inr k); tv] => (λ v, (k, v)) <$> of_tree tv
                          | _ => None
                          end) ts
  | _ => None
  end.

Fixpoint bits (p : positive) : string :=
  match p with
  | xH => ""
  | xO p => String "0"%char (bits p)
  | xI p => String "1"%char (bits p)
  end.

Fixpoint of_bits (s : string) : option positive :=
  match s with
  | EmptyString => Some xH
  | String c s' =>
      if Ascii.eqb c "0"%char then xO <$> of_bits s'
      else if Ascii.eqb c "1"%char then xI <$> of_bits s'
      else None
  end.

Definition host : Host := {|
  JSON_stringify v _ := bits (encode (to_tree v));
  JSON_parse s := p ← of_bits s; t ← decode (A := gen_tree leaf) p; of_tree t;
  toISOString ms := pretty ms;
  Date_getTime m := match m with Some (VNum n) => Some (Qfloor n) | _ => None end;
  ToPropertyKey m := match m with None => "undefined" | _ => "null" end
|}.

End ReferenceHost.

(** ** Sample data *)

Module Sample.
Import AlertManager.

(** Two payloads as the dashboard passes them to [addAlert]; the first
    one also names a severity of its own. *)
Definition failure : object :=
  [ ("storeId", VStr "s1"); ("storeName", VStr "Soho");
    ("type", VStr "equipment_failure");
    ("title", VStr "Equipment Failure - Soho");
    ("message", VStr "HVAC system offline");
    ("confidence", VNum 100); ("severity", VStr "low") ].

Definition warm : object :=
  [ ("storeId", VStr "s2"); ("storeName", VStr "Camden");
    ("type", VStr "temperature");
    ("title", VStr "Temperature Alert - Camden");
    ("message", VStr "Temperature: 8.5 (Threshold: 5.0)");
    ("temperature", VNum (17 # 2)); ("threshold", VNum 5); ("confidence", VNum 90) ].

(** A store with nothing in it and one listener, and the store after
    the two payloads were added to it. *)
Definition empty : t := mk [] [1%nat] [] ∅ [].

Definition two : t :=
  addAlerts (host := ReferenceHost.host)
    [ (1700000000000, "k3j9x0q2a", failure); (1700000060000, "p0o9i8u7y", warm) ] empty.

End Sample.

(** ** utils.ts: time, colour and storage helpers *)

(** What the host provides for display: [toLocaleString] and
    [toLocaleDateString] of the date with a given time value, the second
    one also for an invalid date ([None]). *)
Class Locale := {
  toLocaleString : Z → string;
  toLocaleDateString : option Z → string
}.

(** [formatRelativeTime(timestamp)] called at the instant [now].  An
    invalid date makes [diffMs] a NaN, every comparison with it is false
    and the last line is reached. *)
Definition formatRelativeTime `{Host, Locale} (timestamp : string) (now : Z) : string :=
  let date := Date_getTime (Some (VStr timestamp)) in
  match date with
  | Some time =>
      let diffMs := now - time in
      let diffMinutes := diffMs / 60000 in
      if diffMinutes <? 1 then "Just now"
      else if diffMinutes <? 60 then pretty diffMinutes +:+ "m ago"
      else
        let diffHours := diffMinutes / 60 in
        if diffHours <? 24 then pretty diffHours +:+ "h ago"
        else
          let diffDays := diffHours / 24 in
          if diffDays <? 7 then pretty diffDays +:+ "d ago"
          else
            let diffWeeks := diffDays / 7 in
            if diffWeeks <? 4 then pretty diffWeeks +:+ "w ago"
            else toLocaleDateString date
  | None => toLocaleDateString date
  end.

(** [isStoreActive(store)]: the store is not read; [hour] and [day] are
    [getHours()] and [getDay()] of the current date. *)
Definition isStoreActive (hour day : Z) : bool :=
  let isWeekend := (day =? 0) || (day =? 6) in
  let weekdayStart := 6 in
  let weekdayEnd := 22 in
  let weekendStart := 7 in
  let weekendEnd := 21 in
  if isWeekend then (weekendStart <=? hour) && (hour <=? weekendEnd)
  else (weekdayStart <=? hour) && (hour <=? weekdayEnd).

(** The assignments [clonedObj[key] = ...] of [deepClone], from the
    cloned properties in their order.  An assignment to [__proto__]
    reaches the setter that the new object inherits: no property is
    stored, and given an object, an array or [null] the setter replaces
    the prototype of the clone, which is not a plain object from then
    on ([None]). *)
Definition is_object_or_null (v : value) : bool :=
  match v with
  | VNull | VArr _ | VObj _ => true
  | _ => false
  end.

Definition assign (cloned : object) : option object :=
  if existsb (λ kv, String.eqb kv.1 "__proto__" && is_object_or_null kv.2) cloned
  then None
  else Some (List.filter (λ kv, negb (String.eqb kv.1 "__proto__")) cloned).

(** [deepClone(obj)] on the data JSON carries: a primitive is returned
    as it is, an array is mapped, an object is rebuilt property by
    property.  [obj.hasOwnProperty] is read from the object itself: an
    own property of that name holds data, not a function, and the call
    raises a TypeError at the first key.  [None]: the call raises, or
    what it returns is not a plain object. *)
Fixpoint deepClone (obj : value) : option value :=
  match obj with
  | VArr items => VArr <$> mapM deepClone items
  | VObj props =>
      if bool_decide ("hasOwnProperty" ∈ props.*1) then None
      else
        cloned ← mapM (λ kv, pair kv.1 <$> deepClone kv.2) props;
        VObj <$> assign cloned
  | _ => Some obj
  end.

(** The 32-bit integer a number is read as by a shift, and [x << k]. *)
Definition ToInt32 (x : Z) : Z :=
  let m := x mod 2 ^ 32 in
  if m <? 2 ^ 31 then m else m - 2 ^ 32.

Definition shl (x k : Z) : Z := ToInt32 (Z.shiftl (ToInt32 x) (Z.land k 31)).

(** The digit of a value below 16, and [n.toString(16)] for an integer
    [n]: the digits of [|n|] from the most significant one, as many as
    [|n|] has, after the sign. *)
Definition hex_digit (d : Z) : ascii :=
  match d with
  | 0 => "0" | 1 => "1" | 2 => "2" | 3 => "3" | 4 => "4" | 5 => "5" | 6 => "6"
  | 7 => "7" | 8 => "8" | 9 => "9" | 10 => "a" | 11 => "b" | 12 => "c"
  | 13 => "d" | 14 => "e" | _ => "f"
  end%char.

Definition hex_digits (n : Z) : string :=
  let count := Z.to_nat (Z.log2 n / 4 + 1) in
  String.string_of_list_ascii
    ((λ i, hex_digit (Z.shiftr n (4 * Z.of_nat i) mod 16)) <$> reverse (seq 0 count)).

Definition toString16 (n : Z) : string :=
  if n <? 0 then "-" +:+ hex_digits (- n) else hex_digits n.

(** [s.slice(1)]. *)
Definition slice_from_1 (s : string) : string :=
  match s with String _ rest => rest | EmptyString => EmptyString end.

(** The object [color]. *)
Module color.

Record RGB := mkRGB { r : Z; g : Z; b : Z }.

(** The value of a character of the class [[a-f\d]] under the flag [i],
    and [parseInt] of two of them in base 16. *)
Definition hex_value (c : ascii) : option Z :=
  match Ascii.is_nat c with
  | Some d => Some (Z.of_nat d)
  | None =>
      match c with
      | "a" | "A" => Some 10 | "b" | "B" => Some 11 | "c" | "C" => Some 12
      | "d" | "D" => Some 13 | "e" | "E" => Some 14 | "f" | "F" => Some 15
      | _ => None
      end%char
  end.

Definition parseInt16 (hi lo : ascii) : option Z :=
  h ← hex_value hi; l ← hex_value lo; Some (16 * h + l).

(** [hexToRgb(hex)]: an optional [#], then exactly six hexadecimal
    digits. *)
Definition hexToRgb (hex : string) : option RGB :=
  let digits := match hex with String "#" rest => rest | _ => hex end in
  match digits with
  | String r1 (String r2 (String g1 (String g2 (String b1 (String b2 EmptyString))))) =>
      r ← parseInt16 r1 r2; g ← parseInt16 g1 g2; b ← parseInt16 b1 b2;
      Some (mkRGB r g b)
  | _ => None
  end.

(** [rgbToHex(r, g, b)] on integers. *)
Definition rgbToHex (r g b : Z) : string :=
  "#" +:+ slice_from_1 (toString16 (shl 1 24 + shl r 16 + shl g 8 + b)).

Definition getContrastColor (backgroundColor : string) : string :=
  match hexToRgb backgroundColor with
  | None => "#000000"
  | Some rgb =>
      let brightness := (inject_Z (r rgb * 299 + g rgb * 587 + b rgb * 114) / 1000)%Q in
      if Qltb 128 brightness then "#000000" else "#ffffff"
  end.

End color.

(** The object [storage], over the [localStorage] area it reads and
    writes.  [setItem], [removeItem] and [clear] are taken to succeed. *)
Module storage.
Section WithHost.
Context {host : Host}.

Definition get (key : string) (fallback : value) (localStorage : gmap string string) : value :=
  match localStorage !! key with
  | Some item =>
      if negb (String.eqb item "") then default fallback (JSON_parse item) else fallback
  | None => fallback
  end.

Definition set (key : string) (v : value) (localStorage : gmap string string)
    : bool * gmap string string :=
  (true, <[key := JSON_stringify v 0]> localStorage).

Definition remove (key : string) (localStorage : gmap string string)
    : bool * gmap string string :=
  (true, delete key localStorage).

Definition clear (localStorage : gmap string string) : bool * gmap string string :=
  (true, ∅).

End WithHost.
End storage.

(** ** alerts.ts: the rest of AlertManager, and the notifications *)

(** An object literal whose property values may be [undefined]: such a
    property is left out. *)
Definition literal (props : list (string * option value)) : object :=
  omap (λ kv, (λ v, (kv.1, v)) <$> kv.2) props.

(** The line feed, and [s.split('\n')[0]]. *)
Definition LF : ascii := "010"%char.

Fixpoint first_line (s : string) : string :=
  match s with
  | EmptyString => EmptyString
  | String c rest => if Ascii.eqb c LF then EmptyString else String c (first_line rest)
  end.

(** What the browser says about notifications: whether [navigator] has
    a [serviceWorker], and [Notification.permission]. *)
Record Browser := mkBrowser {
  has_serviceWorker : bool;
  Notification_permission : string
}.

(** One call of [registration.showNotification(title, options)], with
    whether [playNotificationSound] was called after it. *)
Record Shown := mkShown {
  shown_title : option value;
  shown_options : object;
  shown_sound : bool
}.

Module AlertManagerRest.
Import AlertManager.

(** The result of [getAlertsBySeverity]. *)
Record BySeverity := mkBySeverity {
  by_critical : list object;
  by_high : list object;
  by_medium : list object;
  by_low : list object
}.

Section WithHost.
Context {host : Host}.

Definition getAlertsBySeverity (this : t) : BySeverity * t :=
  let c := getAlerts (Some (mkFilter None None (Some critical) None None)) this in
  let h := getAlerts (Some (mkFilter None None (Some high) None None)) c.2 in
  let m := getAlerts (Some (mkFilter None None (Some medium) None None)) h.2 in
  let l := getAlerts (Some (mkFilter None None (Some low) None None)) m.2 in
  (mkBySeverity c.1 h.1 m.1 l.1, l.2).

(** A value inside a template literal: a string as it is, any other
    value as the host turns it into a string, which is what it does for
    a property key. *)
Definition template (m : option value) : string := property_key m.

(** The payload that [sendPushNotification] builds.  [None]: the message
    is not a string and [split] raises a TypeError. *)
Definition payload (alert : object) : option object :=
  match obj_get alert "message" with
  | Some (VStr message) =>
      Some (literal
        [ ("title", obj_get alert "title");
          ("body", Some (VStr (first_line message)));
          ("icon", Some (VStr "./icon-192.png"));
          ("badge", Some (VStr "./icon-192.png"));
          ("image", obj_get alert "imageUrl");
          ("data", Some (VObj (literal
             [ ("alertId", obj_get alert "id");
               ("storeId", obj_get alert "storeId");
               ("type", obj_get alert "type");
               ("url", Some (VStr ("/?alert=" +:+ template (obj_get alert "id")))) ])));
          ("tag", Some (VStr ("alert-" +:+ template (obj_get alert "type")
                              +:+ "-" +:+ template (obj_get alert "storeId"))));
          ("requireInteraction",
             Some (VBool (strict_eq_string (obj_get alert "severity") "critical")));
          ("actions", Some (VArr
             [ VObj [("action", VStr "view"); ("title", VStr "View Details")];
               VObj [("action", VStr "dismiss"); ("title", VStr "Dismiss")] ])) ])
  | _ => None
  end.

(** [sendPushNotification(alert)], over the notifications shown so far.
    The service worker registration is taken to be ready and
    [showNotification] to succeed; an error while the payload is built
    is caught and nothing is shown. *)
Definition sendPushNotification (browser : Browser) (alert : object)
    (shown : list Shown) : list Shown :=
  if negb (has_serviceWorker browser)
     || negb (String.eqb (Notification_permission browser) "granted")
  then shown
  else
    match payload alert with
    | Some payload =>
        (shown ++
         [ mkShown (obj_get payload "title") payload
             (strict_eq_string (obj_get alert "severity") "critical"
              || strict_eq_string (obj_get alert "severity") "high") ])%list
    | None => shown
    end.

(** The callback that [setupNotificationQueue] runs every two seconds:
    the oldest alert of the queue, if there is one, is taken off and
    sent. *)
Definition processQueue (browser : Browser) (state : t * list Shown) : t * list Shown :=
  match notificationQueue state.1 with
  | [] => state
  | alert :: rest =>
      (mk (alerts state.1) (listeners state.1) rest (localStorage state.1)
          (delivered state.1),
       sendPushNotification browser alert state.2)
  end.

End WithHost.

End AlertManagerRest.

(** [NotificationUtils] of notifications.ts. *)
Module NotificationUtils.
Section WithHost.
Context {host : Host}.

(** [createNotificationPayload(alert)]; [None] is the TypeError of
    [split] on a message that is not a string. *)
Definition createNotificationPayload (alert : object) : option object :=
  match obj_get alert "message" with
  | Some (VStr message) =>
      Some (literal
        [ ("title", obj_get alert "title");
          ("body", Some (VStr (first_line message)));
          ("icon", Some (VStr "./icon-192.png"));
          ("badge", Some (VStr "./icon-192.png"));
          ("image", obj_get alert "imageUrl");
          ("data", Some (VObj (literal
             [ ("alertId", obj_get alert "id");
               ("storeId", obj_get alert "storeId");
               ("type", obj_get alert "type");
               ("url", Some (VStr ("/?alert=" +:+ AlertManagerRest.template
                                                   (obj_get alert "id")))) ])));
          ("tag", Some (VStr ("alert-" +:+ AlertManagerRest.template (obj_get alert "type")
                              +:+ "-" +:+ AlertManagerRest.template
                                            (obj_get alert "storeId"))));
          ("requireInteraction",
             Some (VBool (strict_eq_string (obj_get alert "severity") "critical")));
          ("actions", Some (VArr
             [ VObj [("action", VStr "view"); ("title", VStr "View Details")];
               VObj [("action", VStr "dismiss"); ("title", VStr "Dismiss")] ])) ])
  | _ => None
  end.

End WithHost.

(** [getBadgeCount(alerts)]. *)
Definition getBadgeCount (alerts : list object) : Z :=
  Z.of_nat (length (List.filter (λ alert, negb (truthy (obj_get alert "read"))) alerts)).

End NotificationUtils.

(** ** alerts.ts: AlertNotificationManager *)

Module AlertNotificationManager.

(** The two settings and the [localStorage] area they are kept in.  A
    setting is declared a boolean; what [loadSettings] assigns is
    whatever the stored text carries. *)
Record t := mk {
  isEnabled : value;
  soundEnabled : value;
  localStorage : gmap string string
}.

(** [m ?? d]. *)
Definition nullish (m : option value) (d : value) : value :=
  match m with
  | None | Some VNull => d
  | Some v => v
  end.

Section WithHost.
Context {host : Host}.

(** [loadSettings()]: a text that does not parse, and the TypeError of
    reading a property of [null], are caught and leave the settings as
    they are. *)
Definition loadSettings (this : t) : t :=
  match localStorage this !! "pret-notification-settings" with
  | Some settings =>
      if negb (String.eqb settings "") then
        match JSON_parse settings with
        | Some parsed =>
            match member parsed "enabled", member parsed "soundEnabled" with
            | Some enabled, Some sound =>
                mk (nullish enabled (VBool true)) (nullish sound (VBool true))
                   (localStorage this)
            | _, _ => this
            end
        | None => this
        end
      else this
  | None => this
  end.

Definition saveSettings (this : t) : t :=
  let settings := VObj [ ("enabled", isEnabled this); ("soundEnabled", soundEnabled this) ] in
  mk (isEnabled this) (soundEnabled this)
     (<["pret-notification-settings" := JSON_stringify settings 0]> (localStorage this)).

(** [new AlertNotificationManager(alertManager)] in a browser whose
    storage is [storage]. *)
Definition new (storage : gmap string string) : t :=
  loadSettings (mk (VBool true) (VBool true) storage).

Definition setEnabled (enabled : bool) (this : t) : t :=
  saveSettings (mk (VBool enabled) (soundEnabled this) (localStorage this)).

Definition setSoundEnabled (enabled : bool) (this : t) : t :=
  saveSettings (mk (isEnabled this) (VBool enabled) (localStorage this)).

Definition getSettings (this : t) : value * value :=
  (isEnabled this, soundEnabled this).

(** [requestPermission()]: [supported] is ['Notification' in window]
    and [answer] is what [Notification.requestPermission()] resolves
    to. *)
Definition requestPermission (supported : bool) (answer : string) (this : t) : bool * t :=
  if negb supported then (false, this)
  else
    let granted := String.eqb answer "granted" in
    (granted, saveSettings (mk (VBool granted) (soundEnabled this) (localStorage this))).

End WithHost.

End AlertNotificationManager.

(** ** camera.ts: CameraManager *)

Module CameraManager.

(** A [CameraStream]; an annotation is kept as the value it is. *)
Record CameraStream := mkCameraStream {
  storeId : string;
  isActive : bool;
  lastFrame : option string;
  annotations : list value
}.

(** The private map of the class, by store id. *)
Abbreviation t := (gmap string CameraStream).

Definition new : t := ∅.

(** [initializeCameraStream(store)], for the store with the id given. *)
Definition initializeCameraStream (store_id : string) (this : t) : t :=
  <[store_id := mkCameraStream store_id false None []]> this.

Definition getCameraStream (storeId : string) (this : t) : option CameraStream :=
  this !! storeId.

(** [updateCameraFrame(storeId, frameUrl, annotations)]: the optional
    array is [None] when the call gives none. *)
Definition updateCameraFrame (storeId : string) (frameUrl : string)
    (annotations : option (list value)) (this : t) : t :=
  match this !! storeId with
  | Some stream =>
      <[storeId := mkCameraStream (CameraManager.storeId stream) true (Some frameUrl)
                     (default [] annotations)]> this
  | None => this
  end.

Definition stopCameraStream (storeId : string) (this : t) : t :=
  match this !! storeId with
  | Some stream =>
      <[storeId := mkCameraStream (CameraManager.storeId stream) false (lastFrame stream)
                     (CameraManager.annotations stream)]> this
  | None => this
  end.

(** The calls that change the manager, and a run of them. *)
Inductive Call :=
| Initialize (store_id : string)
| Update (storeId : string) (frameUrl : string) (annotations : option (list value))
| Stop (storeId : string).

Definition call (c : Call) (this : t) : t :=
  match c with
  | Initialize store_id => initializeCameraStream store_id this
  | Update storeId frameUrl annotations => updateCameraFrame storeId frameUrl annotations this
  | Stop storeId => stopCameraStream storeId this
  end.

Definition run (calls : list Call) (this : t) : t := foldl (λ st c, call c st) this calls.

End CameraManager.

(** ** map.ts: MapUtils *)

Module MapUtils.

(** [Math.min] and [Math.max] of two numbers and of a non-empty
    list. *)
Definition Math_min (a b : Q) : Q := if Qle_bool a b then a else b.
Definition Math_max (a b : Q) : Q := if Qle_bool a b then b else a.

Definition minimum (x : Q) (xs : list Q) : Q := foldl Math_min x xs.
Definition maximum (x : Q) (xs : list Q) : Q := foldl Math_max x xs.

(** [calculateBounds(stores)] on the coordinates of the stores, latitude
    first: the south-west and the north-east corner, [None] for no
    store. *)
Definition calculateBounds (coords : list (Q * Q)) : option ((Q * Q) * (Q * Q)) :=
  match coords with
  | [] => None
  | c :: rest =>
      let lats := fst <$> rest in
      let lngs := snd <$> rest in
      Some ((minimum c.1 lats, minimum c.2 lngs), (maximum c.1 lats, maximum c.2 lngs))
  end.

End MapUtils.

(** ** main.ts: the dashboard's use of the filter and the store *)

Module PushNotificationManager.

(** The private field [permission]. *)
Record t := mk { permission : string }.

Section WithHost.
Context {host : Host}.

(** [sendPushNotification(alert)], over the notifications shown so far;
    the same assumptions as for the store's own method. *)
Definition sendPushNotification (browser : Browser) (alert : object)
    (this : t) (shown : list Shown) : list Shown :=
  if negb (String.eqb (permission this) "granted") then shown
  else if has_serviceWorker browser then
    match obj_get alert "message" with
    | Some (VStr message) =>
        (shown ++
         [ mkShown (obj_get alert "title")
             (literal
                [ ("body", Some (VStr (first_line message)));
                  ("icon", Some (VStr "./icon-192.png"));
                  ("badge", Some (VStr "./icon-192.png"));
                  ("image", obj_get alert "imageUrl");
                  ("data", Some (VObj (literal
                     [ ("alertId", obj_get alert "id");
                       ("storeId", obj_get alert "storeId");
                       ("url", Some (VStr ("?alert=" +:+ AlertManagerRest.template
                                                          (obj_get alert "id")))) ])));
                  ("tag", Some (VStr ("alert-"
                                      +:+ AlertManagerRest.template (obj_get alert "type")
                                      +:+ "-"
                                      +:+ AlertManagerRest.template (obj_get alert "storeId"))));
                  ("requireInteraction",
                     Some (VBool (strict_eq_string (obj_get alert "severity") "critical")));
                  ("actions", Some (VArr
                     [ VObj [("action", VStr "view"); ("title", VStr "View Details")];
                       VObj [("action", VStr "dismiss"); ("title", VStr "Dismiss")] ])) ])
             (strict_eq_string (obj_get alert "severity") "critical"
              || strict_eq_string (obj_get alert "severity") "high") ])%list
    | _ => shown
    end
  else shown.

End WithHost.

End PushNotificationManager.

Module InventoryMonitorApp.

Record StoreLocation := mkStoreLocation {
  id : string;
  name : string;
  address : string;
  coords : Q * Q;
  machineId : string;
  status : string;
  region : string
}.

(** A [SensorReading]; [reading] is declared [any]. *)
Record SensorReading := mkSensorReading {
  componentName : string;
  reading : option value;
  timestamp : string;
  reading_machineId : string
}.

(** What one synchronous stretch of the program reads off the clock and
    the random source: [Date.now()], [getHours()] and [getDay()] of the
    current date, and the random part of a generated id. *)
Record Instant := mkInstant {
  now : Z;
  hour : Z;
  day : Z;
  rnd : string
}.

(** The part of the application that takes part in raising an alert:
    [state.alerts], the three collaborators, and the notifications the
    dashboard's own manager has shown. *)
Record t := mk {
  state_alerts : list object;
  alertManager : AlertManager.t;
  notificationManager : PushNotificationManager.t;
  smartFilter : SmartAlertFilter.t;
  shown : list Shown
}.

Definition isShelfEmpty (reading : SensorReading) : bool :=
  match InventoryMonitorApp.reading reading with
  | Some (VNum n) => Qltb n 15
  | _ => false
  end.

Definition isTemperatureAlert (reading : SensorReading) : bool :=
  match InventoryMonitorApp.reading reading with
  | Some (VNum n) => Qltb 5 (Qabs n)
  | _ => false
  end.

(** [cameraFrame || undefined]. *)
Definition frame_or_undefined (cameraFrame : option string) : option value :=
  match cameraFrame with
  | Some url => if String.eqb url "" then None else Some (VStr url)
  | None => None
  end.

Section WithHost.
Context {host : Host} {locale : Locale}.

(** The text of a line feed inside a template literal. *)
Definition newline : string := String LF EmptyString.

Definition createEmptyShelfAlert (store : StoreLocation) (reading : SensorReading)
    (cameraFrame : option string) (browser : Browser) (at_ : Instant) (this : t) : t :=
  let r :=
    AlertManager.addAlert (now at_) (rnd at_)
      (literal
        [ ("storeId", Some (VStr (id store)));
          ("storeName", Some (VStr (name store)));
          ("type", Some (VStr "empty_shelf"));
          ("title", Some (VStr ("Empty Shelves: " +:+ componentName reading
                                +:+ " - " +:+ name store)));
          ("message", Some (VStr ("The following shelves are empty: "
                                  +:+ componentName reading +:+ newline
                                  +:+ "Location: " +:+ address store +:+ newline
                                  +:+ "Time: " +:+ toLocaleString (now at_)
                                  +:+ newline +:+ newline
                                  +:+ "See the attached image for review.")));
          ("shelves", Some (VArr [VStr (componentName reading)]));
          ("confidence", Some (VNum 95));
          ("location", Some (VStr (address store)));
          ("imageUrl", frame_or_undefined cameraFrame);
          ("annotatedImageUrl", frame_or_undefined cameraFrame) ])
      (alertManager this) in
  let shown :=
    PushNotificationManager.sendPushNotification browser r.1 (notificationManager this)
      (shown this) in
  let alerts := AlertManager.getAlerts None r.2 in
  mk alerts.1 alerts.2 (notificationManager this) (smartFilter this) shown.

Definition createTemperatureAlert (store : StoreLocation) (reading : SensorReading)
    (browser : Browser) (at_ : Instant) (this : t) : t :=
  let r :=
    AlertManager.addAlert (now at_) (rnd at_)
      (literal
        [ ("storeId", Some (VStr (id store)));
          ("storeName", Some (VStr (name store)));
          ("type", Some (VStr "temperature"));
          ("title", Some (VStr ("Temperature Alert - " +:+ name store)));
          ("message", Some (VStr ("Temperature: "
                                  +:+ AlertManagerRest.template
                                        (InventoryMonitorApp.reading reading)
                                  +:+ "°C (Threshold: 5.0°C)" +:+ newline
                                  +:+ "Location: " +:+ address store +:+ newline
                                  +:+ "Time: " +:+ toLocaleString (now at_))));
          ("temperature", InventoryMonitorApp.reading reading);
          ("threshold", Some (VNum 5));
          ("confidence", Some (VNum 90));
          ("location", Some (VStr (address store))) ])
      (alertManager this) in
  let shown :=
    PushNotificationManager.sendPushNotification browser r.1 (notificationManager this)
      (shown this) in
  let alerts := AlertManager.getAlerts None r.2 in
  mk alerts.1 alerts.2 (notificationManager this) (smartFilter this) shown.

(** The body of the first loop of [processStoreData], for one reading
    at its instant: the filter is asked only about a reading that
    [isShelfEmpty] lets through. *)
Definition processShelfReading (store : StoreLocation) (cameraFrame : option string)
    (browser : Browser) (this : t) (item : SensorReading * Instant) : t :=
  let reading := item.1 in
  let at_ := item.2 in
  if isShelfEmpty reading then
    let r :=
      SmartAlertFilter.shouldSuppressAlert (id store) "empty_shelf"
        (SmartAlertFilter.mkContext None (Some (isStoreActive (hour at_) (day at_)))
           (as_number (InventoryMonitorApp.reading reading)) None None)
        (now at_) (smartFilter this) in
    let this :=
      mk (state_alerts this) (alertManager this) (notificationManager this) r.2
         (shown this) in
    if negb r.1 then createEmptyShelfAlert store reading cameraFrame browser at_ this
    else this
  else this.

(** The body of the second loop. *)
Definition processTemperatureReading (store : StoreLocation) (browser : Browser)
    (this : t) (item : SensorReading * Instant) : t :=
  let temp := item.1 in
  let at_ := item.2 in
  if isTemperatureAlert temp then
    let r :=
      SmartAlertFilter.shouldSuppressAlert (id store) "temperature"
        (SmartAlertFilter.mkContext None (Some (isStoreActive (hour at_) (day at_)))
           None (as_number (InventoryMonitorApp.reading temp)) None)
        (now at_) (smartFilter this) in
    let this :=
      mk (state_alerts this) (alertManager this) (notificationManager this) r.2
         (shown this) in
    if negb r.1 then createTemperatureAlert store temp browser at_ this
    else this
  else this.

(** [processStoreData(store)], given what the three reads of the
    machine returned, each reading with the instant at which the loop
    reaches it.  Nothing else runs on the filter and the store while the
    method is suspended. *)
Definition processStoreData (store : StoreLocation)
    (sensorData : list (SensorReading * Instant)) (cameraFrame : option string)
    (tempData : list (SensorReading * Instant)) (browser : Browser) (this : t) : t :=
  let this := foldl (processShelfReading store cameraFrame browser) this sensorData in
  foldl (processTemperatureReading store browser) this tempData.

(** [openAlert(alertId)]: the detail view and the rendering aside. *)
Definition openAlert (alertId : string) (this : t) : t :=
  match List.find (λ a, strict_eq_string (obj_get a "id") alertId) (state_alerts this) with
  | Some alert =>
      let alerts :=
        AlertManager.getAlerts None (AlertManager.markAsRead alertId (alertManager this)) in
      mk alerts.1 alerts.2 (notificationManager this) (smartFilter this) (shown this)
  | None => this
  end.

(** [new InventoryMonitorApp()] in a browser whose storage is
    [storage]. *)
Definition new (storage : gmap string string) : t :=
  mk [] (AlertManager.new storage) (PushNotificationManager.mk "default")
     SmartAlertFilter.new [].

End WithHost.

End InventoryMonitorApp.

(** ** Notions used in the statements *)

(** The three alert types the program declares. *)
Definition declared (type : string) : Prop :=
  type = "empty_shelf" ∨ type = "temperature" ∨ type = "equipment_failure".

(** An alert as the interface [Alert] declares it: its type is one of
    the three and its severity one of the four. *)
Definition typed (alert : object) : Prop :=
  (∃ type, obj_get alert "type" = Some (VStr type) ∧ declared type)
  ∧ ∃ severity, obj_get alert "severity" = Some (VStr (Severity_name severity)).

(** Data in which no object, at any depth, has a property named
    [hasOwnProperty] or [__proto__]. *)
Fixpoint clonable (v : value) : bool :=
  match v with
  | VArr items => forallb clonable items
  | VObj props =>
      forallb (λ kv, negb (String.eqb kv.1 "hasOwnProperty")
                     && negb (String.eqb kv.1 "__proto__") && clonable kv.2) props
  | _ => true
  end.

(** A text without a dash. *)
Fixpoint dashfree (s : string) : bool :=
  match s with
  | EmptyString => true
  | String c rest => negb (Ascii.eqb c "-"%char) && dashfree rest
  end.

(** The sum of the counts of an accumulator object. *)
Definition sum_counts (counts : gmap string Z) : Z :=
  map_fold (λ _ count sum, count + sum) 0 counts.

(** Whether a character occurs in a text. *)
Fixpoint has_char (c : ascii) (s : string) : bool :=
  match s with
  | EmptyString => false
  | String c' rest => Ascii.eqb c' c || has_char c rest
  end.

(** The test of [loadFromStorage] on an alert object. *)
Definition passes_validation (alert : object) : bool :=
  truthy (obj_get alert "id") && truthy (obj_get alert "type")
  && truthy (obj_get alert "title") && truthy (obj_get alert "message").

(** ** A host with dates, to run the display helpers on

    The host above, with timestamps written as the decimal text of
    their time value (so that [new Date(text).getTime()] reads back what
    [toISOString] wrote), and a locale that writes a date the same
    way. *)

Module ReferenceLocale.

Fixpoint parse_decimal (acc : Z) (s : string) : option Z :=
  match s with
  | EmptyString => Some acc
  | String c rest => d ← Ascii.is_nat c; parse_decimal (10 * acc + Z.of_nat d) rest
  end.

Definition host : Host := {|
  JSON_stringify := JSON_stringify (Host := ReferenceHost.host);
  JSON_parse := JSON_parse (Host := ReferenceHost.host);
  toISOString := toISOString (Host := ReferenceHost.host);
  Date_getTime m :=
    match m with
    | Some (VStr "") => None
    | Some (VStr s) => parse_decimal 0 s
    | _ => None
    end;
  ToPropertyKey := ToPropertyKey (Host := ReferenceHost.host)
|}.

Definition locale : Locale := {|
  toLocaleString ms := pretty ms;
  toLocaleDateString date :=
    match date with Some ms => pretty ms | None => "Invalid Date" end
|}.

End ReferenceLocale.

(** ** The dashboard's rule, as a user would state it *)

Module InventoryMonitorAppSpec.
Import InventoryMonitorApp.

(** The window of an empty shelf, and of a temperature at a given hour:
    neither depends on the readings. *)
Definition shelf_window (filter : SmartAlertFilter.t) : Z :=
  SmartAlertFilter.getSuppressionTime filter "empty_shelf"
    (SmartAlertFilter.mkContext None None None None None).

Definition temperature_window (filter : SmartAlertFilter.t) (at_ : Instant) : Z :=
  SmartAlertFilter.getSuppressionTime filter "temperature"
    (SmartAlertFilter.mkContext None (Some (isStoreActive (hour at_) (day at_)))
       None None None).

(** The time since the last alert that was let through for the store
    and the type. *)
Definition elapsed (filter : SmartAlertFilter.t) (store : StoreLocation) (type : string)
    (at_ : Instant) : Z :=
  now at_ - SmartAlertFilter.or_zero
              (SmartAlertFilter.recentAlerts filter
                 !! SmartAlertFilter.alertKey (id store) type).

(** Whether the dashboard raises an alert for a shelf reading, and for
    a temperature reading. *)
Definition shelf_raised (filter : SmartAlertFilter.t) (store : StoreLocation)
    (reading : SensorReading) (at_ : Instant) : bool :=
  match InventoryMonitorApp.reading reading with
  | Some (VNum n) =>
      Qltb n 15 && (shelf_window filter <=? elapsed filter store "empty_shelf" at_)
      && (isStoreActive (hour at_) (day at_) || negb (Qltb 10 n))
  | _ => false
  end.

Definition temperature_raised (filter : SmartAlertFilter.t) (store : StoreLocation)
    (reading : SensorReading) (at_ : Instant) : bool :=
  match InventoryMonitorApp.reading reading with
  | Some (VNum n) =>
      Qltb 5 (Qabs n)
      && (temperature_window filter at_ <=? elapsed filter store "temperature" at_)
  | _ => false
  end.

End InventoryMonitorAppSpec.

(** ** Sample data for the dashboard *)

Module DashboardSample.
Import InventoryMonitorApp.

(** The first store of the configuration in main.ts. *)
Definition fifth_avenue : StoreLocation :=
  mkStoreLocation "store-5th-ave" "Pret 5th Avenue" "389 5th Ave, New York, NY 10016"
    ((407516 # 10000)%Q, (-739755 # 10000)%Q)
    "a7c5717d-f48e-4ac8-b179-7c7aa73571de" "unknown" "manhattan".

(** A Wednesday at noon, and the same poll two seconds on. *)
Definition noon : Instant := mkInstant 1700000000000 12 3 "k3j9x0q2a".
Definition later : Instant := mkInstant 1700000002000 12 3 "p0o9i8u7y".

Definition shelf (name : string) (percent : Q) : SensorReading :=
  mkSensorReading name (Some (VNum percent)) "1700000000000" "store-5th-ave".

(** Two empty shelves and a full one; a warm sensor and a cold one. *)
Definition sensorData : list (SensorReading * Instant) :=
  [ (shelf "B-1" 3, noon); (shelf "B-2" 60, noon); (shelf "B-3" 8, later) ].

Definition tempData : list (SensorReading * Instant) :=
  [ (mkSensorReading "temp-1" (Some (VNum (17 # 2))) "1700000000000" "store-5th-ave", later);
    (mkSensorReading "temp-2" (Some (VNum (-12))) "1700000000000" "store-5th-ave", later) ].

Definition granted : Browser := mkBrowser true "granted".

(** The application when it starts on an empty storage. *)
Definition app : t :=
  InventoryMonitorApp.new (host := ReferenceLocale.host) ∅.

(** A message of two lines. *)
Definition two_lines : object :=
  [ ("id", VStr "1700000000000-k3j9x0q2a"); ("storeId", VStr "store-5th-ave");
    ("type", VStr "temperature"); ("severity", VStr "high");
    ("title", VStr "Temperature Alert - Pret 5th Avenue");
    ("message", VStr ("Temperature: 8.5" +:+ String LF "Location: 389 5th Ave")) ].

End DashboardSample.

(** * Properties *)

(** Induction on values, through the arrays and objects they nest. *)
Lemma value_ind (P : value → Prop) :
  P VNull →
  (∀ b, P (VBool b)) →
  (∀ n, P (VNum n)) →
  (∀ s, P (VStr s)) →
  (∀ items, Forall P items → P (VArr items)) →
  (∀ props, Forall (λ kv, P kv.2) props → P (VObj props)) →
  ∀ v, P v.
Proof.
  intros Hnull Hbool Hnum Hstr Harr Hobj.
  fix IH 1. intros [ | b | n | s | items | props ].
  - exact Hnull.
  - apply Hbool.
  - apply Hnum.
  - apply Hstr.
  - apply Harr. induction items as [|v items IHitems]; constructor; [apply IH | exact IHitems].
  - apply Hobj. induction props as [|[k v] props IHprops]; constructor;
      [apply IH | exact IHprops].
Qed.

(** ** Properties of the severity classifier *)

(** X4.  Away from a reading of exactly zero the classifier is the rule
    table of the specification, for every type name: unknown types get
    [medium] and an equipment failure is always [critical]. *)
Theorem calculateAlertSeverity_table (type : string) (context : SeverityContext) :
  absent_or_nonzero (sc_temperature context) →
  absent_or_nonzero (sc_fillPercent context) →
  calculateAlertSeverity type context = severity_table type context.
Proof.
  destruct context as [t f c]; unfold calculateAlertSeverity, severity_table; simpl.
  intros Ht Hf.
  destruct (String.eqb type "temperature").
  - destruct t as [q|]; simpl in *; [rewrite Ht|]; reflexivity.
  - destruct (String.eqb type "empty_shelf"); [|reflexivity].
    destruct f as [q|]; simpl in *; [rewrite Hf|]; reflexivity.
Qed.

(** The end-to-end example of the specification: a fill reading of 3 is
    classified [high]. *)
Lemma calculateAlertSeverity_table_example :
  calculateAlertSeverity "empty_shelf" (mkSeverityContext None (Some 3%Q) None)
  = severity_table "empty_shelf" (mkSeverityContext None (Some 3%Q) None)
  ∧ severity_table "empty_shelf" (mkSeverityContext None (Some 3%Q) None) = high.
Proof.
  split; [|reflexivity].
  apply (calculateAlertSeverity_table "empty_shelf"
           (mkSeverityContext None (Some 3%Q) None)); [exact I | reflexivity].
Defined.

Lemma calculateAlertSeverity_equipment_failure (context : SeverityContext) :
  calculateAlertSeverity "equipment_failure" context = critical.
Proof. reflexivity. Qed.

Lemma calculateAlertSeverity_unknown (type : string) (context : SeverityContext) :
  String.eqb type "temperature" = false →
  String.eqb type "empty_shelf" = false →
  String.eqb type "equipment_failure" = false →
  calculateAlertSeverity type context = medium.
Proof. unfold calculateAlertSeverity. intros -> -> ->. reflexivity. Qed.

(** C3.  The classifier is not the rule table on every context: a reading
    of exactly zero is present, yet the truthiness test [!context.x]
    sends it down the "absent" branch.  A shelf that is 0% full is
    classified [medium] where the table says [high] (0 < 5), and a
    temperature of 0 is classified [medium] where the table says [low]. *)
Theorem calculateAlertSeverity_zero_reading :
  calculateAlertSeverity "empty_shelf" (mkSeverityContext None (Some 0%Q) None) = medium
  ∧ severity_table "empty_shelf" (mkSeverityContext None (Some 0%Q) None) = high
  ∧ calculateAlertSeverity "temperature" (mkSeverityContext (Some 0%Q) None None) = medium
  ∧ severity_table "temperature" (mkSeverityContext (Some 0%Q) None None) = low.
Proof. repeat split; reflexivity. Qed.

(** ** Properties of the suppression engine *)

Module SmartAlertFilterFacts.
Import SmartAlertFilter.

(** The window depends on the filter through its rules only. *)
Lemma getSuppressionTime_rules (this that : t) (type : string) (context : Context) :
  suppressionRules this = suppressionRules that →
  getSuppressionTime this type context = getSuppressionTime that type context.
Proof. unfold getSuppressionTime. intros ->. reflexivity. Qed.

(** What an allowed call leaves in the timing map: the key maps to [now],
    and an entry is present afterwards exactly when it was present (or
    just written) and is at most one hour old. *)
Lemma recorded_and_purged (key : string) (now : Z) (this : t) :
  let after := cleanupOldEntries now
       {| recentAlerts := <[key := now]> (recentAlerts this);
          suppressionRules := suppressionRules this |} in
  recentAlerts after !! key = Some now
  ∧ (∀ k time, recentAlerts after !! k = Some time ↔
        <[key := now]> (recentAlerts this) !! k = Some time ∧ now - time <= oneHour)
  ∧ suppressionRules after = suppressionRules this.
Proof.
  simpl. split; [|split; [|reflexivity]].
  - apply map_lookup_filter_Some. split; [apply lookup_insert_eq|].
    simpl. unfold oneHour. lia.
  - intros k time. rewrite map_lookup_filter_Some. simpl. unfold oneHour. intuition lia.
Qed.

(** A call that none of the three checks stops is allowed: it records
    the instant and purges. *)
Lemma shouldSuppressAlert_allowed (storeId type : string) (context : Context)
    (now : Z) (this : t) :
  getSuppressionTime this type context
    <= now - or_zero (recentAlerts this !! alertKey storeId type) →
  shouldSuppressBasedOnContext type context = false →
  belowMinConfidence type context = false →
  shouldSuppressAlert storeId type context now this
  = (false,
     cleanupOldEntries now
       {| recentAlerts := <[alertKey storeId type := now]> (recentAlerts this);
          suppressionRules := suppressionRules this |}).
Proof.
  intros Hout Hctx Hconf. unfold shouldSuppressAlert.
  by rewrite (proj2 (Z.ltb_ge _ _) Hout), Hctx, Hconf.
Qed.

(** A call inside the window of the key is suppressed. *)
Lemma shouldSuppressAlert_recent (storeId type : string) (context : Context)
    (now : Z) (this : t) :
  now - or_zero (recentAlerts this !! alertKey storeId type)
    < getSuppressionTime this type context →
  shouldSuppressAlert storeId type context now this = (true, this).
Proof.
  intros Hin. unfold shouldSuppressAlert.
  by rewrite (proj2 (Z.ltb_lt _ _) Hin).
Qed.

(** C4.  Every call is of one of two kinds.  Either it returns [true]
    and the filter is exactly what it was: nothing recorded, nothing
    purged.  Or it returns [false], and then the instant of the call is
    recorded under the (storeId, type) key, the timing map otherwise
    keeps exactly the entries that are at most one hour old, and the
    rules are untouched. *)
Theorem shouldSuppressAlert_state (storeId type : string) (context : Context)
    (now : Z) (this : t) :
  let r := shouldSuppressAlert storeId type context now this in
  (r.1 = true ∧ r.2 = this)
  ∨ (r.1 = false
     ∧ recentAlerts r.2 !! alertKey storeId type = Some now
     ∧ (∀ k time, recentAlerts r.2 !! k = Some time ↔
          <[alertKey storeId type := now]> (recentAlerts this) !! k = Some time
          ∧ now - time <= oneHour)
     ∧ suppressionRules r.2 = suppressionRules this).
Proof.
  unfold shouldSuppressAlert.
  destruct (_ <? _); [left; done|].
  destruct (shouldSuppressBasedOnContext _ _); [left; done|].
  destruct (belowMinConfidence _ _); [left; done|].
  right. split; [done|]. apply recorded_and_purged.
Qed.

(** X5.  The confidence floor of a declared type, on a confidence that
    is present and not zero: below the minimum of the type, the call is
    suppressed in every state and at every instant, and the filter is
    left as it was. *)
Theorem confidence_floor (storeId type : string) (context : Context) (now : Z)
    (this : t) (c : Q) :
  declared type →
  confidence context = Some c →
  Qeq_bool c 0 = false →
  Qltb c (getMinConfidence type) = true →
  shouldSuppressAlert storeId type context now this = (true, this).
Proof.
  intros _ Hc Hnz Hlt. unfold shouldSuppressAlert.
  destruct (_ <? _); [done|].
  destruct (shouldSuppressBasedOnContext _ _); [done|].
  unfold belowMinConfidence. rewrite Hc. simpl. rewrite Hnz, Hlt. done.
Qed.

(** The example of the specification: fill 3 alone triggers no context
    rule, confidence 50 is below the floor of 70. *)
Lemma confidence_floor_example :
  shouldSuppressAlert "s1" "empty_shelf"
    (mkContext None None (Some 3%Q) None (Some 50%Q)) 1700000000000 new
  = (true, new)
  ∧ shouldSuppressBasedOnContext "empty_shelf"
      (mkContext None None (Some 3%Q) None (Some 50%Q)) = false.
Proof.
  split; [|reflexivity].
  apply (confidence_floor "s1" "empty_shelf"
           (mkContext None None (Some 3%Q) None (Some 50%Q)) 1700000000000 new 50%Q);
    [by left|reflexivity..].
Defined.

(** C2.  A confidence of exactly zero is present and below every
    minimum, yet the guard [context.confidence && ...] reads it as
    absent: on a new filter the call with fill 3 and confidence 0 is
    allowed, where the confidence floor (0 < 70) asks for suppression. *)
Theorem shouldSuppressAlert_zero_confidence :
  let context := mkContext None None (Some 3%Q) None (Some 0%Q) in
  confidence context = Some 0%Q
  ∧ Qltb 0 (getMinConfidence "empty_shelf") = true
  ∧ (shouldSuppressAlert "s1" "empty_shelf" context 1700000000000 new).1 = false.
Proof. repeat split; vm_compute; reflexivity. Qed.

(** C1 (as amended).  Take a call for a declared type that is itself
    outside the recency window of the key (no allowed emission within
    the window before it) and whose context triggers neither the context
    rules nor the confidence floor.  It returns [false]; a second call
    for the same key and context less than the window later returns
    [true]. *)
Theorem shouldSuppressAlert_twice (storeId type : string) (context : Context)
    (now1 now2 : Z) (this : t) :
  declared type →
  let window := getSuppressionTime this type context in
  window <= now1 - or_zero (recentAlerts this !! alertKey storeId type) →
  shouldSuppressBasedOnContext type context = false →
  belowMinConfidence type context = false →
  now2 - now1 < window →
  let first := shouldSuppressAlert storeId type context now1 this in
  first.1 = false
  ∧ (shouldSuppressAlert storeId type context now2 first.2).1 = true.
Proof.
  intros _ window Hout Hctx Hconf Hgap first.
  assert (Hfirst : first = (false,
            cleanupOldEntries now1
              {| recentAlerts := <[alertKey storeId type := now1]> (recentAlerts this);
                 suppressionRules := suppressionRules this |}))
    by by apply shouldSuppressAlert_allowed.
  destruct (recorded_and_purged (alertKey storeId type) now1 this) as (Hkey & _ & Hrules).
  rewrite Hfirst. cbn [fst snd]. split; [done|].
  rewrite shouldSuppressAlert_recent; [done|].
  rewrite Hkey. cbn [or_zero].
  by rewrite (getSuppressionTime_rules _ this type context Hrules).
Qed.

(** On a new filter, at a realistic clock value: two calls one second
    apart for an equipment failure give (false, true). *)
Lemma shouldSuppressAlert_twice_new :
  let context := mkContext None (Some true) None None (Some 95%Q) in
  let first := shouldSuppressAlert "s1" "equipment_failure" context 1700000000000 new in
  first.1 = false
  ∧ (shouldSuppressAlert "s1" "equipment_failure" context 1700000001000 first.2).1 = true.
Proof.
  apply (shouldSuppressAlert_twice "s1" "equipment_failure"
           (mkContext None (Some true) None None (Some 95%Q))
           1700000000000 1700000001000 new);
    [by right; right|vm_compute; congruence..].
Defined.

(** C1 (as stated) fails when the first of the two calls is itself
    inside the window of an earlier allowed call: of three calls one
    second apart, the second and the third are two consecutive calls
    less than the window (one minute here) apart, with a context that
    triggers no other rule, and both return [true]. *)
Lemma shouldSuppressAlert_twice_counterexample :
  let context := mkContext None (Some true) None None (Some 95%Q) in
  let earlier := (shouldSuppressAlert "s1" "equipment_failure" context 1700000000000 new).2 in
  let first := shouldSuppressAlert "s1" "equipment_failure" context 1700000001000 earlier in
  shouldSuppressBasedOnContext "equipment_failure" context = false
  ∧ belowMinConfidence "equipment_failure" context = false
  ∧ (1700000002000 - 1700000001000 <? getSuppressionTime earlier "equipment_failure" context) = true
  ∧ first.1 = true
  ∧ (shouldSuppressAlert "s1" "equipment_failure" context 1700000002000 first.2).1 = true.
Proof. repeat split; vm_compute; reflexivity. Qed.

(** X1.  A custom rule replaces the window of its type: with a rule of [ms]
    milliseconds for [temperature], a call outside the window and a
    second call at least [ms] later are both allowed. *)
Theorem setSuppressionRule_window (storeId : string) (context : Context)
    (ms now1 now2 : Z) (this : t) :
  ms ≠ 0 →
  let ruled := setSuppressionRule "temperature" ms this in
  ms <= now1 - or_zero (recentAlerts this !! alertKey storeId "temperature") →
  shouldSuppressBasedOnContext "temperature" context = false →
  belowMinConfidence "temperature" context = false →
  ms <= now2 - now1 →
  let first := shouldSuppressAlert storeId "temperature" context now1 ruled in
  getSuppressionTime ruled "temperature" context = ms
  ∧ first.1 = false
  ∧ (shouldSuppressAlert storeId "temperature" context now2 first.2).1 = false.
Proof.
  intros Hms ruled Hout Hctx Hconf Hgap first.
  assert (Hwin : ∀ that, suppressionRules that = suppressionRules ruled →
            getSuppressionTime that "temperature" context = ms).
  { intros that Hrules. unfold getSuppressionTime. rewrite Hrules. simpl.
    rewrite lookup_insert_eq. simpl.
    by rewrite (proj2 (Z.eqb_neq _ _)) by done. }
  assert (Hfirst : first = (false,
            cleanupOldEntries now1
              {| recentAlerts :=
                   <[alertKey storeId "temperature" := now1]> (recentAlerts ruled);
                 suppressionRules := suppressionRules ruled |})).
  { apply shouldSuppressAlert_allowed; [|done|done]. by rewrite (Hwin ruled eq_refl). }
  destruct (recorded_and_purged (alertKey storeId "temperature") now1 ruled)
    as (Hkey & _ & Hrules).
  split; [by apply Hwin|].
  rewrite Hfirst. cbn [fst snd]. split; [done|].
  rewrite shouldSuppressAlert_allowed; [done| |done|done].
  rewrite Hkey, (Hwin _ Hrules). cbn [or_zero]. done.
Qed.

(** The example of the specification: a rule of one second, two calls
    1100 ms apart. *)
Lemma setSuppressionRule_window_example :
  let context := mkContext None None None (Some 8%Q) (Some 90%Q) in
  let ruled := setSuppressionRule "temperature" 1000 new in
  let first := shouldSuppressAlert "s1" "temperature" context 1700000000000 ruled in
  getSuppressionTime ruled "temperature" context = 1000
  ∧ first.1 = false
  ∧ (shouldSuppressAlert "s1" "temperature" context 1700000001100 first.2).1 = false.
Proof.
  apply (setSuppressionRule_window "s1" (mkContext None None None (Some 8%Q) (Some 90%Q))
           1000 1700000000000 1700000001100 new); vm_compute; congruence.
Defined.

End SmartAlertFilterFacts.

(** ** Objects, filters and slices *)

Lemma obj_get_set (o : object) (k k' : string) (v : value) :
  obj_get (obj_set k v o) k' = if String.eqb k k' then Some v else obj_get o k'.
Proof.
  induction o as [|[k0 v0] o IH]; simpl; [done|].
  destruct (String.eqb_spec k0 k) as [->|Hne]; simpl.
  - destruct (String.eqb k k'); done.
  - rewrite IH. destruct (String.eqb_spec k0 k') as [->|Hne'].
    + by rewrite (proj2 (String.eqb_neq _ _)) by congruence.
    + done.
Qed.

(** A name that [more] does not carry reads after the spread what it
    read in [base]. *)
Lemma obj_get_spread_other (base more : object) (k : string) :
  k ∉ more.*1 → obj_get (obj_spread base more) k = obj_get base k.
Proof.
  unfold obj_spread. revert base.
  induction more as [|[k0 v0] more IH]; intros base Hk; simpl; [done|].
  rewrite fmap_cons, not_elem_of_cons in Hk. destruct Hk as [Hne Hk]. simpl in Hne.
  rewrite IH by done. rewrite obj_get_set.
  by rewrite (proj2 (String.eqb_neq _ _)) by congruence.
Qed.

Lemma obj_get_None (o : object) (k : string) :
  k ∉ o.*1 → obj_get o k = None.
Proof.
  induction o as [|[k0 v0] o IH]; simpl; [done|].
  rewrite not_elem_of_cons. intros [Hne Hk]. simpl in Hne.
  rewrite (proj2 (String.eqb_neq _ _)) by congruence. by apply IH.
Qed.

(** A property of [more] wins over [base]. *)
Lemma obj_get_spread (base more : object) (k : string) (v : value) :
  NoDup more.*1 → obj_get more k = Some v → obj_get (obj_spread base more) k = Some v.
Proof.
  unfold obj_spread. revert base.
  induction more as [|[k0 v0] more IH]; intros base Hnd Hget; simpl in *; [done|].
  apply list.NoDup_cons in Hnd as [Hk0 Hnd].
  destruct (String.eqb_spec k0 k) as [->|Hne].
  - injection Hget as ->.
    pose proof (obj_get_spread_other (obj_set k v base) more k Hk0) as Hother.
    unfold obj_spread in Hother. rewrite Hother, obj_get_set.
    by rewrite String.eqb_refl.
  - by apply IH.
Qed.

Lemma filter_filter {A} (f g : A → bool) (l : list A) :
  List.filter g (List.filter f l) = List.filter (λ x, f x && g x) l.
Proof.
  induction l as [|x l IH]; simpl; [done|].
  destruct (f x); simpl; [destruct (g x)|]; by rewrite IH.
Qed.

Lemma filter_true {A} (l : list A) : List.filter (λ _, true) l = l.
Proof. induction l as [|x l IH]; simpl; by rewrite ?IH. Qed.

Lemma filter_ext {A} (f g : A → bool) (l : list A) :
  (∀ x, f x = g x) → List.filter f l = List.filter g l.
Proof. intros H. induction l as [|x l IH]; simpl; by rewrite ?H, ?IH. Qed.

(** [slice(0, end)] with a non-negative [end] keeps the first [end]
    elements. *)
Lemma slice_to_take {A} (l : list A) (end_ : Z) :
  0 <= end_ → slice_to l end_ = take (Z.to_nat end_) l.
Proof.
  intros Hend. unfold slice_to.
  rewrite (proj2 (Z.ltb_ge _ _)) by lia.
  destruct (Z.le_gt_cases end_ (Z.of_nat (length l))).
  - by rewrite Z.min_l by lia.
  - rewrite Z.min_r by lia. rewrite Nat2Z.id.
    by rewrite !take_ge by lia.
Qed.

Lemma length_slice_to {A} (l : list A) (end_ : Z) :
  0 <= end_ → length (slice_to l end_) = Nat.min (Z.to_nat end_) (length l).
Proof. intros. by rewrite slice_to_take, length_take. Qed.

Lemma as_objects_objects (l : list object) : as_objects (VObj <$> l) = Some l.
Proof. unfold as_objects. by apply mapM_fmap_Some. Qed.

(** ** The host used for examples keeps the round trip *)

Lemma of_bits_bits (p : positive) : ReferenceHost.of_bits (ReferenceHost.bits p) = Some p.
Proof. induction p as [p IH|p IH|]; simpl; by rewrite ?IH. Qed.

Lemma of_tree_to_tree (v : value) : ReferenceHost.of_tree (ReferenceHost.to_tree v) = Some v.
Proof.
  induction v as [ | b | [num den] | s | items IH | props IH ] using value_ind;
    simpl; try done.
  - rewrite (mapM_fmap_Forall_Some _ _ items); [done|].
    exact IH.
  - rewrite (mapM_fmap_Forall_Some _ _ props); [done|].
    eapply List.Forall_impl; [|exact IH].
    intros [k v] Hv. simpl in *. by rewrite Hv.
Qed.

Lemma ReferenceHost_roundtrip : JSON_roundtrip ReferenceHost.host.
Proof.
  intros v space. simpl.
  by rewrite of_bits_bits; simpl; rewrite decode_encode; simpl; rewrite of_tree_to_tree.
Qed.

(** ** Properties of the alert store *)

Module AlertManagerFacts.
Import AlertManager AlertManagerSpec.

Section WithHost.
Context {host : Host}.

Lemma saveToStorage_persisted (this : t) : persisted (saveToStorage this).
Proof.
  unfold persisted, saveToStorage. simpl.
  rewrite lookup_insert_eq. by rewrite slice_to_take by lia.
Qed.

Lemma notifyListeners_persisted (this : t) : persisted this → persisted (notifyListeners this).
Proof. done. Qed.

Lemma queueNotification_persisted (a : object) (this : t) :
  persisted this → persisted (queueNotification a this).
Proof. done. Qed.

Lemma filter_when {A} (b : bool) (f : A → bool) (l : list A) :
  (if b then List.filter f l else l) = List.filter (λ x, negb b || f x) l.
Proof. destruct b; simpl; [done|]. by rewrite filter_true. Qed.

(** C8 (as amended).  For a filter whose [storeId] and [type], when
    given, are not empty and whose [limit], when given, is positive,
    [getAlerts] returns exactly the stored alerts that meet all the given
    criteria, in stored order, cut to the first [limit]; without a
    filter it returns the whole collection; and in both cases the store
    is left as it was. *)
Theorem getAlerts_selected (filter : Filter) (this : t) :
  f_storeId filter ≠ Some "" →
  f_type filter ≠ Some "" →
  (∀ limit, f_limit filter = Some limit → 0 < limit) →
  getAlerts (Some filter) this = (selected filter (alerts this), this)
  ∧ getAlerts None this = (alerts this, this).
Proof.
  intros Hstore Htype Hlimit. split; [|done].
  destruct filter as [storeId type severity unreadOnly limit].
  unfold getAlerts, selected. simpl in *. f_equal.
  rewrite !filter_when.
  assert (Hsev : ∀ l : list object,
    match severity with
    | Some severity =>
        List.filter (λ a, strict_eq_string (obj_get a "severity") (Severity_name severity)) l
    | None => l
    end
    = List.filter (λ a, match severity with
                        | Some severity =>
                            strict_eq_string (obj_get a "severity") (Severity_name severity)
                        | None => true
                        end) l).
  { intros l. destruct severity; [done|]. by rewrite filter_true. }
  rewrite Hsev, !filter_filter.
  assert (Hsel : List.filter
      (λ x, (negb (truthy_string storeId)
             || strict_eq_string (obj_get x "storeId") (default "" storeId))
            && ((negb (truthy_string type)
                 || strict_eq_string (obj_get x "type") (default "" type))
                && (match severity with
                    | Some severity =>
                        strict_eq_string (obj_get x "severity") (Severity_name severity)
                    | None => true
                    end
                    && (negb (truthy_bool unreadOnly)
                        || negb (truthy (obj_get x "read"))))))
      (alerts this)
    = List.filter (meets (mkFilter storeId type severity unreadOnly limit)) (alerts this)).
  { apply filter_ext. intros a. unfold meets. simpl. rewrite !andb_assoc.
    destruct storeId as [s|]; simpl;
      [destruct (String.eqb_spec s "") as [->|_]; [done|]|];
      (destruct type as [s'|]; simpl;
        [destruct (String.eqb_spec s' "") as [->|_]; [done|]|]);
      by destruct unreadOnly as [[]|]. }
  rewrite Hsel.
  destruct limit as [limit|]; simpl; [|done].
  specialize (Hlimit limit eq_refl).
  rewrite (proj2 (Z.eqb_neq _ _)) by lia. simpl.
  apply slice_to_take. lia.
Qed.

(** C9.  Whatever property the caller puts into [alertData] reaches the
    alert with the caller's value, the four synthesized ones ([id],
    [timestamp], [read], [severity]) included: the spread comes last.
    The alert returned is the one stored at the head of the collection. *)
Theorem addAlert_caller_wins (now : Z) (rnd : string) (alertData : object) (this : t)
    (k : string) (v : value) :
  NoDup alertData.*1 →
  obj_get alertData k = Some v →
  let r := addAlert now rnd alertData this in
  obj_get r.1 k = Some v ∧ head (alerts r.2) = Some r.1.
Proof.
  intros Hnd Hget. simpl. split; [|done].
  unfold newAlert. by apply obj_get_spread.
Qed.

(** What [addAlert] synthesizes shows only where the caller is silent. *)
Lemma addAlert_synthesized (now : Z) (rnd : string) (alertData : object) (this : t)
    (k : string) :
  k ∉ alertData.*1 →
  obj_get (addAlert now rnd alertData this).1 k
  = obj_get
      [ ("id", VStr (generateId now rnd));
        ("timestamp", VStr (toISOString now));
        ("read", VBool false);
        ("severity",
          VStr (Severity_name
            (calculateAlertSeverity (as_type_name (obj_get alertData "type"))
               {| sc_temperature := as_number (obj_get alertData "temperature");
                  sc_fillPercent := as_number (obj_get alertData "fillPercent");
                  sc_confidence := as_number (obj_get alertData "confidence") |}))) ] k.
Proof. intros Hk. simpl. unfold newAlert. by apply obj_get_spread_other. Qed.

(** C6.  An input that does not parse, or whose parse carries no array
    under [alerts], is refused: the call returns [false] and the
    collection, storage, the queue and the listeners' calls are exactly
    what they were.  An accepted array replaces the whole collection in
    one step, is persisted (its newest 1000) and is announced to every
    listener, and the call returns [true]. *)
Theorem importAlerts_all_or_nothing (jsonData : string) (this : t) :
  ((JSON_parse jsonData = None
    ∨ ∃ data, JSON_parse jsonData = Some data ∧ alerts_array data = None) →
   importAlerts jsonData this = Some (false, this))
  ∧ (∀ data items imported,
       JSON_parse jsonData = Some data →
       alerts_array data = Some items →
       as_objects items = Some imported →
       importAlerts jsonData this
       = Some (true,
               mk imported (listeners this) (notificationQueue this)
                  (<["pret-alerts" :=
                       JSON_stringify (VArr (VObj <$> take 1000 imported)) 0]>
                     (localStorage this))
                  (delivered this
                     ++ ((λ listener, (listener, imported)) <$> listeners this)))).
Proof.
  unfold importAlerts. split.
  - intros [->|(data & -> & Hnone)]; [done|].
    destruct data as [ | b | n | s | items | props ]; simpl in *; try done.
    destruct (obj_get props "alerts") as [[ | b | n | s | items | props' ]|];
      simpl in *; try done.
    + by destruct b.
    + by destruct (negb _).
    + by destruct (negb _).
  - intros data items imported -> Harr Hobj.
    destruct data as [ | b | n | s | items' | props ]; simpl in *; try done.
    destruct (obj_get props "alerts") as [[ | b | n | s | items' | props' ]|];
      simpl in *; try done.
    injection Harr as ->. rewrite Hobj. simpl.
    unfold notifyListeners, saveToStorage. simpl.
    by rewrite slice_to_take by lia.
Qed.

Lemma addAlert_persisted (now : Z) (rnd : string) (alertData : object) (this : t) :
  persisted (addAlert now rnd alertData this).2.
Proof.
  unfold addAlert. simpl.
  apply queueNotification_persisted, notifyListeners_persisted, saveToStorage_persisted.
Qed.

(** In memory every alert added is kept, newest first. *)
Lemma alerts_addAlerts (calls : list (Z * string * object)) (this : t) :
  alerts (addAlerts calls this) = (reverse (newAlertOf <$> calls) ++ alerts this)%list.
Proof.
  unfold addAlerts. revert this.
  induction calls as [|call calls IH]; intros this; simpl; [done|].
  rewrite IH. simpl. rewrite reverse_cons, <- app_assoc. done.
Qed.

Lemma persisted_addAlerts (calls : list (Z * string * object)) (this : t) :
  persisted this ∨ calls ≠ [] → persisted (addAlerts calls this).
Proof.
  unfold addAlerts. revert this.
  induction calls as [|call calls IH]; intros this Hp; simpl.
  - by destruct Hp.
  - apply IH. left. apply addAlert_persisted.
Qed.

(** Every call that changes the store writes the newest 1000 alerts of
    the collection it leaves behind. *)
Lemma mutate_persisted (m : Mutation) (this after : t) :
  mutate m this = Some after → after = this ∨ persisted after.
Proof.
  destruct m as [now rnd alertData|alertId| |alertId| |jsonData]; simpl.
  - intros [= <-]. right. apply addAlert_persisted.
  - intros [= <-]. unfold markAsRead. destruct (markFirst _ _); [right|by left].
    apply notifyListeners_persisted, saveToStorage_persisted.
  - intros [= <-]. unfold markAllAsRead. destruct (existsb _ _); [right|by left].
    apply notifyListeners_persisted, saveToStorage_persisted.
  - intros [= <-]. unfold deleteAlert. destruct (removeFirst _ _); [right|by left].
    apply notifyListeners_persisted, saveToStorage_persisted.
  - intros [= <-]. right. apply notifyListeners_persisted, saveToStorage_persisted.
  - unfold importAlerts.
    destruct (JSON_parse jsonData) as [data|]; simpl; [|intros [= <-]; by left].
    destruct (member data "alerts") as [data_alerts|]; simpl; [|intros [= <-]; by left].
    destruct (truthy data_alerts && isArray data_alerts); simpl; [|intros [= <-]; by left].
    destruct (as_objects _) as [l|]; simpl; [|done].
    intros [= <-]. right. apply notifyListeners_persisted, saveToStorage_persisted.
Qed.

(** C7.  Add 1001 alerts, one call after the other.  Storage then
    holds exactly 1000 alerts: the ones just added except the one added
    first, newest first.  In memory that oldest one still follows them,
    so that from an empty collection it is the only alert storage lacks.
    More generally every call that changes the store leaves in storage
    the newest 1000 alerts of the collection it produced, and never more
    than 1000. *)
Theorem retention (first : Z * string * object) (rest : list (Z * string * object))
    (this : t) :
  length rest = 1000%nat →
  let after := addAlerts (first :: rest) this in
  let kept := reverse (newAlertOf <$> rest) in
  localStorage after !! "pret-alerts" = Some (JSON_stringify (VArr (VObj <$> kept)) 0)
  ∧ length kept = 1000%nat
  ∧ alerts after = (kept ++ newAlertOf first :: alerts this)%list
  ∧ (alerts this = [] → alerts after = (kept ++ [newAlertOf first])%list)
  ∧ (∀ m before changed,
       mutate m before = Some changed →
       changed = before
       ∨ (localStorage changed !! "pret-alerts"
            = Some (JSON_stringify (VArr (VObj <$> take 1000 (alerts changed))) 0)
          ∧ length (take 1000 (alerts changed)) ≤ 1000)%nat).
Proof.
  intros Hlen after kept.
  assert (Hkept : length kept = 1000%nat).
  { subst kept. by rewrite length_reverse, length_fmap. }
  assert (Halerts : alerts after = (kept ++ newAlertOf first :: alerts this)%list).
  { subst after kept. rewrite alerts_addAlerts.
    by rewrite fmap_cons, reverse_cons, <- app_assoc. }
  split; [|split; [done|split; [done|split]]].
  - assert (Hne : first :: rest ≠ []) by done.
    pose proof (persisted_addAlerts (first :: rest) this (or_intror Hne)) as Hp.
    unfold persisted in Hp. fold after in Hp. rewrite Hp, Halerts.
    by rewrite take_app_length' by done.
  - intros Hempty. by rewrite Halerts, Hempty.
  - intros m before changed Hm.
    destruct (mutate_persisted m before changed Hm) as [->|Hp]; [by left|right].
    split; [exact Hp|]. rewrite length_take. lia.
Qed.

(** C10.  The collection in memory is never cut.  After [N] > 1000
    calls of [addAlert] it holds the [N] new alerts, newest first, in
    front of what it held before; [getAlerts()] returns all of them and
    [getStatistics().total] counts all of them, while storage holds the
    first 1000 only. *)
Theorem memory_keeps_all (calls : list (Z * string * object)) (now : Z) (this : t) :
  (1000 < length calls)%nat →
  let after := addAlerts calls this in
  alerts after = (reverse (newAlertOf <$> calls) ++ alerts this)%list
  ∧ (getAlerts None after).1 = alerts after
  ∧ total (getStatistics now after).1
    = Z.of_nat (length calls) + Z.of_nat (length (alerts this))
  ∧ ∃ saved,
      localStorage after !! "pret-alerts" = Some (JSON_stringify (VArr (VObj <$> saved)) 0)
      ∧ saved = take 1000 (reverse (newAlertOf <$> calls))
      ∧ length saved = 1000%nat
      ∧ (length saved < length (alerts after))%nat.
Proof.
  intros Hlen after.
  assert (Halerts : alerts after = (reverse (newAlertOf <$> calls) ++ alerts this)%list)
    by apply alerts_addAlerts.
  split; [done|split; [done|split]].
  - simpl. rewrite Halerts, length_app, length_reverse, length_fmap. lia.
  - exists (take 1000 (reverse (newAlertOf <$> calls))).
    assert (Hsaved : length (take 1000 (reverse (newAlertOf <$> calls))) = 1000%nat).
    { rewrite length_take, length_reverse, length_fmap. lia. }
    split; [|split; [done|split; [done|]]].
    + assert (Hne : calls ≠ []) by (intros ->; simpl in Hlen; lia).
      pose proof (persisted_addAlerts calls this (or_intror Hne)) as Hp.
      unfold persisted in Hp. fold after in Hp. rewrite Hp, Halerts.
      rewrite take_app_le; [done|]. rewrite length_reverse, length_fmap. lia.
    + rewrite Hsaved, Halerts, length_app, length_reverse, length_fmap. lia.
Qed.

(** C5.  On a host whose [JSON.parse] reads back what [JSON.stringify]
    wrote: exporting a store leaves it as it was, and importing the
    exported text into any other store returns [true] and gives that
    store the same sequence of alerts, in the same order, each with the
    [id], [timestamp], [severity] and [read] flag it had. *)
Theorem export_import (now : Z) (source target : t) :
  JSON_roundtrip host →
  let exported := exportAlerts now source in
  exported.2 = source
  ∧ ∃ after,
      importAlerts exported.1 target = Some (true, after)
      ∧ alerts after = alerts source
      ∧ Forall2 (λ imported original,
                   obj_get imported "id" = obj_get original "id"
                   ∧ obj_get imported "timestamp" = obj_get original "timestamp"
                   ∧ obj_get imported "severity" = obj_get original "severity"
                   ∧ obj_get imported "read" = obj_get original "read")
                (alerts after) (alerts source).
Proof.
  intros Hjson. simpl. split; [done|].
  unfold importAlerts. rewrite Hjson. simpl.
  rewrite as_objects_objects. simpl.
  eexists. split; [done|]. simpl. split; [done|].
  apply Forall_Forall2_diag, list.Forall_forall. done.
Qed.

(** A marked alert reads as read. *)
Lemma marked_read (alert : object) :
  truthy (obj_get (if negb (truthy (obj_get alert "read"))
                   then obj_set "read" (VBool true) alert else alert) "read") = true.
Proof.
  destruct (truthy (obj_get alert "read")) eqn:Hread; simpl; [done|].
  by rewrite obj_get_set.
Qed.

(** X2.  After [markAllAsRead] no alert is unread, so a second call
    changes nothing and notifies nobody. *)
Theorem markAllAsRead_idempotent (this : t) :
  markAllAsRead (markAllAsRead this) = markAllAsRead this
  ∧ delivered (markAllAsRead (markAllAsRead this)) = delivered (markAllAsRead this)
  ∧ Forall (λ alert, truthy (obj_get alert "read") = true) (alerts (markAllAsRead this)).
Proof.
  assert (Hall : Forall (λ alert, truthy (obj_get alert "read") = true)
                   (alerts (markAllAsRead this))).
  { unfold markAllAsRead.
    destruct (existsb _ (alerts this)) eqn:Hex; simpl.
    - apply Forall_fmap, Forall_forall. intros alert _. apply marked_read.
    - apply Forall_forall. intros alert Hin.
      destruct (truthy (obj_get alert "read")) eqn:Hread; [done|].
      assert (existsb (λ alert, negb (truthy (obj_get alert "read"))) (alerts this) = true)
        as Hex'; [|congruence].
      apply existsb_exists. exists alert. split; [exact Hin|].
      by rewrite Hread. }
  assert (Hsame : markAllAsRead (markAllAsRead this) = markAllAsRead this).
  { unfold markAllAsRead at 1.
    assert (existsb (λ alert, negb (truthy (obj_get alert "read")))
              (alerts (markAllAsRead this)) = false) as ->; [|done].
    apply not_true_is_false. intros Hex.
    apply existsb_exists in Hex as (alert & Hin & Hunread).
    rewrite Forall_forall in Hall. rewrite (Hall alert Hin) in Hunread. done. }
  split; [done|split; [by rewrite Hsame|done]].
Qed.

(** What passes the test of [loadFromStorage] has the four
    properties. *)
Lemma validAlert_passes (v : value) (alert : object) :
  validAlert v = Some alert →
  v = VObj alert
  ∧ truthy (obj_get alert "id") = true ∧ truthy (obj_get alert "type") = true
  ∧ truthy (obj_get alert "title") = true ∧ truthy (obj_get alert "message") = true.
Proof.
  destruct v as [ | b | n | s | items | props ]; simpl; try done.
  destruct (truthy (obj_get props "id")) eqn:Hid; simpl; [|done].
  destruct (truthy (obj_get props "type")) eqn:Htype; simpl; [|done].
  destruct (truthy (obj_get props "title")) eqn:Htitle; simpl; [|done].
  destruct (truthy (obj_get props "message")) eqn:Hmessage; simpl; [|done].
  by intros [= <-].
Qed.

(** X3.  What a new store holds is decided by the text that storage
    keeps under [pret-alerts].  A text that is not empty and parses to
    an array gives the store the elements of that array that are objects
    with a truthy [id], [type], [title] and [message], in order, and no
    other: every record that lacks one of the four is discarded.
    Without a text, with the empty text, and with a text that does not
    parse or parses to something else than an array, the store is
    empty.  Storage itself is left as it was. *)
Theorem loadFromStorage_valid (storage : gmap string string) :
  (∀ stored items,
     storage !! "pret-alerts" = Some stored → stored ≠ "" →
     JSON_parse stored = Some (VArr items) →
     alerts (new storage) = omap validAlert items
     ∧ ∀ alert, alert ∈ alerts (new storage) ↔
         VObj alert ∈ items
         ∧ truthy (obj_get alert "id") = true ∧ truthy (obj_get alert "type") = true
         ∧ truthy (obj_get alert "title") = true
         ∧ truthy (obj_get alert "message") = true)
  ∧ (storage !! "pret-alerts" = None ∨ storage !! "pret-alerts" = Some ""
     ∨ (∃ stored, storage !! "pret-alerts" = Some stored
          ∧ ∀ items, JSON_parse stored ≠ Some (VArr items)) →
     alerts (new storage) = [])
  ∧ Forall (λ alert,
              truthy (obj_get alert "id") = true ∧ truthy (obj_get alert "type") = true
              ∧ truthy (obj_get alert "title") = true
              ∧ truthy (obj_get alert "message") = true)
           (alerts (new storage))
  ∧ localStorage (new storage) = storage.
Proof.
  unfold new, loadFromStorage. simpl. split; [|split; [|split]].
  - intros stored items -> Hne ->. rewrite (proj2 (String.eqb_neq _ _) Hne). simpl.
    split; [done|]. intros alert. rewrite list_elem_of_omap. split.
    + intros (v & Hin & Hvalid). apply validAlert_passes in Hvalid as (-> & Hfour). done.
    + intros (Hin & Hid & Htype & Htitle & Hmessage). exists (VObj alert). split; [done|].
      simpl. by rewrite Hid, Htype, Htitle, Hmessage.
  - intros [-> | [-> | (stored & -> & Hparse)]]; [done..|].
    destruct (negb (String.eqb stored "")); [|done].
    destruct (JSON_parse stored) as [[ | b | n | s | items | props ]|]; try done.
    by destruct (Hparse items).
  - destruct (storage !! "pret-alerts") as [stored|]; [|done].
    destruct (negb (String.eqb stored "")); [|done].
    destruct (JSON_parse stored) as [[ | b | n | s | items | props ]|]; try done.
    simpl. apply list.Forall_forall. intros alert Hin.
    apply list_elem_of_omap in Hin as (v & _ & Hvalid).
    by apply validAlert_passes in Hvalid as (_ & Hfour).
  - destruct (storage !! "pret-alerts") as [stored|]; [|done].
    destruct (negb (String.eqb stored "")); [|done].
    by destruct (JSON_parse stored) as [[ | b | n | s | items | props ]|].
Qed.

End WithHost.

End AlertManagerFacts.

(** ** The statements on concrete stores *)

Module Examples.
Import AlertManager AlertManagerSpec AlertManagerFacts Sample.

Lemma failure_NoDup : NoDup failure.*1.
Proof. compute_done. Qed.

(** C5 on [two]: its export, imported into the empty store. *)
Lemma export_import_example :
  let exported := exportAlerts (host := ReferenceHost.host) 1700000120000 two in
  ∃ after,
    importAlerts (host := ReferenceHost.host) exported.1 empty = Some (true, after)
    ∧ alerts after = alerts two.
Proof.
  destruct (export_import (host := ReferenceHost.host) 1700000120000 two empty
              ReferenceHost_roundtrip) as (_ & after & Himport & Halerts & _).
  exact (ex_intro _ after (conj Himport Halerts)).
Defined.

(** C6 on a text that does not parse, and on a document that carries
    one alert. *)
Lemma importAlerts_example :
  let document := VObj [("alerts", VArr [VObj failure]); ("version", VStr "1.0.0")] in
  let text := JSON_stringify (Host := ReferenceHost.host) document 2 in
  importAlerts (host := ReferenceHost.host) "{ alerts: " two = Some (false, two)
  ∧ fst <$> importAlerts (host := ReferenceHost.host) text two = Some true
  ∧ (alerts ∘ snd) <$> importAlerts (host := ReferenceHost.host) text two
    = Some [failure].
Proof.
  intros document text.
  pose proof (proj2 (importAlerts_all_or_nothing (host := ReferenceHost.host) text two)
                document [VObj failure] [failure]
                (ReferenceHost_roundtrip document 2%nat) eq_refl eq_refl) as Haccepted.
  split; [|split].
  - exact (proj1 (importAlerts_all_or_nothing (host := ReferenceHost.host) "{ alerts: " two)
             (or_introl eq_refl)).
  - exact (f_equal (fmap fst) Haccepted).
  - exact (f_equal (fmap (alerts ∘ snd)) Haccepted).
Defined.

(** C7 on 1001 calls made on the empty store. *)
Lemma retention_example :
  let first := (1700000000000, "k3j9x0q2a", failure) in
  let rest := replicate 1000 (1700000060000, "p0o9i8u7y", warm) in
  let after := addAlerts (host := ReferenceHost.host) (first :: rest) empty in
  let kept := reverse (newAlertOf (host := ReferenceHost.host) <$> rest) in
  localStorage after !! "pret-alerts"
  = Some (JSON_stringify (Host := ReferenceHost.host) (VArr (VObj <$> kept)) 0)
  ∧ length kept = 1000%nat
  ∧ alerts after = (kept ++ [newAlertOf (host := ReferenceHost.host) first])%list.
Proof.
  intros first rest after kept.
  destruct (retention (host := ReferenceHost.host) first rest empty
              (length_replicate 1000 _)) as (Hstorage & Hlength & _ & Hmemory & _).
  exact (conj Hstorage (conj Hlength (Hmemory eq_refl))).
Defined.

(** C8 on [two]: the unread alerts of store [s2], at most one. *)
Lemma getAlerts_example :
  getAlerts (Some (mkFilter (Some "s2") None None (Some true) (Some 1))) two
  = ([newAlertOf (host := ReferenceHost.host) (1700000060000, "p0o9i8u7y", warm)], two).
Proof.
  refine (proj1 (getAlerts_selected
                   (mkFilter (Some "s2") None None (Some true) (Some 1)) two _ _ _)).
  - discriminate.
  - discriminate.
  - intros limit [= <-]. reflexivity.
Defined.

(** C8 (as stated) fails for a limit of zero and for an empty store id:
    both are given, both are falsy, and [getAlerts] returns the whole
    collection where the stated selection is empty. *)
Lemma getAlerts_counterexample :
  (getAlerts (Some (mkFilter None None None None (Some 0))) two).1 = alerts two
  ∧ selected (mkFilter None None None None (Some 0)) (alerts two) = []
  ∧ (getAlerts (Some (mkFilter (Some "") None None None None)) two).1 = alerts two
  ∧ selected (mkFilter (Some "") None None None None) (alerts two) = []
  ∧ length (alerts two) = 2%nat.
Proof. repeat split; vm_compute; reflexivity. Qed.

(** C9 on [failure]: the caller's severity [low] is what the alert
    carries, where the classifier says [critical]. *)
Lemma addAlert_caller_wins_example :
  let r := addAlert (host := ReferenceHost.host) 1700000000000 "k3j9x0q2a" failure empty in
  obj_get r.1 "severity" = Some (VStr "low")
  ∧ head (alerts r.2) = Some r.1
  ∧ calculateAlertSeverity "equipment_failure"
      (mkSeverityContext None None (Some 100%Q)) = critical.
Proof.
  intros r.
  destruct (addAlert_caller_wins (host := ReferenceHost.host) 1700000000000 "k3j9x0q2a"
              failure empty "severity" (VStr "low") failure_NoDup eq_refl)
    as [Hseverity Hhead].
  exact (conj Hseverity (conj Hhead eq_refl)).
Defined.

(** C10 on 1001 calls. *)
Lemma memory_keeps_all_example :
  let calls := replicate 1001 (1700000060000, "p0o9i8u7y", warm) in
  let after := addAlerts (host := ReferenceHost.host) calls empty in
  (getAlerts None after).1 = alerts after
  ∧ total (getStatistics (host := ReferenceHost.host) 1700000120000 after).1 = 1001.
Proof.
  intros calls after.
  assert (Hcalls : (1000 < length calls)%nat).
  { unfold calls. rewrite length_replicate. repeat constructor. }
  destruct (memory_keeps_all (host := ReferenceHost.host) calls 1700000120000 empty Hcalls)
    as (_ & Hget & Htotal & _).
  split; [exact Hget|].
  etransitivity; [exact Htotal|].
  unfold calls. rewrite length_replicate. reflexivity.
Defined.

(** X3 on a text that holds a payload without an id, a null and the
    two alerts of [two]: the store starts with the two alerts. *)
Lemma loadFromStorage_valid_example :
  let items := VObj failure :: VNull :: (VObj <$> alerts two) in
  let stored := JSON_stringify (Host := ReferenceHost.host) (VArr items) 0 in
  alerts (new (host := ReferenceHost.host) {[ "pret-alerts" := stored ]}) = alerts two.
Proof.
  intros items stored.
  destruct (proj1 (loadFromStorage_valid (host := ReferenceHost.host)
                     {[ "pret-alerts" := stored ]}) stored items)
    as [Hloaded _].
  - vm_compute; reflexivity.
  - vm_compute; discriminate.
  - apply ReferenceHost_roundtrip.
  - etransitivity; [exact Hloaded|]. vm_compute; reflexivity.
Defined.

End Examples.

(** * Further properties *)

(** ** Texts *)

Lemma append_assoc (s1 s2 s3 : string) : (s1 +:+ s2) +:+ s3 = s1 +:+ s2 +:+ s3.
Proof.
  induction s1 as [|c s1 IH]; [done|].
  change (String c ((s1 +:+ s2) +:+ s3) = String c (s1 +:+ s2 +:+ s3)). by rewrite IH.
Qed.

Lemma length_append (s1 s2 : string) :
  String.length (s1 +:+ s2) = (String.length s1 + String.length s2)%nat.
Proof.
  induction s1 as [|c s1 IH]; [done|].
  change (S (String.length (s1 +:+ s2)) = S (String.length s1 + String.length s2)).
  by rewrite IH.
Qed.

(** Two texts that end in tails of the same length are equal only if
    the heads are equal and the tails are. *)
Lemma append_inj_tail (s s' u u' : string) :
  String.length u = String.length u' → s +:+ u = s' +:+ u' → s = s' ∧ u = u'.
Proof.
  intros Hlen. revert s'.
  induction s as [|c s IH]; intros [|c' s'] Heq.
  - done.
  - apply (f_equal String.length) in Heq.
    change (String.length u = S (String.length (s' +:+ u'))) in Heq.
    rewrite length_append in Heq. lia.
  - apply (f_equal String.length) in Heq.
    change (S (String.length (s +:+ u)) = String.length u') in Heq.
    rewrite length_append in Heq. lia.
  - change (String c (s +:+ u) = String c' (s' +:+ u')) in Heq.
    injection Heq as -> Heq. destruct (IH _ Heq) as [-> ->]. done.
Qed.

(** Two texts without a dash, each followed by a dash and a tail, are
    equal only if the heads are equal and the tails are. *)
Lemma append_inj_dash (s s' u u' : string) :
  dashfree s = true → dashfree s' = true →
  s +:+ "-" +:+ u = s' +:+ "-" +:+ u' → s = s' ∧ u = u'.
Proof.
  revert s'. induction s as [|c s IH]; intros [|c' s'] Hs Hs' Heq.
  - change (String "-" u = String "-" u') in Heq. by injection Heq as ->.
  - change (String "-" u = String c' (s' +:+ "-" +:+ u')) in Heq.
    injection Heq as <- _. done.
  - change (String c (s +:+ "-" +:+ u) = String "-" u') in Heq.
    injection Heq as -> _. done.
  - change (String c (s +:+ "-" +:+ u) = String c' (s' +:+ "-" +:+ u')) in Heq.
    injection Heq as -> Heq. simpl in Hs, Hs'.
    apply andb_prop in Hs as [_ Hs]. apply andb_prop in Hs' as [_ Hs'].
    destruct (IH _ Hs Hs' Heq) as [-> ->]. done.
Qed.

Lemma dashfree_pretty_N_go (x : N) (s : string) :
  dashfree s = true → dashfree (pretty_N_go x s) = true.
Proof.
  revert s. induction (N.lt_wf_0 x) as [x _ IH]; intros s Hs.
  assert (x = 0 ∨ 0 < x)%N as [->|Hpos] by lia.
  - by rewrite pretty_N_go_0.
  - rewrite pretty_N_go_step by done. apply IH.
    { by apply N.div_lt. }
    simpl. rewrite Hs, andb_true_r.
    unfold pretty_N_char. by repeat case_match.
Qed.

(** The decimal text of a clock reading holds no dash. *)
Lemma dashfree_pretty (now : Z) : 0 <= now → dashfree (pretty now) = true.
Proof.
  destruct now as [|p|p]; [done| |lia]. intros _.
  unfold pretty, pretty_Z, pretty, pretty_positive, pretty, pretty_N.
  case_decide; [done|]. by apply dashfree_pretty_N_go.
Qed.

(** X10.  Two generated ids are equal only if they were made from the
    same clock reading and the same random part: the decimal text of a
    clock reading holds no dash, so the first dash of an id is the one
    that separates the two parts. *)
Theorem generateId_injective (now now' : Z) (rnd rnd' : string) :
  0 <= now → 0 <= now' →
  generateId now rnd = generateId now' rnd' →
  now = now' ∧ rnd = rnd'.
Proof.
  intros Hnow Hnow' Heq. unfold generateId in Heq.
  apply append_inj_dash in Heq as [Heq ->]; [|by apply dashfree_pretty..].
  split; [|done]. by apply (inj pretty).
Qed.

(** Two ids made at the same millisecond from the same random part. *)
Lemma generateId_injective_example :
  generateId 1700000000000 "k3j9x0q2a" = "1700000000000-k3j9x0q2a"
  ∧ generateId 1700000000000 "k3j9x0q2a" = generateId 1700000000000 "k3j9x0q2a"
  ∧ 1700000000000 = 1700000000000 ∧ "k3j9x0q2a" = "k3j9x0q2a".
Proof.
  split; [reflexivity|]. split; [reflexivity|].
  apply (generateId_injective 1700000000000 1700000000000 "k3j9x0q2a" "k3j9x0q2a");
    [lia | lia | reflexivity].
Defined.

(** ** Further properties of the suppression engine *)

Module SmartAlertFilterMore.
Import SmartAlertFilter SmartAlertFilterFacts.

(** X6.  For the three declared types the key of the timing map tells
    the store and the type apart: two (store, type) pairs share a key
    only if they are the same pair, whatever the store ids are. *)
Theorem alertKey_injective (storeId storeId' type type' : string) :
  declared type → declared type' →
  alertKey storeId type = alertKey storeId' type' →
  storeId = storeId' ∧ type = type'.
Proof.
  unfold alertKey.
  intros [-> | [-> | ->]] [-> | [-> | ->]] Heq;
    try (apply append_inj_tail in Heq as [-> Heq]; [|reflexivity];
         first [done | vm_compute in Heq; discriminate]).
  all: change ("-" +:+ "equipment_failure") with ("-equip" +:+ "ment_failure") in Heq;
    rewrite <- (append_assoc _ "-equip") in Heq;
    apply append_inj_tail in Heq as [_ Heq]; [vm_compute in Heq; discriminate | reflexivity].
Qed.

(** The key of the temperature alerts of a store. *)
Lemma alertKey_injective_example :
  alertKey "store-5th-ave" "temperature" = "store-5th-ave-temperature"
  ∧ declared "temperature"
  ∧ "store-5th-ave" = "store-5th-ave" ∧ "temperature" = "temperature".
Proof.
  split; [reflexivity|]. split; [right; left; reflexivity|].
  apply (alertKey_injective "store-5th-ave" "store-5th-ave" "temperature" "temperature");
    [right; left; reflexivity | right; left; reflexivity | reflexivity].
Defined.

(** With a type name that holds a dash two different pairs can share a
    key. *)
Lemma alertKey_collision : alertKey "a" "b-c" = alertKey "a-b" "c".
Proof. reflexivity. Qed.

(** The decision of a call: one of the three checks fires. *)
Lemma shouldSuppressAlert_decision (storeId type : string) (context : Context)
    (now : Z) (this : t) :
  (shouldSuppressAlert storeId type context now this).1
  = (now - or_zero (recentAlerts this !! alertKey storeId type)
       <? getSuppressionTime this type context)
    || shouldSuppressBasedOnContext type context
    || belowMinConfidence type context.
Proof.
  unfold shouldSuppressAlert.
  destruct (_ <? _); [done|].
  destruct (shouldSuppressBasedOnContext _ _); [done|].
  by destruct (belowMinConfidence _ _).
Qed.

(** The state a call leaves is the one it found, or the one with the
    instant recorded and the old entries purged. *)
Lemma shouldSuppressAlert_after (storeId type : string) (context : Context)
    (now : Z) (this : t) :
  let r := shouldSuppressAlert storeId type context now this in
  r.2 = (if r.1 then this
         else cleanupOldEntries now
                {| recentAlerts := <[alertKey storeId type := now]> (recentAlerts this);
                   suppressionRules := suppressionRules this |}).
Proof.
  unfold shouldSuppressAlert.
  destruct (_ <? _); [done|].
  destruct (shouldSuppressBasedOnContext _ _); [done|].
  by destruct (belowMinConfidence _ _).
Qed.

Lemma shouldSuppressAlert_rules (storeId type : string) (context : Context)
    (now : Z) (this : t) :
  suppressionRules (shouldSuppressAlert storeId type context now this).2
  = suppressionRules this.
Proof.
  pose proof (shouldSuppressAlert_after storeId type context now this) as H.
  simpl in H. rewrite H. by destruct (_.1).
Qed.

(** What a call for one key leaves under another key: the entry that
    was there, unless the call was allowed and the entry was more than
    an hour old. *)
Lemma shouldSuppressAlert_other_key (storeId type : string) (context : Context)
    (now : Z) (this : t) (key : string) :
  key ≠ alertKey storeId type →
  let r := shouldSuppressAlert storeId type context now this in
  recentAlerts r.2 !! key
  = match recentAlerts this !! key with
    | Some time => if r.1 then Some time
                   else if bool_decide (now - time <= oneHour) then Some time else None
    | None => None
    end.
Proof.
  intros Hkey r.
  pose proof (shouldSuppressAlert_after storeId type context now this) as H.
  fold r in H. simpl in H. rewrite H.
  destruct (r.1); [by destruct (_ !! key)|].
  simpl. rewrite map_lookup_filter. rewrite lookup_insert_ne by done.
  destruct (recentAlerts this !! key) as [time|]; simpl; [|done].
  case_bool_decide; rewrite option_guard_decide; case_decide; simpl in *;
    unfold oneHour in *; (done || lia).
Qed.

(** X7.  Keys do not interfere.  With a window of at most one hour and
    a clock that never read below zero, what a call returns for one
    (store, type) key is not changed by a call made before it for
    another key, allowed or not. *)
Theorem other_key_independent (storeId type : string) (context : Context) (now : Z)
    (storeId' type' : string) (context' : Context) (now' : Z) (this : t) :
  alertKey storeId type ≠ alertKey storeId' type' →
  now' <= now →
  getSuppressionTime this type context <= oneHour →
  0 <= or_zero (recentAlerts this !! alertKey storeId type) →
  (shouldSuppressAlert storeId type context now
     (shouldSuppressAlert storeId' type' context' now' this).2).1
  = (shouldSuppressAlert storeId type context now this).1.
Proof.
  intros Hkey Hnow Hwin Hpos.
  rewrite !shouldSuppressAlert_decision.
  rewrite (getSuppressionTime_rules (shouldSuppressAlert storeId' type' context' now' this).2 this)
    by apply shouldSuppressAlert_rules.
  rewrite shouldSuppressAlert_other_key by done.
  destruct (recentAlerts this !! alertKey storeId type) as [time|] eqn:Hlook; [|done].
  destruct (_.1); [done|].
  case_bool_decide; [done|].
  simpl in *.
  rewrite !(proj2 (Z.ltb_ge _ _)); [done| |]; unfold oneHour in *; lia.
Qed.

(** A temperature alert of store [s1], then after fifty minutes an
    empty shelf of store [s2], then the temperature of [s1] again. *)
Lemma other_key_independent_example :
  let context := mkContext None None None (Some 8%Q) (Some 90%Q) in
  let context' := mkContext None None (Some 3%Q) None None in
  let this := (shouldSuppressAlert "s1" "temperature" context 1700000000000 new).2 in
  (shouldSuppressAlert "s1" "temperature" context 1700003000500
     (shouldSuppressAlert "s2" "empty_shelf" context' 1700003000000 this).2).1
  = (shouldSuppressAlert "s1" "temperature" context 1700003000500 this).1.
Proof.
  apply (other_key_independent "s1" "temperature"
           (mkContext None None None (Some 8%Q) (Some 90%Q)) 1700003000500
           "s2" "empty_shelf" (mkContext None None (Some 3%Q) None None) 1700003000000
           (shouldSuppressAlert "s1" "temperature"
              (mkContext None None None (Some 8%Q) (Some 90%Q)) 1700000000000 new).2);
    vm_compute; congruence.
Defined.

(** X8.  A window of more than one hour is not kept.  Let a key have
    an entry more than an hour old, with a window (a custom rule) that
    is still running.  A call for the key is then suppressed; but once a
    call for any other key has been allowed, which purges the entry, the
    same call is allowed. *)
Theorem window_over_one_hour (storeId type : string) (context : Context) (now : Z)
    (storeId' type' : string) (context' : Context) (now' : Z) (this : t) (time : Z) :
  alertKey storeId type ≠ alertKey storeId' type' →
  recentAlerts this !! alertKey storeId type = Some time →
  (shouldSuppressAlert storeId' type' context' now' this).1 = false →
  oneHour < now' - time →
  now - time < getSuppressionTime this type context →
  getSuppressionTime this type context <= now →
  shouldSuppressBasedOnContext type context = false →
  belowMinConfidence type context = false →
  (shouldSuppressAlert storeId type context now this).1 = true
  ∧ (shouldSuppressAlert storeId type context now
       (shouldSuppressAlert storeId' type' context' now' this).2).1 = false.
Proof.
  intros Hkey Hlook Hallowed Hold Hin Hclock Hctx Hconf.
  rewrite !shouldSuppressAlert_decision.
  rewrite (getSuppressionTime_rules (shouldSuppressAlert storeId' type' context' now' this).2 this)
    by apply shouldSuppressAlert_rules.
  rewrite shouldSuppressAlert_other_key by done.
  rewrite Hlook, Hallowed, Hctx, Hconf. simpl.
  assert (Hgone : ¬ now' - time <= oneHour) by lia.
  rewrite (bool_decide_eq_false_2 _ Hgone). simpl.
  rewrite (proj2 (Z.ltb_lt _ _)) by done.
  rewrite (proj2 (Z.ltb_ge _ _)) by lia. done.
Qed.

(** A rule of two hours for [temperature]: the alert of store [s1] is
    suppressed 70 minutes later, and allowed at the same instant once
    an empty shelf of store [s2] has been let through. *)
Lemma window_over_one_hour_example :
  let context := mkContext None None None (Some 8%Q) (Some 90%Q) in
  let context' := mkContext None None (Some 3%Q) None None in
  let this :=
    (shouldSuppressAlert "s1" "temperature" context 1700000000000
       (setSuppressionRule "temperature" 7200000 new)).2 in
  (shouldSuppressAlert "s1" "temperature" context 1700004200000 this).1 = true
  ∧ (shouldSuppressAlert "s1" "temperature" context 1700004200000
       (shouldSuppressAlert "s2" "empty_shelf" context' 1700004000000 this).2).1 = false.
Proof.
  apply (window_over_one_hour "s1" "temperature"
           (mkContext None None None (Some 8%Q) (Some 90%Q)) 1700004200000
           "s2" "empty_shelf" (mkContext None None (Some 3%Q) None None) 1700004000000
           (shouldSuppressAlert "s1" "temperature"
              (mkContext None None None (Some 8%Q) (Some 90%Q)) 1700000000000
              (setSuppressionRule "temperature" 7200000 new)).2
           1700000000000);
    vm_compute; congruence.
Defined.

(** X9.  A rule of zero milliseconds does not switch the window off:
    a declared type falls back to its default window, as if it had no
    rule, whatever rule it had before.  The default window of a declared
    type, at every hour, lies between one and ten minutes. *)
Theorem setSuppressionRule_zero (type : string) (context : Context) (this : t) :
  declared type →
  getSuppressionTime (setSuppressionRule type 0 this) type context
  = getSuppressionTime new type context
  ∧ 60000 <= getSuppressionTime new type context <= 600000.
Proof.
  intros Htype.
  unfold getSuppressionTime. simpl. rewrite lookup_insert_eq, lookup_empty. simpl.
  split; [done|].
  destruct Htype as [-> | [-> | ->]]; destruct (truthy_bool _);
    vm_compute; split; discriminate.
Qed.

(** X9 on the temperature rule of two hours, replaced by zero, in
    business hours: five minutes. *)
Lemma setSuppressionRule_zero_example :
  getSuppressionTime
    (setSuppressionRule "temperature" 0 (setSuppressionRule "temperature" 7200000 new))
    "temperature" (mkContext None (Some true) None None None)
  = 300000.
Proof.
  destruct (setSuppressionRule_zero "temperature" (mkContext None (Some true) None None None)
              (setSuppressionRule "temperature" 7200000 new)
              (or_intror (or_introl eq_refl))) as [Hzero _].
  etransitivity; [exact Hzero|reflexivity].
Defined.

End SmartAlertFilterMore.

(** ** Further properties of the alert store *)

Module AlertManagerMore.
Import AlertManager AlertManagerSpec AlertManagerFacts AlertManagerRest.

Section WithHost.
Context {host : Host}.




(** What [removeFirst] does. *)
Lemma removeFirst_find (alertId : string) (l : list object) :
  match List.find (λ a, strict_eq_string (obj_get a "id") alertId) l with
  | Some alert =>
      ∃ before after,
        l = (before ++ alert :: after)%list
        ∧ Forall (λ a, strict_eq_string (obj_get a "id") alertId = false) before
        ∧ removeFirst alertId l = Some (before ++ after)%list
  | None => removeFirst alertId l = None
  end.
Proof.
  induction l as [|a l IH]; simpl; [done|].
  destruct (strict_eq_string (obj_get a "id") alertId) eqn:Hid.
  - by exists [], l.
  - destruct (List.find _ l) as [alert|].
    + destruct IH as (before & after & -> & Hbefore & ->).
      exists (a :: before), after. split; [done|]. split; [by constructor|done].
    + by rewrite IH.
Qed.

(** X12.  [deleteAlert] removes the first alert that carries the id and
    nothing else: the alerts before it and after it keep their order,
    also those after it that carry the same id.  The result is persisted
    and announced.  Without such an alert the store is exactly what it
    was. *)
Theorem deleteAlert_effect (alertId : string) (this : t) :
  let after := deleteAlert alertId this in
  match List.find (λ a, strict_eq_string (obj_get a "id") alertId) (alerts this) with
  | Some alert =>
      (∃ before behind,
         alerts this = (before ++ alert :: behind)%list
         ∧ Forall (λ a, strict_eq_string (obj_get a "id") alertId = false) before
         ∧ alerts after = (before ++ behind)%list)
      ∧ S (length (alerts after)) = length (alerts this)
      ∧ persisted after
      ∧ delivered after
        = (delivered this ++ ((λ listener, (listener, alerts after)) <$> listeners this))%list
  | None => after = this
  end.
Proof.
  intros after. subst after. unfold deleteAlert.
  pose proof (removeFirst_find alertId (alerts this)) as Hfind.
  destruct (List.find _ (alerts this)) as [alert|]; [|by rewrite Hfind].
  destruct Hfind as (before & behind & Hl & Hbefore & ->).
  split; [by exists before, behind|]. split; [|split].
  - simpl. rewrite Hl, !length_app. simpl. lia.
  - apply notifyListeners_persisted, saveToStorage_persisted.
  - done.
Qed.

(** ** Counting *)

Lemma sum_counts_insert (counts : gmap string Z) (key : string) :
  sum_counts (<[key := count_or_zero (counts !! key) + 1]> counts) = sum_counts counts + 1.
Proof.
  unfold sum_counts.
  destruct (counts !! key) as [count|] eqn:Hkey; simpl.
  - rewrite <- insert_delete_eq.
    rewrite map_fold_insert_L; [|intros; lia|by rewrite lookup_delete_eq].
    rewrite (map_fold_delete_L _ _ key count counts); [lia|intros; lia|done].
  - rewrite map_fold_insert_L; [lia|intros; lia|done].
Qed.

Lemma countBy_snoc (k : string) (l : list object) (alert : object) :
  countBy k (l ++ [alert])
  = <[property_key (obj_get alert k) :=
        count_or_zero (countBy k l !! property_key (obj_get alert k)) + 1]> (countBy k l).
Proof. unfold countBy. by rewrite foldl_app. Qed.

(** The counts of an accumulator add up to the number of alerts. *)
Lemma sum_counts_countBy (k : string) (l : list object) :
  sum_counts (countBy k l) = Z.of_nat (length l).
Proof.
  induction l as [|alert l IH] using rev_ind; [done|].
  rewrite countBy_snoc, sum_counts_insert, IH, length_app. simpl. lia.
Qed.

(** The count under a key is the number of alerts with that key. *)
Lemma countBy_lookup (k : string) (l : list object) (key : string) :
  count_or_zero (countBy k l !! key)
  = Z.of_nat (length (List.filter (λ a, String.eqb (property_key (obj_get a k)) key) l)).
Proof.
  induction l as [|alert l IH] using rev_ind; [done|].
  rewrite countBy_snoc, List.filter_app, length_app. simpl.
  destruct (String.eqb_spec (property_key (obj_get alert k)) key) as [->|Hne].
  - rewrite lookup_insert_eq. simpl. rewrite IH. lia.
  - rewrite lookup_insert_ne by done. rewrite IH. simpl. lia.
Qed.

Lemma countBy_positive (k : string) (l : list object) (key : string) (count : Z) :
  countBy k l !! key = Some count → 1 <= count.
Proof.
  revert count. induction l as [|alert l IH] using rev_ind; intros count; [done|].
  rewrite countBy_snoc.
  destruct (decide (property_key (obj_get alert k) = key)) as [->|Hne].
  - rewrite lookup_insert_eq. intros [= <-].
    destruct (countBy k l !! key) as [c|] eqn:Hc; simpl; [|lia].
    specialize (IH c eq_refl). lia.
  - rewrite lookup_insert_ne by done. apply IH.
Qed.

Lemma length_filter_le {A} (f : A → bool) (l : list A) :
  (length (List.filter f l) <= length l)%nat.
Proof. induction l as [|x l IH]; simpl; [lia|]. destruct (f x); simpl; lia. Qed.

(** A count is kept under the key of some alert. *)
Lemma countBy_key (k : string) (l : list object) (key : string) (count : Z) :
  countBy k l !! key = Some count →
  ∃ alert, alert ∈ l ∧ property_key (obj_get alert k) = key.
Proof.
  revert count. induction l as [|alert l IH] using rev_ind; intros count; [done|].
  rewrite countBy_snoc.
  destruct (decide (property_key (obj_get alert k) = key)) as [Hkey|Hne].
  - intros _. exists alert. split; [|done]. apply list.elem_of_app. right. by left.
  - rewrite lookup_insert_ne by done. intros Hcount.
    destruct (IH _ Hcount) as (a & Hin & Ha). exists a. split; [|done].
    apply list.elem_of_app. by left.
Qed.

(** The key of a property that holds a string is the string. *)
Lemma filter_by_key (k key : string) (l : list object) :
  Forall (λ a, ∃ s, obj_get a k = Some (VStr s)) l →
  List.filter (λ a, String.eqb (property_key (obj_get a k)) key) l
  = List.filter (λ a, strict_eq_string (obj_get a k) key) l.
Proof.
  induction 1 as [|a l [s Hs] _ IH]; [done|].
  simpl. rewrite Hs, IH. done.
Qed.

(** X13.  The statistics leave the store as it was.  The total is the
    number of alerts; the unread alerts and the alerts of the last 24
    hours are at most the total, and the unread count is the one
    [getUnreadCount()] and the badge report.  When every alert has one
    of the three declared types and one of the four severities, the
    counts by type add up to the total and so do the counts by severity,
    a count is kept under such names only and is not below one, and the
    count under a name is the number of alerts that carry it. *)
Theorem getStatistics_consistent (now : Z) (this : t) :
  let r := getStatistics now this in
  r.2 = this
  ∧ total r.1 = Z.of_nat (length (alerts this))
  ∧ 0 <= unread r.1 <= total r.1
  ∧ unread r.1 = (getUnreadCount None this).1
  ∧ unread r.1 = NotificationUtils.getBadgeCount (alerts this)
  ∧ 0 <= last24Hours r.1 <= total r.1
  ∧ (Forall typed (alerts this) →
     sum_counts (byType r.1) = total r.1
     ∧ sum_counts (bySeverity r.1) = total r.1
     ∧ (∀ type count, byType r.1 !! type = Some count → declared type ∧ 1 <= count)
     ∧ (∀ name count, bySeverity r.1 !! name = Some count →
          (∃ severity, name = Severity_name severity) ∧ 1 <= count)
     ∧ (∀ type, count_or_zero (byType r.1 !! type)
          = Z.of_nat (length (List.filter
              (λ a, strict_eq_string (obj_get a "type") type) (alerts this))))
     ∧ (∀ name, count_or_zero (bySeverity r.1 !! name)
          = Z.of_nat (length (List.filter
              (λ a, strict_eq_string (obj_get a "severity") name) (alerts this))))).
Proof.
  simpl. split; [done|]. split; [done|].
  pose proof (length_filter_le (λ a, negb (truthy (obj_get a "read"))) (alerts this)).
  split; [lia|]. split; [done|]. split; [done|].
  split.
  { match goal with |- context [List.filter ?f (alerts this)] =>
      pose proof (length_filter_le f (alerts this)) end.
    lia. }
  intros Htyped.
  assert (Htypes : Forall (λ a, ∃ s, obj_get a "type" = Some (VStr s)) (alerts this)).
  { eapply list.Forall_impl; [exact Htyped|]. intros a [(type & Htype & _) _]. by exists type. }
  assert (Hseverities :
            Forall (λ a, ∃ s, obj_get a "severity" = Some (VStr s)) (alerts this)).
  { eapply list.Forall_impl; [exact Htyped|]. intros a [_ (severity & Hseverity)].
    by eexists. }
  split; [apply sum_counts_countBy|]. split; [apply sum_counts_countBy|].
  split; [|split; [|split]].
  - intros type count Hcount. split; [|by eapply countBy_positive].
    destruct (countBy_key _ _ _ _ Hcount) as (a & Hin & Hkey).
    rewrite list.Forall_forall in Htyped.
    destruct (Htyped a Hin) as [(type' & Htype & Hdeclared) _].
    rewrite Htype in Hkey. simpl in Hkey. by subst type'.
  - intros name count Hcount. split; [|by eapply countBy_positive].
    destruct (countBy_key _ _ _ _ Hcount) as (a & Hin & Hkey).
    rewrite list.Forall_forall in Htyped.
    destruct (Htyped a Hin) as [_ (severity & Hseverity)].
    rewrite Hseverity in Hkey. simpl in Hkey. by exists severity.
  - intros type. by rewrite countBy_lookup, filter_by_key.
  - intros name. by rewrite countBy_lookup, filter_by_key.
Qed.

(** The alerts that [getAlerts] selects by severity alone. *)
Lemma getAlerts_severity (severity : Severity) (this : t) :
  getAlerts (Some (mkFilter None None (Some severity) None None)) this
  = (List.filter (λ a, strict_eq_string (obj_get a "severity") (Severity_name severity))
       (alerts this), this).
Proof. reflexivity. Qed.

Lemma strict_eq_string_unique (m : option value) (s s' : string) :
  strict_eq_string m s = true → strict_eq_string m s' = true → s = s'.
Proof.
  destruct m as [[ | b | n | name | items | props ]|]; try done. simpl.
  intros H1 H2. apply String.eqb_eq in H1, H2. congruence.
Qed.

(** An alert is counted by exactly one of the five groups. *)
Lemma severity_groups (l : list object) :
  let sev_is severity a :=
    strict_eq_string (obj_get a "severity") (Severity_name severity) in
  (length (List.filter (sev_is critical) l) + length (List.filter (sev_is high) l)
   + length (List.filter (sev_is medium) l) + length (List.filter (sev_is low) l)
   + length (List.filter
       (λ a, negb (sev_is critical a || sev_is high a || sev_is medium a || sev_is low a)) l)
   = length l)%nat.
Proof.
  intros sev_is. subst sev_is. cbv beta.
  induction l as [|a l IH]; [done|].
  cbn [List.filter Severity_name]. cbn [Severity_name] in IH.
  destruct (strict_eq_string (obj_get a "severity") "critical") eqn:Hc;
    destruct (strict_eq_string (obj_get a "severity") "high") eqn:Hh;
    destruct (strict_eq_string (obj_get a "severity") "medium") eqn:Hm;
    destruct (strict_eq_string (obj_get a "severity") "low") eqn:Hl;
    first [ discriminate (strict_eq_string_unique _ _ _ Hc Hh)
          | discriminate (strict_eq_string_unique _ _ _ Hc Hm)
          | discriminate (strict_eq_string_unique _ _ _ Hc Hl)
          | discriminate (strict_eq_string_unique _ _ _ Hh Hm)
          | discriminate (strict_eq_string_unique _ _ _ Hh Hl)
          | discriminate (strict_eq_string_unique _ _ _ Hm Hl)
          | (cbn [orb negb length]; lia) ].
Qed.

(** X14.  [getAlertsBySeverity] sorts the collection into four lists
    and leaves the store as it was.  Each list holds, in stored order,
    the alerts whose severity is the name of the list; no alert is in
    two lists; and the alerts in none of them are exactly those whose
    severity is not one of the four names, so that the five groups
    together count every alert once. *)
Theorem getAlertsBySeverity_partition (this : t) :
  let r := getAlertsBySeverity this in
  let sev_is severity a :=
    strict_eq_string (obj_get a "severity") (Severity_name severity) in
  r.2 = this
  ∧ by_critical r.1 = List.filter (sev_is critical) (alerts this)
  ∧ by_high r.1 = List.filter (sev_is high) (alerts this)
  ∧ by_medium r.1 = List.filter (sev_is medium) (alerts this)
  ∧ by_low r.1 = List.filter (sev_is low) (alerts this)
  ∧ (∀ a s s', sev_is s a = true → sev_is s' a = true → s = s')
  ∧ (length (by_critical r.1) + length (by_high r.1) + length (by_medium r.1)
     + length (by_low r.1)
     + length (List.filter
         (λ a, negb (sev_is critical a || sev_is high a || sev_is medium a || sev_is low a))
         (alerts this))
     = length (alerts this))%nat.
Proof.
  intros r sev_is. subst r. unfold getAlertsBySeverity.
  rewrite !getAlerts_severity. cbn [fst snd by_critical by_high by_medium by_low].
  split; [done|]. split; [done|]. split; [done|]. split; [done|]. split; [done|].
  split; [|apply severity_groups].
  intros a s s' H1 H2. pose proof (strict_eq_string_unique _ _ _ H1 H2) as Hname.
  by destruct s, s'.
Qed.

(** ** Listeners *)

(** A call that changes the store calls every listener, once, with the
    collection it leaves behind. *)
Lemma mutate_delivered (m : Mutation) (this after : t) :
  mutate m this = Some after →
  after = this
  ∨ (listeners after = listeners this
     ∧ delivered after
       = (delivered this ++ ((λ listener, (listener, alerts after)) <$> listeners this))%list).
Proof.
  destruct m as [now rnd alertData|alertId| |alertId| |jsonData]; simpl.
  - intros [= <-]. by right.
  - intros [= <-]. unfold markAsRead. destruct (markFirst _ _); [by right|by left].
  - intros [= <-]. unfold markAllAsRead. destruct (existsb _ _); [by right|by left].
  - intros [= <-]. unfold deleteAlert. destruct (removeFirst _ _); [by right|by left].
  - intros [= <-]. by right.
  - unfold importAlerts.
    destruct (JSON_parse jsonData) as [data|]; simpl; [|intros [= <-]; by left].
    destruct (member data "alerts") as [data_alerts|]; simpl; [|intros [= <-]; by left].
    destruct (truthy data_alerts && isArray data_alerts); simpl; [|intros [= <-]; by left].
    destruct (as_objects _) as [l|]; simpl; [|done].
    intros [= <-]. by right.
Qed.

(** X15.  Every change is written and announced.  A call of
    [addAlert], [markAsRead], [markAllAsRead], [deleteAlert], [clearAll]
    or [importAlerts] either leaves the store exactly as it was, or
    leaves in storage the newest 1000 alerts of the collection it
    produced and calls every subscribed listener, in the order of
    subscription and once each, with that collection; the listeners
    stay subscribed. *)
Theorem mutate_announced (m : Mutation) (this after : t) :
  mutate m this = Some after →
  after = this
  ∨ (persisted after
     ∧ listeners after = listeners this
     ∧ delivered after
       = (delivered this ++ ((λ listener, (listener, alerts after)) <$> listeners this))%list).
Proof.
  intros Hm.
  destruct (mutate_delivered m this after Hm) as [->|[Hlisteners Hdelivered]]; [by left|].
  destruct (mutate_persisted m this after Hm) as [->|Hsaved]; [by left|right].
  split; [done|]. split; done.
Qed.

(** X16.  The function that [subscribe] returns removes every
    registration of its listener, also one made by another call of
    [subscribe] with the same function, and keeps the others in order;
    calling it again changes nothing.  From then on no change of the
    store reaches the listener. *)
Theorem unsubscribe_silent (listener : nat) (this : t) :
  listeners (unsubscribe listener (subscribe listener (subscribe listener this)))
  = List.filter (λ l, negb (Nat.eqb l listener)) (listeners this)
  ∧ unsubscribe listener (unsubscribe listener this) = unsubscribe listener this
  ∧ ∀ m after,
      mutate m (unsubscribe listener this) = Some after →
      (listener ∉ listeners after)
      ∧ List.filter (λ call, Nat.eqb call.1 listener) (delivered after)
        = List.filter (λ call, Nat.eqb call.1 listener) (delivered this).
Proof.
  assert (Hgone : listener ∉ listeners (unsubscribe listener this)).
  { simpl. induction (listeners this) as [|l ls IH]; simpl; [apply not_elem_of_nil|].
    destruct (Nat.eqb_spec l listener) as [->|Hne]; simpl; [done|].
    rewrite not_elem_of_cons. split; [congruence|done]. }
  split; [|split].
  - simpl. rewrite !List.filter_app. simpl. rewrite Nat.eqb_refl. simpl.
    by rewrite !app_nil_r.
  - unfold unsubscribe. simpl. f_equal. rewrite filter_filter.
    apply filter_ext. intros l. by destruct (negb _).
  - intros m after Hm.
    destruct (mutate_delivered m _ _ Hm) as [->|[Hl Hd]]; [done|].
    rewrite Hl. split; [done|].
    rewrite Hd, List.filter_app.
    assert (Hnone : ∀ (snapshot : list object) ls, listener ∉ ls →
              List.filter (λ call : nat * list object, Nat.eqb call.1 listener)
                ((λ l, (l, snapshot)) <$> ls) = []).
    { intros snapshot ls. induction ls as [|l ls IH]; [done|].
      rewrite not_elem_of_cons. intros [Hne Hls]. simpl.
      rewrite (proj2 (Nat.eqb_neq l listener)) by done. by apply IH. }
    rewrite Hnone by done. by rewrite app_nil_r.
Qed.

(** ** The notification queue *)

Lemma notificationQueue_addAlerts (calls : list (Z * string * object)) (this : t) :
  notificationQueue (addAlerts calls this)
  = (notificationQueue this ++ (newAlertOf <$> calls))%list.
Proof.
  unfold addAlerts. revert this.
  induction calls as [|call calls IH]; intros this; simpl; [by rewrite app_nil_r|].
  rewrite IH. simpl. by rewrite <- app_assoc.
Qed.

(** As many ticks as the queue is long send its alerts, oldest first,
    and empty it. *)
Lemma processQueue_drain (browser : Browser) (this : t) (shown : list Shown) :
  Nat.iter (length (notificationQueue this)) (processQueue browser) (this, shown)
  = (mk (alerts this) (listeners this) [] (localStorage this) (delivered this),
     foldl (λ shown alert, sendPushNotification browser alert shown) shown
       (notificationQueue this)).
Proof.
  destruct this as [alerts listeners queue storage delivered]. simpl.
  revert shown. induction queue as [|alert queue IH]; intros shown; [done|].
  cbn [length]. rewrite Nat.iter_succ_r. unfold processQueue at 2. simpl.
  apply IH.
Qed.

Lemma sendPushNotification_denied (browser : Browser) (queue : list object)
    (shown : list Shown) :
  has_serviceWorker browser = false ∨ Notification_permission browser ≠ "granted" →
  foldl (λ shown alert, sendPushNotification browser alert shown) shown queue = shown.
Proof.
  intros Hdenied. induction queue as [|alert queue IH]; [done|]. simpl.
  unfold sendPushNotification at 2.
  assert (negb (has_serviceWorker browser)
          || negb (String.eqb (Notification_permission browser) "granted") = true) as ->;
    [|done].
  destruct Hdenied as [->|Hne]; [done|].
  rewrite (proj2 (String.eqb_neq _ _)) by done. apply orb_true_r.
Qed.

(** X17.  The notification queue is first in, first out, one alert per
    tick.  After a run of [addAlert] calls on a store with an empty
    queue, as many ticks as there were calls send the new alerts in the
    order in which they were added and leave the queue empty, and a
    further tick does nothing.  An alert is taken off the queue whether
    it can be shown or not: without the permission, or without a service
    worker, the ticks show nothing and the alerts are gone from the
    queue all the same. *)
Theorem notificationQueue_fifo (browser : Browser) (calls : list (Z * string * object))
    (this : t) (shown : list Shown) :
  notificationQueue this = [] →
  let added := addAlerts calls this in
  let drained := Nat.iter (length calls) (processQueue browser) (added, shown) in
  notificationQueue drained.1 = []
  ∧ alerts drained.1 = alerts added
  ∧ drained.2
    = foldl (λ shown alert, sendPushNotification browser alert shown) shown
        (newAlertOf <$> calls)
  ∧ processQueue browser drained = drained
  ∧ (has_serviceWorker browser = false ∨ Notification_permission browser ≠ "granted" →
     drained.2 = shown).
Proof.
  intros Hempty added drained.
  assert (Hqueue : notificationQueue added = newAlertOf <$> calls).
  { subst added. by rewrite notificationQueue_addAlerts, Hempty. }
  assert (Hdrained : drained
    = (mk (alerts added) (listeners added) [] (localStorage added) (delivered added),
       foldl (λ shown alert, sendPushNotification browser alert shown) shown
         (newAlertOf <$> calls))).
  { subst drained. pose proof (processQueue_drain browser added shown) as Hdrain.
    by rewrite Hqueue, length_fmap in Hdrain. }
  rewrite Hdrained. cbn [fst snd notificationQueue alerts].
  repeat (split; [done|]).
  apply sendPushNotification_denied.
Qed.

End WithHost.

End AlertManagerMore.

(** ** Notifications and restarts *)

Lemma first_line_no_LF (s : string) : has_char LF (first_line s) = false.
Proof.
  induction s as [|c s IH]; [done|]. simpl.
  destruct (Ascii.eqb c LF) eqn:Hc; [done|]. simpl. by rewrite Hc.
Qed.

Lemma first_line_prefix (s : string) : ∃ rest, s = first_line s +:+ rest.
Proof.
  induction s as [|c s [rest IH]]; [by exists ""|]. simpl.
  destruct (Ascii.eqb c LF); [by eexists|].
  exists rest. change (String c s = String c (first_line s +:+ rest)). by rewrite <- IH.
Qed.

Lemma first_line_whole (s : string) : has_char LF s = false → first_line s = s.
Proof.
  induction s as [|c s IH]; [done|]. simpl.
  destruct (Ascii.eqb c LF); [done|]. simpl. intros H. by rewrite IH.
Qed.

Module NotificationFacts.
Import AlertManager AlertManagerSpec AlertManagerFacts AlertManagerRest.

Section WithHost.
Context {host : Host}.

(** X18.  The notification of an alert whose message is a text.  The
    store and [NotificationUtils] build the same payload.  Its body is
    the message up to the first line feed: it holds no line feed, the
    message starts with it, and a message of one line is the body.  The
    notification asks for interaction exactly when the severity is
    [critical], and its tag is made of the type and the store id, so
    that two alerts of one type for one store share a tag. *)
Theorem notification_body (alert : object) (message : string) :
  obj_get alert "message" = Some (VStr message) →
  ∃ p,
    payload alert = Some p
    ∧ NotificationUtils.createNotificationPayload alert = Some p
    ∧ obj_get p "body" = Some (VStr (first_line message))
    ∧ has_char LF (first_line message) = false
    ∧ (∃ rest, message = first_line message +:+ rest)
    ∧ (has_char LF message = false → first_line message = message)
    ∧ obj_get p "requireInteraction"
      = Some (VBool (strict_eq_string (obj_get alert "severity") "critical"))
    ∧ obj_get p "tag"
      = Some (VStr ("alert-" +:+ template (obj_get alert "type")
                    +:+ "-" +:+ template (obj_get alert "storeId"))).
Proof.
  intros Hmessage. unfold payload, NotificationUtils.createNotificationPayload.
  rewrite Hmessage. eexists. split; [reflexivity|]. split; [reflexivity|].
  split; [|split; [apply first_line_no_LF|split; [apply first_line_prefix|
    split; [apply first_line_whole|]]]];
    unfold literal; destruct (obj_get alert "title"), (obj_get alert "imageUrl");
    try split; reflexivity.
Qed.

Lemma omap_validAlert (l : list object) :
  omap validAlert (VObj <$> l) = List.filter passes_validation l.
Proof.
  induction l as [|a l IH]; [done|].
  rewrite fmap_cons. cbn [omap list_omap validAlert List.filter].
  unfold passes_validation at 1.
  destruct (truthy (obj_get a "id") && truthy (obj_get a "type")
            && truthy (obj_get a "title") && truthy (obj_get a "message"));
    by rewrite <- IH.
Qed.

(** X19.  A restart gives back what was saved.  When storage holds the
    text that [saveToStorage] wrote for the collection, a new store
    built on that storage holds the newest 1000 alerts of the collection
    that pass the validation of [loadFromStorage] (a truthy [id], [type],
    [title] and [message]), in order; an alert with an empty title, for
    one, is not restored.  The new store has no listener and an empty
    queue. *)
Theorem restart_restores (this : t) :
  JSON_roundtrip host →
  persisted this →
  JSON_stringify (VArr (VObj <$> take 1000 (alerts this))) 0 ≠ "" →
  let restarted := new (localStorage this) in
  alerts restarted = List.filter passes_validation (take 1000 (alerts this))
  ∧ listeners restarted = []
  ∧ notificationQueue restarted = []
  ∧ ((length (alerts this) <= 1000)%nat →
     Forall (λ a, passes_validation a = true) (alerts this) →
     alerts restarted = alerts this).
Proof.
  intros Hjson Hsaved Htext restarted.
  assert (Halerts : alerts restarted
                    = List.filter passes_validation (take 1000 (alerts this))).
  { subst restarted. unfold new, loadFromStorage. simpl.
    rewrite Hsaved. rewrite (proj2 (String.eqb_neq _ _)) by done. simpl.
    rewrite Hjson. simpl. apply omap_validAlert. }
  split; [done|]. split.
  { subst restarted. unfold new, loadFromStorage. simpl.
    destruct (localStorage this !! "pret-alerts") as [stored|]; [|done].
    destruct (negb _); [|done]. by destruct (JSON_parse stored) as [[]|]. }
  split.
  { subst restarted. unfold new, loadFromStorage. simpl.
    destruct (localStorage this !! "pret-alerts") as [stored|]; [|done].
    destruct (negb _); [|done]. by destruct (JSON_parse stored) as [[]|]. }
  intros Hlen Hvalid. rewrite Halerts, take_ge by done.
  clear -Hvalid. induction (alerts this) as [|a l IH]; [done|].
  apply list.Forall_cons in Hvalid as [Ha Hl]. simpl. by rewrite Ha, IH.
Qed.

End WithHost.

End NotificationFacts.

(** ** Properties of the helpers of utils.ts *)

(** X20.  [formatRelativeTime] in milliseconds.  For a timestamp the
    host can read, the text depends on the age [now - time] alone: below
    one minute (a timestamp in the future included) it is "Just now";
    then whole minutes up to 59, whole hours up to 23, whole days up to
    6 and whole weeks up to 3, each rounded down; from four weeks on it
    is the date as the locale writes it. *)
Theorem formatRelativeTime_buckets `{Host, Locale} (timestamp : string) (now time : Z) :
  Date_getTime (Some (VStr timestamp)) = Some time →
  let age := now - time in
  let text := formatRelativeTime timestamp now in
  (age < 60000 → text = "Just now")
  ∧ (60000 <= age < 3600000 →
     text = pretty (age / 60000) +:+ "m ago" ∧ 1 <= age / 60000 <= 59)
  ∧ (3600000 <= age < 86400000 →
     text = pretty (age / 3600000) +:+ "h ago" ∧ 1 <= age / 3600000 <= 23)
  ∧ (86400000 <= age < 604800000 →
     text = pretty (age / 86400000) +:+ "d ago" ∧ 1 <= age / 86400000 <= 6)
  ∧ (604800000 <= age < 2419200000 →
     text = pretty (age / 604800000) +:+ "w ago" ∧ 1 <= age / 604800000 <= 3)
  ∧ (2419200000 <= age → text = toLocaleDateString (Some time)).
Proof.
  intros Htime age text. subst text. unfold formatRelativeTime. rewrite Htime.
  fold age. cbv zeta.
  assert (Hh : age / 60000 / 60 = age / 3600000) by (rewrite Z.div_div by lia; done).
  assert (Hd : age / 3600000 / 24 = age / 86400000) by (rewrite Z.div_div by lia; done).
  assert (Hw : age / 86400000 / 7 = age / 604800000) by (rewrite Z.div_div by lia; done).
  rewrite Hh, Hd, Hw.
  assert (Hlow : ∀ k d, 0 < d → k * d <= age → k <= age / d).
  { intros k d Hd' Hk. apply Z.div_le_lower_bound; lia. }
  assert (Hup : ∀ k d, 0 < d → age < k * d → age / d < k).
  { intros k d Hd' Hk. apply Z.div_lt_upper_bound; lia. }
  split; [|split; [|split; [|split; [|split]]]]; intros Hage.
  - rewrite (proj2 (Z.ltb_lt _ _)); [done|]. apply Hup; lia.
  - pose proof (Hlow 1 60000). pose proof (Hup 60 60000).
    rewrite (proj2 (Z.ltb_ge _ _)) by lia. rewrite (proj2 (Z.ltb_lt _ _)) by lia.
    split; [done|lia].
  - pose proof (Hlow 60 60000). pose proof (Hlow 1 3600000). pose proof (Hup 24 3600000).
    rewrite !(proj2 (Z.ltb_ge _ _)) by lia. rewrite (proj2 (Z.ltb_lt _ _)) by lia.
    split; [done|lia].
  - pose proof (Hlow 60 60000). pose proof (Hlow 24 3600000).
    pose proof (Hlow 1 86400000). pose proof (Hup 7 86400000).
    rewrite !(proj2 (Z.ltb_ge _ _)) by lia. rewrite (proj2 (Z.ltb_lt _ _)) by lia.
    split; [done|lia].
  - pose proof (Hlow 60 60000). pose proof (Hlow 24 3600000).
    pose proof (Hlow 7 86400000).
    pose proof (Hlow 1 604800000). pose proof (Hup 4 604800000).
    rewrite !(proj2 (Z.ltb_ge _ _)) by lia. rewrite (proj2 (Z.ltb_lt _ _)) by lia.
    split; [done|lia].
  - pose proof (Hlow 60 60000). pose proof (Hlow 24 3600000).
    pose proof (Hlow 7 86400000). pose proof (Hlow 4 604800000).
    rewrite !(proj2 (Z.ltb_ge _ _)) by lia. done.
Qed.

(** ** Colours *)

Lemma shl_byte (x k : Z) : 0 <= x <= 255 → 0 <= k <= 16 → shl x k = x * 2 ^ k.
Proof.
  intros Hx Hk. unfold shl, ToInt32.
  assert (Z.land k 31 = k) as ->.
  { change 31 with (Z.ones 5). rewrite Z.land_ones by lia. apply Z.mod_small. simpl. lia. }
  rewrite (Z.mod_small x) by lia.
  rewrite (proj2 (Z.ltb_lt x _)) by lia.
  rewrite Z.shiftl_mul_pow2 by lia.
  assert (0 <= x * 2 ^ k < 2 ^ 24).
  { assert (0 < 2 ^ k <= 2 ^ 16) by (split; [lia|apply Z.pow_le_mono_r; lia]). nia. }
  rewrite Z.mod_small by lia.
  by rewrite (proj2 (Z.ltb_lt _ _)) by lia.
Qed.

Lemma hex_value_digit (d : Z) : 0 <= d < 16 → color.hex_value (hex_digit d) = Some d.
Proof.
  intros Hd.
  assert (d = 0 ∨ d = 1 ∨ d = 2 ∨ d = 3 ∨ d = 4 ∨ d = 5 ∨ d = 6 ∨ d = 7 ∨ d = 8
          ∨ d = 9 ∨ d = 10 ∨ d = 11 ∨ d = 12 ∨ d = 13 ∨ d = 14 ∨ d = 15) as Hcases
    by lia.
  repeat (destruct Hcases as [->|Hcases]; [reflexivity|]). by subst.
Qed.

(** The digits of a packed colour: a one, then two digits for each
    channel. *)
Lemma toString16_packed (r g b : Z) :
  0 <= r <= 255 → 0 <= g <= 255 → 0 <= b <= 255 →
  let n := 16777216 + r * 65536 + g * 256 + b in
  toString16 n
  = String "1" (String (hex_digit (r / 16)) (String (hex_digit (r mod 16))
     (String (hex_digit (g / 16)) (String (hex_digit (g mod 16))
       (String (hex_digit (b / 16)) (String (hex_digit (b mod 16)) EmptyString)))))).
Proof.
  intros Hr Hg Hb n. unfold toString16.
  rewrite (proj2 (Z.ltb_ge n 0)) by (subst n; lia).
  unfold hex_digits.
  assert (Z.log2 n = 24) as ->.
  { apply Z.log2_unique; [lia|]. subst n. simpl. lia. }
  change (Z.to_nat (24 / 4 + 1)) with 7%nat.
  cbn [seq reverse fmap list_fmap rev_append String.string_of_list_ascii].
  rewrite !Z.shiftr_div_pow2 by lia.
  assert (D6 : n / 2 ^ (4 * Z.of_nat 6) mod 16 = 1).
  { change (2 ^ (4 * Z.of_nat 6)) with 16777216. subst n. Z.div_mod_to_equations. lia. }
  assert (D5 : n / 2 ^ (4 * Z.of_nat 5) mod 16 = r / 16).
  { change (2 ^ (4 * Z.of_nat 5)) with 1048576. subst n. Z.div_mod_to_equations. lia. }
  assert (D4 : n / 2 ^ (4 * Z.of_nat 4) mod 16 = r mod 16).
  { change (2 ^ (4 * Z.of_nat 4)) with 65536. subst n. Z.div_mod_to_equations. lia. }
  assert (D3 : n / 2 ^ (4 * Z.of_nat 3) mod 16 = g / 16).
  { change (2 ^ (4 * Z.of_nat 3)) with 4096. subst n. Z.div_mod_to_equations. lia. }
  assert (D2 : n / 2 ^ (4 * Z.of_nat 2) mod 16 = g mod 16).
  { change (2 ^ (4 * Z.of_nat 2)) with 256. subst n. Z.div_mod_to_equations. lia. }
  assert (D1 : n / 2 ^ (4 * Z.of_nat 1) mod 16 = b / 16).
  { change (2 ^ (4 * Z.of_nat 1)) with 16. subst n. Z.div_mod_to_equations. lia. }
  assert (D0 : n / 2 ^ (4 * Z.of_nat 0) mod 16 = b mod 16).
  { change (2 ^ (4 * Z.of_nat 0)) with 1. subst n. Z.div_mod_to_equations. lia. }
  rewrite D6, D5, D4, D3, D2, D1, D0. reflexivity.
Qed.

(** X21.  Colours survive the trip through their text.  For three
    channels between 0 and 255, [rgbToHex] writes a [#] and six digits,
    and [hexToRgb] reads the three channels back from them; the contrast
    colour of the text is black exactly when the weighted brightness
    299 r + 587 g + 114 b is above 128000. *)
Theorem rgbToHex_hexToRgb (r g b : Z) :
  0 <= r <= 255 → 0 <= g <= 255 → 0 <= b <= 255 →
  color.hexToRgb (color.rgbToHex r g b) = Some (color.mkRGB r g b)
  ∧ String.length (color.rgbToHex r g b) = 7%nat
  ∧ color.getContrastColor (color.rgbToHex r g b)
    = (if 128000 <? 299 * r + 587 * g + 114 * b then "#000000" else "#ffffff").
Proof.
  intros Hr Hg Hb.
  assert (Hhex : color.rgbToHex r g b
    = String "#" (String (hex_digit (r / 16)) (String (hex_digit (r mod 16))
       (String (hex_digit (g / 16)) (String (hex_digit (g mod 16))
         (String (hex_digit (b / 16)) (String (hex_digit (b mod 16)) EmptyString))))))).
  { unfold color.rgbToHex.
    rewrite (shl_byte r 16), (shl_byte g 8) by lia.
    change (shl 1 24) with 16777216. change (2 ^ 16) with 65536. change (2 ^ 8) with 256.
    by rewrite toString16_packed. }
  assert (Hrgb : color.hexToRgb (color.rgbToHex r g b) = Some (color.mkRGB r g b)).
  { rewrite Hhex. unfold color.hexToRgb, color.parseInt16.
    assert (Hdiv : ∀ x, 0 <= x <= 255 → 0 <= x / 16 < 16 ∧ 0 <= x mod 16 < 16
                         ∧ 16 * (x / 16) + x mod 16 = x).
    { intros x Hx. Z.div_mod_to_equations. lia. }
    destruct (Hdiv r Hr) as (? & ? & Er), (Hdiv g Hg) as (? & ? & Eg),
      (Hdiv b Hb) as (? & ? & Eb).
    rewrite !hex_value_digit by done. simpl. by rewrite Er, Eg, Eb. }
  split; [done|]. split; [by rewrite Hhex|].
  unfold color.getContrastColor. rewrite Hrgb. simpl.
  unfold Qltb, Qle_bool, Qdiv, Qmult, Qinv, inject_Z. simpl.
  destruct (Z.ltb_spec 128000 (299 * r + 587 * g + 114 * b)) as [Hlt|Hge].
  - rewrite (proj2 (Z.leb_gt _ _)) by lia. done.
  - rewrite (proj2 (Z.leb_le _ _)) by lia. done.
Qed.

(** Pret's orange. *)
Lemma rgbToHex_hexToRgb_example :
  color.hexToRgb (color.rgbToHex 255 128 0) = Some (color.mkRGB 255 128 0)
  ∧ String.length (color.rgbToHex 255 128 0) = 7%nat
  ∧ color.getContrastColor (color.rgbToHex 255 128 0) = "#000000".
Proof. apply (rgbToHex_hexToRgb 255 128 0); lia. Defined.

(** A channel above 255 runs over into the digit that is cut off: the
    text of (256, 0, 0) is the text of black. *)
Lemma rgbToHex_overflow : color.rgbToHex 256 0 0 = color.rgbToHex 0 0 0.
Proof. reflexivity. Qed.

(** ** Storage and clones *)

Module UtilsFacts.

Section WithHost.
Context {host : Host}.

(** X22.  [storage] keeps what it is given.  On a host whose
    [JSON.parse] reads back what [JSON.stringify] wrote, and for a value
    whose text is not empty, [get] after [set] returns the value and
    not the fallback; other keys read as before; after [remove] or
    [clear], and for a text that does not parse, [get] returns the
    fallback. *)
Theorem storage_roundtrip (key key' : string) (v fallback : value)
    (localStorage : gmap string string) :
  JSON_roundtrip host →
  JSON_stringify v 0 ≠ "" →
  let stored := (storage.set key v localStorage).2 in
  storage.get key fallback stored = v
  ∧ (key' ≠ key →
     storage.get key' fallback stored = storage.get key' fallback localStorage)
  ∧ storage.get key fallback (storage.remove key stored).2 = fallback
  ∧ storage.get key fallback (storage.clear stored).2 = fallback
  ∧ (∀ text, JSON_parse text = None →
       storage.get key fallback (<[key := text]> localStorage) = fallback).
Proof.
  intros Hjson Htext. simpl. unfold storage.get.
  split; [|split; [|split; [|split]]].
  - rewrite lookup_insert_eq. rewrite (proj2 (String.eqb_neq _ _)) by done. simpl.
    by rewrite Hjson.
  - intros Hne. by rewrite lookup_insert_ne.
  - by rewrite lookup_delete_eq.
  - by rewrite lookup_empty.
  - intros text Hparse. rewrite lookup_insert_eq, Hparse. by destruct (negb _).
Qed.

End WithHost.

(** [mapM] returns the list it is given exactly when the function
    returns every element as it is. *)
Lemma mapM_same {A} (f : A → option A) (l : list A) :
  mapM f l = Some l ↔ Forall (λ x, f x = Some x) l.
Proof.
  induction l as [|x l IH]; [by split; [constructor|]|].
  rewrite list.Forall_cons, <- IH. simpl.
  destruct (f x) as [y|]; simpl; [|by split; [|intros [? _]]].
  destruct (mapM f l) as [k|]; simpl; [|by split; [|intros [_ ?]]].
  split; [by intros [= -> ->]|by intros [[= ->] [= ->]]].
Qed.

Lemma length_mapM {A B} (f : A → option B) (l : list A) (k : list B) :
  mapM f l = Some k → length k = length l.
Proof.
  revert k. induction l as [|x l IH]; intros k; simpl; [by intros [= <-]|].
  destruct (f x) as [y|]; simpl; [|done].
  destruct (mapM f l) as [k'|]; simpl; [|done].
  intros [= <-]. simpl. by rewrite (IH k').
Qed.

(** A filter that returns as many elements as it is given lets every
    element pass, and then returns the list. *)
Lemma filter_keeps_all {A} (f : A → bool) (l : list A) :
  length (List.filter f l) = length l → forallb f l = true.
Proof.
  induction l as [|x l IH]; [done|]. simpl.
  destruct (f x); simpl; [by intros [= ?%IH]|].
  pose proof (List.filter_length_le f l). lia.
Qed.

Lemma filter_forallb {A} (f : A → bool) (l : list A) :
  forallb f l = true → List.filter f l = l.
Proof.
  induction l as [|x l IH]; [done|]. simpl.
  destruct (f x); simpl; [|done]. by intros ->%IH.
Qed.

Lemma existsb_forallb {A} (f g : A → bool) (l : list A) :
  forallb (λ x, negb (f x)) l = true → existsb (λ x, f x && g x) l = false.
Proof.
  induction l as [|x l IH]; [done|]. simpl.
  destruct (f x); simpl; [done|]. apply IH.
Qed.

(** What [assign] makes of the cloned properties is the original
    exactly when they are the original and none is [__proto__]. *)
Lemma assign_same (props cloned : object) :
  length cloned = length props →
  assign cloned = Some props ↔
  cloned = props ∧ forallb (λ kv, negb (String.eqb kv.1 "__proto__")) props = true.
Proof.
  intros Hlength. unfold assign. split.
  - destruct (existsb _ cloned); [done|]. intros [= Hfilter].
    assert (Hall : forallb (λ kv : string * value, negb (String.eqb kv.1 "__proto__")) cloned
                   = true).
    { apply filter_keeps_all. by rewrite Hfilter. }
    rewrite (filter_forallb _ _ Hall) in Hfilter. by subst cloned.
  - intros [-> Hall].
    rewrite (existsb_forallb (λ kv : string * value, String.eqb kv.1 "__proto__")
               (λ kv, is_object_or_null kv.2) props Hall).
    by rewrite (filter_forallb _ _ Hall).
Qed.

Lemma forallb_Forall {A} (f : A → bool) (l : list A) :
  forallb f l = true ↔ Forall (λ x, f x = true) l.
Proof.
  induction l as [|x l IH]; [by split; [constructor|]|].
  simpl. rewrite list.Forall_cons, <- IH. by destruct (f x), (forallb f l); intuition.
Qed.

Lemma Forall_iff_pointwise {A} (P Q : A → Prop) (l : list A) :
  Forall (λ x, P x ↔ Q x) l → Forall P l ↔ Forall Q l.
Proof.
  induction 1 as [|x l Hx _ IH]; [by split; constructor|].
  by rewrite !list.Forall_cons, Hx, IH.
Qed.

(** No property of the filtered list has the name that is filtered
    out. *)
Lemma filter_key_absent (k : string) (props : object) :
  k ∉ (List.filter (λ kv, negb (String.eqb kv.1 k)) props).*1.
Proof.
  induction props as [|kv props IH]; [by apply list.not_elem_of_nil|]. simpl.
  destruct (String.eqb_spec kv.1 k) as [_|Hne]; simpl; [done|].
  apply list.not_elem_of_cons. by split; [apply not_eq_sym|].
Qed.

(** X23.  A deep clone is equal to its original exactly on the data in
    which no object, at any depth of arrays and objects, has a property
    named [hasOwnProperty] or [__proto__].  An object with a property
    named [hasOwnProperty] is not cloned at all: the call raises.  A
    property named [__proto__] is not copied: no clone has one. *)
Theorem deepClone_equal (obj : value) :
  (deepClone obj = Some obj ↔ clonable obj = true)
  ∧ (∀ props, obj = VObj props → "hasOwnProperty" ∈ props.*1 → deepClone obj = None)
  ∧ (∀ props cloned, obj = VObj props → deepClone obj = Some (VObj cloned) →
       "__proto__" ∉ cloned.*1).
Proof.
  split; [|split; [by intros props -> Hin; simpl; rewrite bool_decide_eq_true_2|]].
  2:{ intros props cloned ->. simpl. case_bool_decide; [done|].
      destruct (mapM _ props) as [copies|]; simpl; [|done]. unfold assign.
      destruct (existsb _ copies); simpl; [done|]. intros [= <-].
      apply filter_key_absent. }
  induction obj as [ | b | n | s | items IH | props IH ] using value_ind; try done.
  - simpl. rewrite forallb_Forall, <- (Forall_iff_pointwise _ _ _ IH), <- mapM_same.
    destruct (mapM deepClone items); simpl; split; congruence.
  - simpl. rewrite forallb_Forall, list.Forall_forall.
    rewrite list.Forall_forall in IH. split.
    + case_bool_decide as Hown; [done|].
      destruct (mapM _ props) as [cloned|] eqn:Hcloned; simpl; [|done].
      destruct (assign cloned) as [assigned|] eqn:Hassign; simpl; [|done].
      intros [= ->].
      apply assign_same in Hassign as [-> Hproto]; [|by eapply length_mapM].
      apply mapM_same in Hcloned.
      rewrite forallb_Forall in Hproto. rewrite list.Forall_forall in Hcloned, Hproto.
      intros kv Hin. rewrite (Hproto kv Hin).
      destruct (String.eqb_spec kv.1 "hasOwnProperty") as [Hkey|_].
      { destruct Hown. rewrite <- Hkey. by apply (list_elem_of_fmap_2 fst). }
      simpl. apply IH; [done|]. specialize (Hcloned kv Hin).
      destruct (deepClone kv.2) as [v|]; simpl in Hcloned; [|done].
      by injection Hcloned as <-.
    + intros Hall.
      assert (Hkeys : ∀ kv, kv ∈ props →
                negb (String.eqb kv.1 "hasOwnProperty") = true
                ∧ negb (String.eqb kv.1 "__proto__") = true ∧ clonable kv.2 = true).
      { intros kv Hin. specialize (Hall kv Hin).
        by destruct (negb (String.eqb kv.1 "hasOwnProperty")),
             (negb (String.eqb kv.1 "__proto__")), (clonable kv.2). }
      rewrite bool_decide_eq_false_2.
      2:{ intros (kv & Hkey & Hin)%list_elem_of_fmap.
          destruct (Hkeys kv Hin) as [Hown _]. rewrite <- Hkey in Hown.
          by rewrite String.eqb_refl in Hown. }
      rewrite (proj2 (mapM_same (λ kv : string * value, pair kv.1 <$> deepClone kv.2) props)).
      2:{ apply list.Forall_forall. intros kv Hin.
          destruct (Hkeys kv Hin) as (_ & _ & Hclonable).
          rewrite (proj2 (IH kv Hin) Hclonable). by destruct kv. }
      simpl. rewrite (proj2 (assign_same props props eq_refl)); [done|].
      split; [done|]. apply forallb_Forall, list.Forall_forall.
      intros kv Hin. by destruct (Hkeys kv Hin) as (_ & Hproto & _).
Qed.

End UtilsFacts.

(** ** Properties of the notification settings *)

Module AlertNotificationManagerFacts.
Import AlertNotificationManager.

Section WithHost.
Context {host : Host}.

(** X24.  The notification settings survive a restart.  On a host
    whose [JSON.parse] reads back what [JSON.stringify] wrote, the two
    switches as last set are what a new manager built on the same
    storage reports; a switch that was turned off stays off.  Without a
    stored text, and with one that does not parse, both switches are
    on. *)
Theorem settings_roundtrip (enabled sound : bool) (this : t) :
  JSON_roundtrip host →
  JSON_stringify (VObj [("enabled", VBool enabled); ("soundEnabled", VBool sound)]) 0 ≠ "" →
  let saved := setSoundEnabled sound (setEnabled enabled this) in
  getSettings saved = (VBool enabled, VBool sound)
  ∧ getSettings (new (localStorage saved)) = (VBool enabled, VBool sound)
  ∧ (∀ storage,
       storage !! "pret-notification-settings" = None
       ∨ (∃ text, storage !! "pret-notification-settings" = Some text
                  ∧ JSON_parse text = None) →
       getSettings (new storage) = (VBool true, VBool true)).
Proof.
  intros Hjson Htext. simpl. split; [done|]. split.
  - unfold new, loadSettings. simpl. rewrite lookup_insert_eq.
    rewrite (proj2 (String.eqb_neq _ _)) by done. simpl. by rewrite Hjson.
  - intros storage [Hnone|(text & Hsome & Hparse)]; unfold new, loadSettings; simpl.
    + by rewrite Hnone.
    + rewrite Hsome, Hparse. by destruct (negb _).
Qed.

End WithHost.

End AlertNotificationManagerFacts.

(** ** Properties of the camera manager *)

Module CameraManagerFacts.
Import CameraManager.

Lemma run_snoc (calls : list Call) (c : Call) (this : t) :
  run (calls ++ [c]) this = call c (run calls this).
Proof. unfold run. by rewrite foldl_app. Qed.

(** X25.  What holds of every stream, after any run of calls on a new
    manager: it is kept under its own store id; it exists only for a
    store that was initialised; and as long as it has no frame it is
    not active and has no annotations, so that an active stream always
    has a frame.  Frames sent for a store that was never initialised are
    dropped. *)
Theorem streams_invariant (calls : list Call) (id : string) (stream : CameraStream) :
  getCameraStream id (run calls new) = Some stream →
  storeId stream = id
  ∧ Initialize id ∈ calls
  ∧ (lastFrame stream = None → isActive stream = false ∧ annotations stream = [])
  ∧ (isActive stream = true → is_Some (lastFrame stream)).
Proof.
  unfold getCameraStream.
  assert (Hinv : ∀ stream,
    run calls new !! id = Some stream →
    storeId stream = id ∧ Initialize id ∈ calls
    ∧ (lastFrame stream = None → isActive stream = false ∧ annotations stream = [])).
  { clear stream. induction calls as [|c calls IH] using rev_ind; intros stream; [done|].
    rewrite run_snoc, elem_of_app, list_elem_of_singleton.
    destruct c as [store_id|store_id frameUrl notes|store_id]; cbn [call].
    - unfold initializeCameraStream.
      destruct (decide (store_id = id)) as [->|Hne].
      + rewrite lookup_insert_eq. intros [= <-]. simpl. auto.
      + rewrite lookup_insert_ne by done. intros H. destruct (IH _ H) as (? & ? & ?). auto.
    - unfold updateCameraFrame.
      destruct (run calls new !! store_id) as [old|] eqn:Hold.
      + destruct (decide (store_id = id)) as [->|Hne].
        * rewrite lookup_insert_eq. intros [= <-]. simpl.
          destruct (IH _ Hold) as (? & ? & ?). split; [done|]. split; [auto|done].
        * rewrite lookup_insert_ne by done. intros H.
          destruct (IH _ H) as (? & ? & ?). auto.
      + intros H. destruct (IH _ H) as (? & ? & ?). auto.
    - unfold stopCameraStream.
      destruct (run calls new !! store_id) as [old|] eqn:Hold.
      + destruct (decide (store_id = id)) as [->|Hne].
        * rewrite lookup_insert_eq. intros [= <-]. simpl.
          destruct (IH _ Hold) as (? & ? & Hframe). split; [done|]. split; [auto|].
          intros Hnone. destruct (Hframe Hnone) as [_ ?]. done.
        * rewrite lookup_insert_ne by done. intros H.
          destruct (IH _ H) as (? & ? & ?). auto.
      + intros H. destruct (IH _ H) as (? & ? & ?). auto. }
  intros Hstream. destruct (Hinv _ Hstream) as (Hid & Hinit & Hframe).
  repeat (split; [done|]).
  intros Hactive. destruct (lastFrame stream) as [frame|]; [by eexists|].
  destruct (Hframe eq_refl) as [Hoff _]. congruence.
Qed.

(** A frame before the stream exists, the stream, a frame, a stop. *)
Lemma streams_invariant_example :
  let calls := [ Update "s1" "blob:0" None; Initialize "s1";
                 Update "s1" "blob:1" None; Stop "s1" ] in
  getCameraStream "s1" (run calls new) = Some (mkCameraStream "s1" false (Some "blob:1") [])
  ∧ Initialize "s1" ∈ calls.
Proof.
  intros calls.
  assert (Hstream : getCameraStream "s1" (run calls new)
                    = Some (mkCameraStream "s1" false (Some "blob:1") []))
    by (vm_compute; reflexivity).
  destruct (streams_invariant calls "s1" _ Hstream) as (_ & Hinit & _).
  exact (conj Hstream Hinit).
Defined.

End CameraManagerFacts.

(** ** Properties of the map bounds *)

Module MapUtilsFacts.
Import MapUtils.

Lemma Math_min_le (a b : Q) : (Math_min a b <= a)%Q ∧ (Math_min a b <= b)%Q.
Proof.
  unfold Math_min. destruct (Qle_bool a b) eqn:Hab.
  - apply Qle_bool_iff in Hab. split; [apply Qle_refl|done].
  - split; [|apply Qle_refl]. apply Qlt_le_weak, Qnot_le_lt.
    intros Hle. apply Qle_bool_iff in Hle. congruence.
Qed.

Lemma Math_max_ge (a b : Q) : (a <= Math_max a b)%Q ∧ (b <= Math_max a b)%Q.
Proof.
  unfold Math_max. destruct (Qle_bool a b) eqn:Hab.
  - apply Qle_bool_iff in Hab. split; [done|apply Qle_refl].
  - split; [apply Qle_refl|]. apply Qlt_le_weak, Qnot_le_lt.
    intros Hle. apply Qle_bool_iff in Hle. congruence.
Qed.

(** The least of a list is below every element of it and is one of
    them; likewise the greatest. *)
Lemma minimum_spec (x : Q) (xs : list Q) :
  Forall (λ y, (minimum x xs <= y)%Q) (x :: xs) ∧ minimum x xs ∈ x :: xs.
Proof.
  unfold minimum. revert x. induction xs as [|y xs IH]; intros x; simpl.
  - split; [repeat constructor; apply Qle_refl|apply list_elem_of_here].
  - destruct (IH (Math_min x y)) as [Hall Hin].
    apply list.Forall_cons in Hall as [Hm Hxs].
    destruct (Math_min_le x y) as [Hx Hy].
    split.
    + constructor; [by eapply Qle_trans|]. constructor; [by eapply Qle_trans|done].
    + apply elem_of_cons in Hin as [->|Hin].
      * unfold Math_min. destruct (Qle_bool x y); [apply list_elem_of_here|].
        apply list_elem_of_further, list_elem_of_here.
      * by do 2 apply list_elem_of_further.
Qed.

Lemma maximum_spec (x : Q) (xs : list Q) :
  Forall (λ y, (y <= maximum x xs)%Q) (x :: xs) ∧ maximum x xs ∈ x :: xs.
Proof.
  unfold maximum. revert x. induction xs as [|y xs IH]; intros x; simpl.
  - split; [repeat constructor; apply Qle_refl|apply list_elem_of_here].
  - destruct (IH (Math_max x y)) as [Hall Hin].
    apply list.Forall_cons in Hall as [Hm Hxs].
    destruct (Math_max_ge x y) as [Hx Hy].
    split.
    + constructor; [by eapply Qle_trans|]. constructor; [by eapply Qle_trans|done].
    + apply elem_of_cons in Hin as [->|Hin].
      * unfold Math_max. destruct (Qle_bool x y); [|apply list_elem_of_here].
        apply list_elem_of_further, list_elem_of_here.
      * by do 2 apply list_elem_of_further.
Qed.

(** X26.  The bounds of a set of stores.  There are none exactly when
    there is no store.  Otherwise every store lies within them, and
    they are tight: each of the four sides is the latitude or the
    longitude of one of the stores. *)
Theorem calculateBounds_tight (coords : list (Q * Q)) :
  match calculateBounds coords with
  | None => coords = []
  | Some ((south, west), (north, east)) =>
      Forall (λ c, (south <= c.1 <= north)%Q ∧ (west <= c.2 <= east)%Q) coords
      ∧ south ∈ coords.*1 ∧ north ∈ coords.*1
      ∧ west ∈ coords.*2 ∧ east ∈ coords.*2
  end.
Proof.
  destruct coords as [|c rest]; [done|]. simpl.
  destruct (minimum_spec c.1 (fst <$> rest)) as [Hs Hs'].
  destruct (maximum_spec c.1 (fst <$> rest)) as [Hn Hn'].
  destruct (minimum_spec c.2 (snd <$> rest)) as [Hw Hw'].
  destruct (maximum_spec c.2 (snd <$> rest)) as [He He'].
  repeat (split; [|done]).
  change (c.1 :: (fst <$> rest)) with (fst <$> c :: rest) in Hs, Hn.
  change (c.2 :: (snd <$> rest)) with (snd <$> c :: rest) in Hw, He.
  rewrite list.Forall_fmap in Hs, Hn, Hw, He.
  apply list.Forall_forall. intros x Hx.
  rewrite list.Forall_forall in Hs, Hn, Hw, He.
  specialize (Hs x Hx). specialize (Hn x Hx). specialize (Hw x Hx). specialize (He x Hx).
  simpl in *. done.
Qed.

End MapUtilsFacts.

(** ** Properties of the dashboard's alerting *)

Lemma Qltb_lt (a b : Q) : Qltb a b = true ↔ (a < b)%Q.
Proof.
  unfold Qltb. rewrite negb_true_iff. split.
  - intros H. apply Qnot_le_lt. intros Hle. apply Qle_bool_iff in Hle. congruence.
  - intros H. apply not_true_is_false. intros Hle. apply Qle_bool_iff in Hle.
    by apply Qlt_not_le in H.
Qed.

(** A number above a positive bound is not zero, and not below a
    smaller bound. *)
Lemma Qltb_nonzero (c q : Q) : (0 <= c)%Q → Qltb c q = true → Qeq_bool q 0 = false.
Proof.
  intros Hc Hq. apply Qltb_lt in Hq. apply not_true_is_false. intros Hz.
  apply Qeq_bool_iff in Hz.
  assert (c < 0)%Q as Hneg by (by rewrite <- Hz). by apply Qlt_not_le in Hneg.
Qed.

Lemma Qltb_above (c d q : Q) : (d <= c)%Q → Qltb c q = true → Qltb q d = false.
Proof.
  intros Hdc Hq. apply Qltb_lt in Hq. apply not_true_is_false. intros Hd.
  apply Qltb_lt in Hd.
  assert (q < q)%Q as Hqq by (eapply Qlt_trans; [exact Hd|]; by eapply Qle_lt_trans).
  by apply Qlt_irrefl in Hqq.
Qed.

Lemma Qltb_below (c d q : Q) : (c <= d)%Q → Qltb q c = true → Qltb d q = false.
Proof.
  intros Hcd Hq. apply Qltb_lt in Hq. apply not_true_is_false. intros Hd.
  apply Qltb_lt in Hd.
  assert (q < q)%Q as Hqq by (eapply Qlt_trans; [exact Hq|]; by eapply Qle_lt_trans).
  by apply Qlt_irrefl in Hqq.
Qed.

Module DashboardFacts.
Import InventoryMonitorApp InventoryMonitorAppSpec.

Section WithHost.
Context {host : Host} {locale : Locale}.

(** What the first loop does with one reading: it raises the alert on
    the filter with the instant recorded, or changes nothing. *)
Lemma processShelfReading_decision (store : StoreLocation) (cameraFrame : option string)
    (browser : Browser) (this : t) (reading : SensorReading) (at_ : Instant) :
  processShelfReading store cameraFrame browser this (reading, at_)
  = if shelf_raised (smartFilter this) store reading at_ then
      createEmptyShelfAlert store reading cameraFrame browser at_
        (mk (state_alerts this) (alertManager this) (notificationManager this)
            (SmartAlertFilter.cleanupOldEntries (now at_)
               {| SmartAlertFilter.recentAlerts :=
                    <[SmartAlertFilter.alertKey (id store) "empty_shelf" := now at_]>
                      (SmartAlertFilter.recentAlerts (smartFilter this));
                  SmartAlertFilter.suppressionRules :=
                    SmartAlertFilter.suppressionRules (smartFilter this) |})
            (shown this))
    else this.
Proof.
  unfold shelf_raised, processShelfReading, isShelfEmpty. cbn [fst snd].
  destruct this as [state_alerts0 manager notifier filter shown0]. cbn [smartFilter].
  destruct (InventoryMonitorApp.reading reading) as [[ | b | n | s | items | props ]|];
    try done.
  destruct (Qltb n 15) eqn:H15; [|done]. cbn [andb as_number].
  unfold SmartAlertFilter.shouldSuppressAlert, shelf_window, elapsed.
  assert (Hwindow : ∀ context,
    SmartAlertFilter.getSuppressionTime filter "empty_shelf" context
    = SmartAlertFilter.getSuppressionTime filter "empty_shelf"
        (SmartAlertFilter.mkContext None None None None None)).
  { intros context. unfold SmartAlertFilter.getSuppressionTime. cbn.
    by rewrite andb_false_r. }
  rewrite (Hwindow (SmartAlertFilter.mkContext None
                      (Some (isStoreActive (hour at_) (day at_))) (Some n) None None)).
  rewrite (Z.leb_antisym _ (SmartAlertFilter.getSuppressionTime _ _ _)).
  destruct (_ <? _); [done|]. cbn [negb andb].
  assert (Hrules : SmartAlertFilter.shouldSuppressBasedOnContext "empty_shelf"
            (SmartAlertFilter.mkContext None (Some (isStoreActive (hour at_) (day at_)))
               (Some n) None None)
          = negb (isStoreActive (hour at_) (day at_) || negb (Qltb 10 n))).
  { unfold SmartAlertFilter.shouldSuppressBasedOnContext. cbn.
    rewrite (Qltb_below 15 20 n) by done. rewrite andb_false_r.
    destruct (isStoreActive _ _); [done|]. cbn.
    destruct (Qltb 10 n) eqn:H10; [|by rewrite andb_false_r].
    by rewrite (Qltb_nonzero 10 n). }
  rewrite Hrules.
  by destruct (isStoreActive (hour at_) (day at_) || negb (Qltb 10 n)).
Qed.

(** What the second loop does with one reading. *)
Lemma processTemperatureReading_decision (store : StoreLocation) (browser : Browser)
    (this : t) (reading : SensorReading) (at_ : Instant) :
  processTemperatureReading store browser this (reading, at_)
  = if temperature_raised (smartFilter this) store reading at_ then
      createTemperatureAlert store reading browser at_
        (mk (state_alerts this) (alertManager this) (notificationManager this)
            (SmartAlertFilter.cleanupOldEntries (now at_)
               {| SmartAlertFilter.recentAlerts :=
                    <[SmartAlertFilter.alertKey (id store) "temperature" := now at_]>
                      (SmartAlertFilter.recentAlerts (smartFilter this));
                  SmartAlertFilter.suppressionRules :=
                    SmartAlertFilter.suppressionRules (smartFilter this) |})
            (shown this))
    else this.
Proof.
  unfold temperature_raised, processTemperatureReading, isTemperatureAlert. cbn [fst snd].
  destruct this as [state_alerts0 manager notifier filter shown0]. cbn [smartFilter].
  destruct (InventoryMonitorApp.reading reading) as [[ | b | n | s | items | props ]|]
    eqn:Hreading; try done.
  destruct (Qltb 5 (Qabs n)) eqn:H5; [|done]. cbn [andb as_number].
  unfold SmartAlertFilter.shouldSuppressAlert, temperature_window, elapsed.
  assert (Hwindow : ∀ temperature,
    SmartAlertFilter.getSuppressionTime filter "temperature"
      (SmartAlertFilter.mkContext None (Some (isStoreActive (hour at_) (day at_)))
         None temperature None)
    = SmartAlertFilter.getSuppressionTime filter "temperature"
        (SmartAlertFilter.mkContext None (Some (isStoreActive (hour at_) (day at_)))
           None None None)) by done.
  rewrite (Hwindow (Some n)).
  rewrite (Z.leb_antisym _ (SmartAlertFilter.getSuppressionTime _ _ _)).
  destruct (_ <? _); [done|]. cbn [negb andb].
  assert (Hrules : SmartAlertFilter.shouldSuppressBasedOnContext "temperature"
            (SmartAlertFilter.mkContext None (Some (isStoreActive (hour at_) (day at_)))
               None (Some n) None) = false).
  { unfold SmartAlertFilter.shouldSuppressBasedOnContext. cbn.
    rewrite (Qltb_above 5 3 (Qabs n)), (Qltb_above 5 1 (Qabs n)) by done.
    by rewrite !andb_false_r. }
  by rewrite Hrules.
Qed.

(** What the loops rely on: a reading that raises an alert puts it at
    the head of the collection and records the instant; any other
    reading changes nothing. *)
Lemma processShelfReading_cases (store : StoreLocation) (cameraFrame : option string)
    (browser : Browser) (this : t) (reading : SensorReading) (at_ : Instant) :
  let after := processShelfReading store cameraFrame browser this (reading, at_) in
  if shelf_raised (smartFilter this) store reading at_ then
    ∃ alert,
      AlertManager.alerts (alertManager after)
      = alert :: AlertManager.alerts (alertManager this)
      ∧ state_alerts after = AlertManager.alerts (alertManager after)
      ∧ obj_get alert "id" = Some (VStr (generateId (now at_) (rnd at_)))
      ∧ obj_get alert "type" = Some (VStr "empty_shelf")
      ∧ obj_get alert "read" = Some (VBool false)
      ∧ SmartAlertFilter.recentAlerts (smartFilter after)
          !! SmartAlertFilter.alertKey (id store) "empty_shelf" = Some (now at_)
      ∧ SmartAlertFilter.suppressionRules (smartFilter after)
        = SmartAlertFilter.suppressionRules (smartFilter this)
  else after = this.
Proof.
  intros after. subst after. rewrite processShelfReading_decision.
  destruct (shelf_raised _ _ _ _); [|done].
  destruct (SmartAlertFilterFacts.recorded_and_purged
              (SmartAlertFilter.alertKey (id store) "empty_shelf") (now at_)
              (smartFilter this)) as (Hkey & _ & Hkept).
  eexists. split; [reflexivity|]. split; [reflexivity|].
  unfold frame_or_undefined.
  repeat split; try (destruct cameraFrame as [url|]; [destruct (String.eqb url "")|];
                     reflexivity).
  exact Hkey.
Qed.

Lemma processTemperatureReading_cases (store : StoreLocation) (browser : Browser)
    (this : t) (reading : SensorReading) (at_ : Instant) :
  let after := processTemperatureReading store browser this (reading, at_) in
  if temperature_raised (smartFilter this) store reading at_ then
    ∃ alert,
      AlertManager.alerts (alertManager after)
      = alert :: AlertManager.alerts (alertManager this)
      ∧ obj_get alert "type" = Some (VStr "temperature")
      ∧ SmartAlertFilter.recentAlerts (smartFilter after)
          !! SmartAlertFilter.alertKey (id store) "temperature" = Some (now at_)
      ∧ SmartAlertFilter.suppressionRules (smartFilter after)
        = SmartAlertFilter.suppressionRules (smartFilter this)
  else after = this.
Proof.
  intros after. subst after. rewrite processTemperatureReading_decision.
  unfold temperature_raised.
  destruct (InventoryMonitorApp.reading reading) as [[ | b | n | s | items | props ]|]
    eqn:Hreading; try done.
  destruct (_ && _); [|done].
  destruct (SmartAlertFilterFacts.recorded_and_purged
              (SmartAlertFilter.alertKey (id store) "temperature") (now at_)
              (smartFilter this)) as (Hkey & _ & Hkept).
  unfold createTemperatureAlert. rewrite !Hreading.
  eexists. split; [reflexivity|]. split; [reflexivity|]. split; [exact Hkey|exact Hkept].
Qed.

(** X27.  When the dashboard raises an alert for a shelf reading.  It
    does so exactly when the reading is a number below 15, the window
    of the store for empty shelves has run out, and the store is within
    business hours or the reading is at most 10: outside business hours
    a shelf between 10 and 15 percent raises nothing.  The alert is
    added at the head of the collection, which the dashboard then shows;
    it is unread and its severity is [medium] whatever the reading is,
    because the reading is not handed to the store.  In every other
    case nothing at all changes. *)
Theorem shelf_reading_raises (store : StoreLocation) (cameraFrame : option string)
    (browser : Browser) (this : t) (reading : SensorReading) (at_ : Instant) :
  let after := processShelfReading store cameraFrame browser this (reading, at_) in
  if shelf_raised (smartFilter this) store reading at_ then
    ∃ alert,
      AlertManager.alerts (alertManager after)
      = alert :: AlertManager.alerts (alertManager this)
      ∧ state_alerts after = AlertManager.alerts (alertManager after)
      ∧ obj_get alert "id" = Some (VStr (generateId (now at_) (rnd at_)))
      ∧ obj_get alert "storeId" = Some (VStr (id store))
      ∧ obj_get alert "type" = Some (VStr "empty_shelf")
      ∧ obj_get alert "severity" = Some (VStr "medium")
      ∧ obj_get alert "confidence" = Some (VNum 95)
      ∧ obj_get alert "read" = Some (VBool false)
      ∧ SmartAlertFilter.recentAlerts (smartFilter after)
          !! SmartAlertFilter.alertKey (id store) "empty_shelf" = Some (now at_)
      ∧ SmartAlertFilter.suppressionRules (smartFilter after)
        = SmartAlertFilter.suppressionRules (smartFilter this)
  else after = this.
Proof.
  intros after. subst after. rewrite processShelfReading_decision.
  destruct (shelf_raised _ _ _ _); [|done].
  destruct (SmartAlertFilterFacts.recorded_and_purged
              (SmartAlertFilter.alertKey (id store) "empty_shelf") (now at_)
              (smartFilter this)) as (Hkey & _ & Hkept).
  eexists. split; [reflexivity|]. split; [reflexivity|].
  unfold frame_or_undefined.
  repeat split; try (destruct cameraFrame as [url|]; [destruct (String.eqb url "")|];
                     reflexivity).
  exact Hkey.
Qed.

(** X28.  When the dashboard raises an alert for a temperature
    reading.  It does so exactly when the reading is a number whose
    absolute value is above 5 and the window of the store for
    temperatures has run out: the context rules of the filter never stop
    such a reading.  The alert carries the reading, and its severity is
    [critical] above 10 degrees and [high] otherwise, never lower.  In
    every other case nothing at all changes. *)
Theorem temperature_reading_raises (store : StoreLocation) (browser : Browser)
    (this : t) (reading : SensorReading) (at_ : Instant) :
  let after := processTemperatureReading store browser this (reading, at_) in
  if temperature_raised (smartFilter this) store reading at_ then
    ∃ alert n,
      InventoryMonitorApp.reading reading = Some (VNum n)
      ∧ AlertManager.alerts (alertManager after)
        = alert :: AlertManager.alerts (alertManager this)
      ∧ state_alerts after = AlertManager.alerts (alertManager after)
      ∧ obj_get alert "storeId" = Some (VStr (id store))
      ∧ obj_get alert "type" = Some (VStr "temperature")
      ∧ obj_get alert "temperature" = Some (VNum n)
      ∧ obj_get alert "severity"
        = Some (VStr (if Qltb 10 (Qabs n) then "critical" else "high"))
      ∧ obj_get alert "read" = Some (VBool false)
      ∧ SmartAlertFilter.recentAlerts (smartFilter after)
          !! SmartAlertFilter.alertKey (id store) "temperature" = Some (now at_)
      ∧ SmartAlertFilter.suppressionRules (smartFilter after)
        = SmartAlertFilter.suppressionRules (smartFilter this)
  else after = this.
Proof.
  intros after. subst after. rewrite processTemperatureReading_decision.
  unfold temperature_raised.
  destruct (InventoryMonitorApp.reading reading) as [[ | b | n | s | items | props ]|]
    eqn:Hreading; try done.
  destruct (Qltb 5 (Qabs n)) eqn:H5; [|done]. cbn [andb].
  destruct (_ <=? _); [|done].
  assert (Hzero : Qeq_bool n 0 = false).
  { apply not_true_is_false. intros Hz. apply Qeq_bool_iff in Hz.
    apply Qltb_lt in H5. rewrite Hz in H5. by vm_compute in H5. }
  destruct (SmartAlertFilterFacts.recorded_and_purged
              (SmartAlertFilter.alertKey (id store) "temperature") (now at_)
              (smartFilter this)) as (Hkey & _ & Hkept).
  unfold createTemperatureAlert. rewrite !Hreading.
  eexists _, n. split; [reflexivity|]. split; [reflexivity|]. split; [reflexivity|].
  split; [reflexivity|]. split; [reflexivity|]. split; [reflexivity|].
  split; [|split; [reflexivity|split; [exact Hkey|exact Hkept]]].
  unfold AlertManager.addAlert, AlertManager.newAlert.
  cbn [fst snd AlertManager.alerts AlertManager.getAlerts].
  rewrite obj_get_spread_other by compute_done.
  cbn -[calculateAlertSeverity]. do 2 f_equal.
  unfold calculateAlertSeverity. cbn.
  rewrite Hzero. cbn. rewrite H5. by destruct (Qltb 10 (Qabs n)).
Qed.

(** A loop whose steps raise one alert at most: as long as it is
    [open] a step changes nothing or raises an alert and closes it, and
    once it is [closed] no step changes anything. *)
Lemma loop_at_most_one {Item} (step : t → Item → t) (open closed : t → Prop)
    (kind : object → Prop) (items : list Item) :
  (∀ st item, item ∈ items → open st →
     step st item = st
     ∨ ∃ alert,
         AlertManager.alerts (alertManager (step st item))
         = alert :: AlertManager.alerts (alertManager st)
         ∧ kind alert ∧ closed (step st item)) →
  (∀ st item, item ∈ items → closed st → step st item = st) →
  ∀ st, open st →
  let after := foldl step st items in
  (after = st ∨ closed after)
  ∧ ∃ added,
      AlertManager.alerts (alertManager after)
      = (added ++ AlertManager.alerts (alertManager st))%list
      ∧ (length added <= 1)%nat ∧ Forall kind added.
Proof.
  intros Hopen Hclosed.
  assert (Hstay : ∀ rest st, rest ⊆ items → closed st → foldl step st rest = st).
  { induction rest as [|item rest IH]; intros st Hsub Hst; [done|]. simpl.
    rewrite Hclosed; [|apply Hsub, list_elem_of_here|done].
    apply IH; [|done]. intros x Hx. by apply Hsub, list_elem_of_further. }
  assert (Hgen : ∀ rest st, rest ⊆ items → open st →
    (foldl step st rest = st ∨ closed (foldl step st rest))
    ∧ ∃ added,
        AlertManager.alerts (alertManager (foldl step st rest))
        = (added ++ AlertManager.alerts (alertManager st))%list
        ∧ (length added <= 1)%nat ∧ Forall kind added).
  { induction rest as [|item rest IH]; intros st Hsub Hst.
    - split; [by left|]. exists []. split; [done|]. split; [simpl; lia|constructor].
    - simpl.
      destruct (Hopen st item) as [Hsame|(alert & Halerts & Hkind & Hnow)];
        [apply Hsub, list_elem_of_here|done| |].
      + rewrite Hsame. apply IH; [|done]. intros x Hx. by apply Hsub, list_elem_of_further.
      + rewrite Hstay; [|intros x Hx; by apply Hsub, list_elem_of_further|done].
        split; [by right|]. exists [alert]. split; [done|]. split; [simpl; lia|].
        by constructor. }
  intros st Hst. by apply Hgen.
Qed.

(** Without a custom rule the windows are at least five minutes. *)
Lemma shelf_window_default (filter : SmartAlertFilter.t) :
  SmartAlertFilter.truthy_ms (SmartAlertFilter.suppressionRules filter !! "empty_shelf")
  = false →
  shelf_window filter = 300000.
Proof.
  intros Hrule. unfold shelf_window, SmartAlertFilter.getSuppressionTime.
  cbn zeta. by rewrite Hrule.
Qed.

Lemma temperature_window_default (filter : SmartAlertFilter.t) (at_ : Instant) :
  SmartAlertFilter.truthy_ms (SmartAlertFilter.suppressionRules filter !! "temperature")
  = false →
  300000 <= temperature_window filter at_.
Proof.
  intros Hrule. unfold temperature_window, SmartAlertFilter.getSuppressionTime.
  cbn zeta. rewrite Hrule. cbn. by destruct (isStoreActive _ _).
Qed.

(** X29.  One poll of a store raises one alert of each type at most.
    Let no custom rule be in force for the two types, and let the poll
    take less than five minutes from its first reading to its last.
    Then however many shelves are empty and however many sensors are
    out of range, [processStoreData] adds at most one [empty_shelf]
    alert and at most one [temperature] alert, the temperature alert
    last. *)
Theorem processStoreData_one_per_type (store : StoreLocation)
    (sensorData : list (SensorReading * Instant)) (cameraFrame : option string)
    (tempData : list (SensorReading * Instant)) (browser : Browser) (this : t)
    (start : Z) :
  SmartAlertFilter.truthy_ms
    (SmartAlertFilter.suppressionRules (smartFilter this) !! "empty_shelf") = false →
  SmartAlertFilter.truthy_ms
    (SmartAlertFilter.suppressionRules (smartFilter this) !! "temperature") = false →
  Forall (λ item, start <= now item.2 < start + 300000) (sensorData ++ tempData)%list →
  let after := processStoreData store sensorData cameraFrame tempData browser this in
  ∃ shelf temp,
    AlertManager.alerts (alertManager after)
    = (temp ++ shelf ++ AlertManager.alerts (alertManager this))%list
    ∧ (length shelf <= 1)%nat ∧ (length temp <= 1)%nat
    ∧ Forall (λ a, obj_get a "type" = Some (VStr "empty_shelf")) shelf
    ∧ Forall (λ a, obj_get a "type" = Some (VStr "temperature")) temp.
Proof.
  intros Hshelf Htemp Hspan after. subst after. unfold processStoreData.
  apply Forall_app in Hspan as [Hspan1 Hspan2].
  rewrite list.Forall_forall in Hspan1, Hspan2.
  set (rules := SmartAlertFilter.suppressionRules (smartFilter this)).
  set (recent type st :=
         ∃ time, SmartAlertFilter.recentAlerts (smartFilter st)
                   !! SmartAlertFilter.alertKey (id store) type = Some time
                 ∧ start <= time < start + 300000).
  set (same_rules st := SmartAlertFilter.suppressionRules (smartFilter st) = rules).
  destruct (loop_at_most_one (processShelfReading store cameraFrame browser)
              same_rules (λ st, same_rules st ∧ recent "empty_shelf" st)
              (λ a, obj_get a "type" = Some (VStr "empty_shelf")) sensorData)
    with (st := this) as (Hfirst & shelf & Halerts1 & Hlen1 & Hkind1).
  { intros st [reading at_] Hin Hrules.
    pose proof (processShelfReading_cases store cameraFrame browser st reading at_) as Hc.
    cbv zeta in Hc. destruct (shelf_raised _ _ _ _); [right|by left].
    destruct Hc as (alert & Ha & _ & _ & Htype & _ & Hkey & Hkept).
    exists alert. split; [done|]. split; [done|].
    split; [unfold same_rules; by rewrite Hkept|].
    exists (now at_). split; [done|]. exact (Hspan1 _ Hin). }
  { intros st [reading at_] Hin [Hrules (time & Hkey & Htime)].
    pose proof (processShelfReading_cases store cameraFrame browser st reading at_) as Hc.
    cbv zeta in Hc.
    assert (shelf_raised (smartFilter st) store reading at_ = false) as Hno;
      [|by rewrite Hno in Hc].
    unfold shelf_raised. destruct (InventoryMonitorApp.reading reading) as [[]|]; try done.
    rewrite shelf_window_default by (by rewrite Hrules).
    unfold elapsed. rewrite Hkey. cbn [SmartAlertFilter.or_zero].
    pose proof (Hspan1 _ Hin) as Hnow. cbn [snd] in Hnow.
    rewrite (proj2 (Z.leb_gt _ _)) by lia. by rewrite andb_false_r. }
  { done. }
  set (middle := foldl (processShelfReading store cameraFrame browser) this sensorData) in *.
  assert (Hrules1 : same_rules middle).
  { destruct Hfirst as [->|[? _]]; done. }
  destruct (loop_at_most_one (processTemperatureReading store browser)
              same_rules (λ st, same_rules st ∧ recent "temperature" st)
              (λ a, obj_get a "type" = Some (VStr "temperature")) tempData)
    with (st := middle) as (_ & temp & Halerts2 & Hlen2 & Hkind2).
  { intros st [reading at_] Hin Hrules.
    pose proof (processTemperatureReading_cases store browser st reading at_) as Hc.
    cbv zeta in Hc. destruct (temperature_raised _ _ _ _); [right|by left].
    destruct Hc as (alert & Ha & Htype & Hkey & Hkept).
    exists alert. split; [done|]. split; [done|].
    split; [unfold same_rules; by rewrite Hkept|].
    exists (now at_). split; [done|]. exact (Hspan2 _ Hin). }
  { intros st [reading at_] Hin [Hrules (time & Hkey & Htime)].
    pose proof (processTemperatureReading_cases store browser st reading at_) as Hc.
    cbv zeta in Hc.
    assert (temperature_raised (smartFilter st) store reading at_ = false) as Hno;
      [|by rewrite Hno in Hc].
    unfold temperature_raised.
    destruct (InventoryMonitorApp.reading reading) as [[]|]; try done.
    pose proof (temperature_window_default (smartFilter st) at_) as Hwin.
    rewrite Hrules in Hwin. specialize (Hwin Htemp).
    unfold elapsed. rewrite Hkey. cbn [SmartAlertFilter.or_zero].
    pose proof (Hspan2 _ Hin) as Hnow. cbn [snd] in Hnow.
    rewrite (proj2 (Z.leb_gt _ _)) by lia. by rewrite andb_false_r. }
  { done. }
  exists shelf, temp. rewrite Halerts2, Halerts1. done.
Qed.

(** X30.  What the dashboard can open.  The dashboard looks an alert
    up in its own list.  That list is empty until the dashboard raises
    an alert: on a new application [openAlert] changes nothing, whatever
    the store has loaded from storage.  Once a shelf reading has raised
    an alert, opening it by its id marks it as read in the store and
    leaves everything else of it as it was; one alert fewer is unread,
    and the dashboard's list is the store's collection again. *)
Theorem openAlert_raised (store : StoreLocation) (cameraFrame : option string)
    (browser : Browser) (this : t) (reading : SensorReading) (at_ : Instant)
    (storage : gmap string string) :
  shelf_raised (smartFilter this) store reading at_ = true →
  let after := processShelfReading store cameraFrame browser this (reading, at_) in
  let alertId := generateId (now at_) (rnd at_) in
  let opened := openAlert alertId after in
  openAlert alertId (new storage) = new storage
  ∧ ∃ alert,
      AlertManager.alerts (alertManager after)
      = alert :: AlertManager.alerts (alertManager this)
      ∧ AlertManager.alerts (alertManager opened)
        = obj_set "read" (VBool true) alert :: AlertManager.alerts (alertManager this)
      ∧ state_alerts opened = AlertManager.alerts (alertManager opened)
      ∧ (AlertManager.getUnreadCount None (alertManager opened)).1
        = (AlertManager.getUnreadCount None (alertManager after)).1 - 1.
Proof.
  intros Hraised after alertId opened. split; [done|].
  pose proof (processShelfReading_cases store cameraFrame browser this reading at_) as Hc.
  cbv zeta in Hc. rewrite Hraised in Hc. fold after in Hc.
  destruct Hc as (alert & Halerts & Hlist & Hid & _ & Hread & _).
  exists alert. split; [done|].
  assert (Hopened : opened
    = mk (obj_set "read" (VBool true) alert :: AlertManager.alerts (alertManager this))
         (AlertManager.notifyListeners (AlertManager.saveToStorage
            (AlertManager.with_alerts
               (obj_set "read" (VBool true) alert
                :: AlertManager.alerts (alertManager this)) (alertManager after))))
         (notificationManager after) (smartFilter after) (shown after)).
  { subst opened. unfold openAlert. rewrite Hlist, Halerts. cbn [List.find].
    rewrite Hid. cbn [strict_eq_string]. subst alertId. rewrite String.eqb_refl.
    unfold AlertManager.markAsRead. rewrite Halerts. cbn [AlertManager.markFirst].
    rewrite Hid, Hread. cbn [strict_eq_string truthy negb]. rewrite String.eqb_refl.
    reflexivity. }
  rewrite Hopened. cbn [alertManager state_alerts].
  split; [done|]. split; [done|].
  unfold AlertManager.getUnreadCount, AlertManager.getAlerts. cbn.
  rewrite Halerts. cbn. rewrite obj_get_set, Hread. cbn. lia.
Qed.

End WithHost.

End DashboardFacts.

(** ** The further statements on concrete inputs *)

Module MoreExamples.
Import AlertManager AlertManagerSpec AlertManagerFacts AlertManagerRest Sample.

(** X15 on [two]: clearing it. *)
Lemma mutate_announced_example :
  let after := clearAll (host := ReferenceHost.host) two in
  after = two
  ∨ (persisted (host := ReferenceHost.host) after
     ∧ listeners after = listeners two
     ∧ delivered after
       = (delivered two ++ ((λ listener, (listener, alerts after)) <$> listeners two))%list).
Proof.
  apply (AlertManagerMore.mutate_announced (host := ReferenceHost.host) ClearAll two).
  reflexivity.
Defined.

(** X17 on the two alerts of [two]. *)
Lemma notificationQueue_fifo_example :
  let calls := [ (1700000000000, "k3j9x0q2a", failure); (1700000060000, "p0o9i8u7y", warm) ] in
  let added := addAlerts (host := ReferenceHost.host) calls empty in
  let drained :=
    Nat.iter 2 (processQueue (host := ReferenceHost.host) DashboardSample.granted)
      (added, []) in
  notificationQueue drained.1 = []
  ∧ alerts drained.1 = alerts added
  ∧ drained.2
    = foldl (λ shown alert,
               sendPushNotification (host := ReferenceHost.host) DashboardSample.granted
                 alert shown)
        [] (newAlertOf (host := ReferenceHost.host) <$> calls).
Proof.
  intros calls added drained.
  destruct (AlertManagerMore.notificationQueue_fifo (host := ReferenceHost.host)
              DashboardSample.granted calls empty [] eq_refl)
    as (Hqueue & Halerts & Hshown & _).
  exact (conj Hqueue (conj Halerts Hshown)).
Defined.

(** X18 on a message of two lines. *)
Lemma notification_body_example :
  ∃ p,
    payload (host := ReferenceHost.host) DashboardSample.two_lines = Some p
    ∧ obj_get p "body" = Some (VStr "Temperature: 8.5")
    ∧ obj_get p "requireInteraction" = Some (VBool false).
Proof.
  destruct (NotificationFacts.notification_body (host := ReferenceHost.host)
              DashboardSample.two_lines _ eq_refl)
    as (p & Hp & _ & Hbody & _ & _ & _ & Hrequire & _).
  exact (ex_intro _ p (conj Hp (conj Hbody Hrequire))).
Defined.

Lemma two_persisted : persisted (host := ReferenceHost.host) two.
Proof. apply persisted_addAlerts. by right. Qed.

(** X19 on [two]. *)
Lemma restart_restores_example :
  alerts (new (host := ReferenceHost.host) (localStorage two)) = alerts two.
Proof.
  assert (Htext : JSON_stringify (Host := ReferenceHost.host)
                    (VArr (VObj <$> take 1000 (alerts two))) 0 ≠ "")
    by (vm_compute; discriminate).
  destruct (NotificationFacts.restart_restores (host := ReferenceHost.host) two
              ReferenceHost_roundtrip two_persisted Htext) as (_ & _ & _ & Hall).
  apply Hall; [vm_compute; lia|repeat constructor].
Defined.

(** X20 two hours and five minutes after the timestamp. *)
Lemma formatRelativeTime_buckets_example :
  formatRelativeTime (H := ReferenceLocale.host) (H0 := ReferenceLocale.locale)
    "1700000000000" 1700007500000 = "2h ago".
Proof.
  destruct (formatRelativeTime_buckets (H := ReferenceLocale.host)
              (H0 := ReferenceLocale.locale) "1700000000000" 1700007500000 1700000000000
              eq_refl) as (_ & _ & Hhours & _).
  apply Hhours. lia.
Defined.

(** X22 on a number. *)
Lemma storage_roundtrip_example :
  storage.get (host := ReferenceHost.host) "pret-zoom" VNull
    (storage.set (host := ReferenceHost.host) "pret-zoom" (VNum 12) ∅).2 = VNum 12.
Proof.
  assert (Htext : JSON_stringify (Host := ReferenceHost.host) (VNum 12) 0 ≠ "")
    by (vm_compute; discriminate).
  destruct (UtilsFacts.storage_roundtrip (host := ReferenceHost.host) "pret-zoom" "other"
              (VNum 12) VNull ∅ ReferenceHost_roundtrip Htext) as (Hget & _).
  exact Hget.
Defined.

(** X24: notifications off, sounds on. *)
Lemma settings_roundtrip_example :
  let saved :=
    AlertNotificationManager.setSoundEnabled (host := ReferenceHost.host) true
      (AlertNotificationManager.setEnabled (host := ReferenceHost.host) false
         (AlertNotificationManager.new (host := ReferenceHost.host) ∅)) in
  AlertNotificationManager.getSettings
    (AlertNotificationManager.new (host := ReferenceHost.host)
       (AlertNotificationManager.localStorage saved))
  = (VBool false, VBool true).
Proof.
  assert (Htext : JSON_stringify (Host := ReferenceHost.host)
                    (VObj [("enabled", VBool false); ("soundEnabled", VBool true)]) 0 ≠ "")
    by (vm_compute; discriminate).
  destruct (AlertNotificationManagerFacts.settings_roundtrip (host := ReferenceHost.host)
              false true (AlertNotificationManager.new (host := ReferenceHost.host) ∅)
              ReferenceHost_roundtrip Htext) as (_ & Hrestart & _).
  exact Hrestart.
Defined.

Lemma two_typed : Forall typed (alerts two).
Proof.
  apply list.Forall_forall. intros alert Hin.
  apply list.elem_of_cons in Hin as [->|Hin];
    [|apply list.elem_of_cons in Hin as [->|Hin]; [|by apply list.elem_of_nil in Hin]].
  - split; [exists "temperature"; split; [reflexivity|by right; left]|].
    by exists high.
  - split; [exists "equipment_failure"; split; [reflexivity|by right; right]|].
    by exists low.
Qed.

(** X13 on [two]: two alerts, one of them for a temperature. *)
Lemma getStatistics_consistent_example :
  let r := getStatistics (host := ReferenceHost.host) 1700000120000 two in
  sum_counts (byType r.1) = 2 ∧ count_or_zero (byType r.1 !! "temperature") = 1.
Proof.
  destruct (AlertManagerMore.getStatistics_consistent (host := ReferenceHost.host)
              1700000120000 two) as (_ & Htotal & _ & _ & _ & _ & Hcounts).
  destruct (Hcounts two_typed) as (Hsum & _ & _ & _ & Hcount & _).
  split.
  - etransitivity; [exact Hsum|]. etransitivity; [exact Htotal|]. reflexivity.
  - etransitivity; [exact (Hcount "temperature")|]. reflexivity.
Defined.

(** X23 on a payload inside an array. *)
Lemma deepClone_equal_example :
  deepClone (VArr [VObj warm; VNull]) = Some (VArr [VObj warm; VNull]).
Proof.
  exact (proj2 (proj1 (UtilsFacts.deepClone_equal (VArr [VObj warm; VNull]))) eq_refl).
Defined.

End MoreExamples.

Module DashboardExamples.
Import InventoryMonitorApp InventoryMonitorAppSpec DashboardFacts DashboardSample.

(** X29 on a poll with two empty shelves and two sensors out of
    range. *)
Lemma processStoreData_one_per_type_example :
  let after :=
    processStoreData (host := ReferenceLocale.host) (locale := ReferenceLocale.locale)
      fifth_avenue sensorData None tempData granted app in
  ∃ shelf temp,
    AlertManager.alerts (alertManager after)
    = (temp ++ shelf ++ AlertManager.alerts (alertManager app))%list
    ∧ (length shelf <= 1)%nat ∧ (length temp <= 1)%nat
    ∧ Forall (λ a, obj_get a "type" = Some (VStr "empty_shelf")) shelf
    ∧ Forall (λ a, obj_get a "type" = Some (VStr "temperature")) temp.
Proof.
  apply (processStoreData_one_per_type (host := ReferenceLocale.host)
           (locale := ReferenceLocale.locale) fifth_avenue sensorData None tempData
           granted app 1700000000000); [reflexivity|reflexivity|].
  repeat constructor; simpl; lia.
Defined.

(** X30 on the first empty shelf of the poll. *)
Lemma openAlert_raised_example :
  let after :=
    processShelfReading (host := ReferenceLocale.host) (locale := ReferenceLocale.locale)
      fifth_avenue None granted app (shelf "B-1" 3, noon) in
  let opened :=
    openAlert (host := ReferenceLocale.host) "1700000000000-k3j9x0q2a" after in
  ∃ alert,
    AlertManager.alerts (alertManager after) = [alert]
    ∧ AlertManager.alerts (alertManager opened) = [obj_set "read" (VBool true) alert]
    ∧ state_alerts opened = AlertManager.alerts (alertManager opened).
Proof.
  destruct (openAlert_raised (host := ReferenceLocale.host)
              (locale := ReferenceLocale.locale) fifth_avenue None granted app
              (shelf "B-1" 3) noon ∅ eq_refl)
    as (_ & alert & Hafter & Hopened & Hlist & _).
  exact (ex_intro _ alert (conj Hafter (conj Hopened Hlist))).
Defined.

End DashboardExamples.
